(** * Service orders: phase state machine and payment ledger

    A shallow embedding of the order life cycle of [service_control]:
    [models.py] (the [ServiceOrder] row and its [save]) and the views of
    [api_views.py] that move an order between phases, book payments, replace
    line items and list orders by phase.

    Conventions of the embedding.
    - A Django table is the list of its rows; rows of one table have
      pairwise distinct primary keys, so a query-set loop that mutates and
      saves each row it yields is a map over the table.  The two loops of
      the listing view are given both ways, [sweep_loop] and [flag_loop]
      being the source's statements, and lemmas [sweep_as_loop] and
      [flag_as_loop] show that they are those maps.
    - A nullable column is an [option]; [None] is SQL NULL / Python [None].
    - A [DecimalField(max_digits=10, decimal_places=2)] value is the integer
      number of hundredths ([Decimal("12.34")] is [1234]); Python's [Decimal]
      addition, subtraction and comparison at two places are exact, hence
      plain [Z] arithmetic.  The digit bound of the column is a matter of
      the storage engine and is left out.
    - [date.today()] and [timezone.now()] are read once per request and
      passed in as [today] (a day number) and [now] (a time stamp).
    - A view returns its [Response] together with the store it leaves. *)

From Stdlib Require Import ZArith List String Ascii Bool Lia.
Import ListNotations.
Local Open Scope string_scope.
Local Open Scope list_scope.
Local Open Scope Z_scope.

(** ** Scalars *)

Definition Decimal := Z.
Definition date := Z.
Definition datetime := Z.

(** Python truthiness of the values the views test with [if], [and], [or]. *)
Definition truthy_str (s : option string) : bool :=
  match s with
  | Some (String _ _) => true
  | _ => false
  end.

(** [x or y] on a nullable decimal [x]: [None] and zero are falsy. *)
Definition or_dec (x : option Decimal) (y : Decimal) : Decimal :=
  match x with
  | Some v => if v =? 0 then y else v
  | None => y
  end.

Definition is_some {A} (x : option A) : bool :=
  match x with Some _ => true | None => false end.

(** [", ".join(l)] *)
Fixpoint join (sep : string) (l : list string) : string :=
  match l with
  | [] => EmptyString
  | [x] => x
  | x :: t => append x (append sep (join sep t))
  end.

(** [x in l] on a list of strings. *)
Definition mem_str (x : string) (l : list string) : bool :=
  existsb (String.eqb x) l.

(** ** Rows *)

(** [ServiceOrderPhase]: a row of the phase registry. *)
Record ServiceOrderPhase := {
  phase_id : Z;
  name : string
}.

(** [Event]: only the date takes part in the life cycle. *)
Record Event := {
  event_id : Z;
  event_date : option date
}.

(** [Person], with [person_type.type] inlined. *)
Record Person := {
  person_id : Z;
  person_type : string
}.

(** [request.user]; [getattr(request.user, "person", None)] is [person]. *)
Record User := {
  user_id : Z;
  person : option Person
}.

(** One entry of the [payment_details] JSON list.  [amount] is
    [float(item["amount"])] of a two-place decimal, kept in hundredths;
    [data] is the ISO text of a time stamp (or of the order date). *)
Record PaymentDetail := {
  amount : Decimal;
  forma_pagamento : string;
  tipo : string;
  data : Z
}.

(** [ServiceOrder]: the columns the life cycle reads or writes.  Foreign
    keys to [Person] hold the person's id; [event] and [service_order_phase]
    hold the joined row (the views read [order.event.event_date] and
    [order.service_order_phase.name]). *)
Record ServiceOrder := {
  order_id : Z;
  renter : option Z;
  employee : option Z;
  attendant : option Z;
  order_date : date;
  event : option Event;
  renter_role : option string;
  total_value : option Decimal;
  advance_payment : option Decimal;
  remaining_payment : option Decimal;
  payment_method : option string;
  payment_details : option (list PaymentDetail);
  came_from : option string;
  purchase : bool;
  service_type : option string;
  service_order_phase : option ServiceOrderPhase;
  justification_refusal : option string;
  prova_date : option date;
  retirada_date : option date;
  devolucao_date : option date;
  data_devolvido : option datetime;
  data_retirado : option datetime;
  data_finalizado : option date;
  esta_atrasada : bool;
  production_date : option date;
  is_virtual : bool;
  date_updated : option datetime;
  updated_by : option Z
}.

Definition set_renter (v : option Z) (o : ServiceOrder) : ServiceOrder :=
  {| order_id := order_id o; renter := v; employee := employee o;
     attendant := attendant o; order_date := order_date o; event := event o;
     renter_role := renter_role o; total_value := total_value o;
     advance_payment := advance_payment o;
     remaining_payment := remaining_payment o;
     payment_method := payment_method o;
     payment_details := payment_details o; came_from := came_from o;
     purchase := purchase o; service_type := service_type o;
     service_order_phase := service_order_phase o;
     justification_refusal := justification_refusal o;
     prova_date := prova_date o; retirada_date := retirada_date o;
     devolucao_date := devolucao_date o; data_devolvido := data_devolvido o;
     data_retirado := data_retirado o; data_finalizado := data_finalizado o;
     esta_atrasada := esta_atrasada o; production_date := production_date o;
     is_virtual := is_virtual o; date_updated := date_updated o;
     updated_by := updated_by o |}.

Definition set_employee (v : option Z) (o : ServiceOrder) : ServiceOrder :=
  {| order_id := order_id o; renter := renter o; employee := v;
     attendant := attendant o; order_date := order_date o; event := event o;
     renter_role := renter_role o; total_value := total_value o;
     advance_payment := advance_payment o;
     remaining_payment := remaining_payment o;
     payment_method := payment_method o;
     payment_details := payment_details o; came_from := came_from o;
     purchase := purchase o; service_type := service_type o;
     service_order_phase := service_order_phase o;
     justification_refusal := justification_refusal o;
     prova_date := prova_date o; retirada_date := retirada_date o;
     devolucao_date := devolucao_date o; data_devolvido := data_devolvido o;
     data_retirado := data_retirado o; data_finalizado := data_finalizado o;
     esta_atrasada := esta_atrasada o; production_date := production_date o;
     is_virtual := is_virtual o; date_updated := date_updated o;
     updated_by := updated_by o |}.

Definition set_renter_role (v : option string) (o : ServiceOrder) : ServiceOrder :=
  {| order_id := order_id o; renter := renter o; employee := employee o;
     attendant := attendant o; order_date := order_date o; event := event o;
     renter_role := v; total_value := total_value o;
     advance_payment := advance_payment o;
     remaining_payment := remaining_payment o;
     payment_method := payment_method o;
     payment_details := payment_details o; came_from := came_from o;
     purchase := purchase o; service_type := service_type o;
     service_order_phase := service_order_phase o;
     justification_refusal := justification_refusal o;
     prova_date := prova_date o; retirada_date := retirada_date o;
     devolucao_date := devolucao_date o; data_devolvido := data_devolvido o;
     data_retirado := data_retirado o; data_finalizado := data_finalizado o;
     esta_atrasada := esta_atrasada o; production_date := production_date o;
     is_virtual := is_virtual o; date_updated := date_updated o;
     updated_by := updated_by o |}.

Definition set_total_value (v : option Decimal) (o : ServiceOrder) : ServiceOrder :=
  {| order_id := order_id o; renter := renter o; employee := employee o;
     attendant := attendant o; order_date := order_date o; event := event o;
     renter_role := renter_role o; total_value := v;
     advance_payment := advance_payment o;
     remaining_payment := remaining_payment o;
     payment_method := payment_method o;
     payment_details := payment_details o; came_from := came_from o;
     purchase := purchase o; service_type := service_type o;
     service_order_phase := service_order_phase o;
     justification_refusal := justification_refusal o;
     prova_date := prova_date o; retirada_date := retirada_date o;
     devolucao_date := devolucao_date o; data_devolvido := data_devolvido o;
     data_retirado := data_retirado o; data_finalizado := data_finalizado o;
     esta_atrasada := esta_atrasada o; production_date := production_date o;
     is_virtual := is_virtual o; date_updated := date_updated o;
     updated_by := updated_by o |}.

Definition set_advance_payment (v : option Decimal) (o : ServiceOrder) : ServiceOrder :=
  {| order_id := order_id o; renter := renter o; employee := employee o;
     attendant := attendant o; order_date := order_date o; event := event o;
     renter_role := renter_role o; total_value := total_value o;
     advance_payment := v; remaining_payment := remaining_payment o;
     payment_method := payment_method o;
     payment_details := payment_details o; came_from := came_from o;
     purchase := purchase o; service_type := service_type o;
     service_order_phase := service_order_phase o;
     justification_refusal := justification_refusal o;
     prova_date := prova_date o; retirada_date := retirada_date o;
     devolucao_date := devolucao_date o; data_devolvido := data_devolvido o;
     data_retirado := data_retirado o; data_finalizado := data_finalizado o;
     esta_atrasada := esta_atrasada o; production_date := production_date o;
     is_virtual := is_virtual o; date_updated := date_updated o;
     updated_by := updated_by o |}.

Definition set_remaining_payment (v : option Decimal) (o : ServiceOrder) : ServiceOrder :=
  {| order_id := order_id o; renter := renter o; employee := employee o;
     attendant := attendant o; order_date := order_date o; event := event o;
     renter_role := renter_role o; total_value := total_value o;
     advance_payment := advance_payment o; remaining_payment := v;
     payment_method := payment_method o;
     payment_details := payment_details o; came_from := came_from o;
     purchase := purchase o; service_type := service_type o;
     service_order_phase := service_order_phase o;
     justification_refusal := justification_refusal o;
     prova_date := prova_date o; retirada_date := retirada_date o;
     devolucao_date := devolucao_date o; data_devolvido := data_devolvido o;
     data_retirado := data_retirado o; data_finalizado := data_finalizado o;
     esta_atrasada := esta_atrasada o; production_date := production_date o;
     is_virtual := is_virtual o; date_updated := date_updated o;
     updated_by := updated_by o |}.

Definition set_payment_method (v : option string) (o : ServiceOrder) : ServiceOrder :=
  {| order_id := order_id o; renter := renter o; employee := employee o;
     attendant := attendant o; order_date := order_date o; event := event o;
     renter_role := renter_role o; total_value := total_value o;
     advance_payment := advance_payment o;
     remaining_payment := remaining_payment o; payment_method := v;
     payment_details := payment_details o; came_from := came_from o;
     purchase := purchase o; service_type := service_type o;
     service_order_phase := service_order_phase o;
     justification_refusal := justification_refusal o;
     prova_date := prova_date o; retirada_date := retirada_date o;
     devolucao_date := devolucao_date o; data_devolvido := data_devolvido o;
     data_retirado := data_retirado o; data_finalizado := data_finalizado o;
     esta_atrasada := esta_atrasada o; production_date := production_date o;
     is_virtual := is_virtual o; date_updated := date_updated o;
     updated_by := updated_by o |}.

Definition set_payment_details (v : option (list PaymentDetail)) (o : ServiceOrder) : ServiceOrder :=
  {| order_id := order_id o; renter := renter o; employee := employee o;
     attendant := attendant o; order_date := order_date o; event := event o;
     renter_role := renter_role o; total_value := total_value o;
     advance_payment := advance_payment o;
     remaining_payment := remaining_payment o;
     payment_method := payment_method o; payment_details := v;
     came_from := came_from o; purchase := purchase o;
     service_type := service_type o;
     service_order_phase := service_order_phase o;
     justification_refusal := justification_refusal o;
     prova_date := prova_date o; retirada_date := retirada_date o;
     devolucao_date := devolucao_date o; data_devolvido := data_devolvido o;
     data_retirado := data_retirado o; data_finalizado := data_finalizado o;
     esta_atrasada := esta_atrasada o; production_date := production_date o;
     is_virtual := is_virtual o; date_updated := date_updated o;
     updated_by := updated_by o |}.

Definition set_came_from (v : option string) (o : ServiceOrder) : ServiceOrder :=
  {| order_id := order_id o; renter := renter o; employee := employee o;
     attendant := attendant o; order_date := order_date o; event := event o;
     renter_role := renter_role o; total_value := total_value o;
     advance_payment := advance_payment o;
     remaining_payment := remaining_payment o;
     payment_method := payment_method o;
     payment_details := payment_details o; came_from := v;
     purchase := purchase o; service_type := service_type o;
     service_order_phase := service_order_phase o;
     justification_refusal := justification_refusal o;
     prova_date := prova_date o; retirada_date := retirada_date o;
     devolucao_date := devolucao_date o; data_devolvido := data_devolvido o;
     data_retirado := data_retirado o; data_finalizado := data_finalizado o;
     esta_atrasada := esta_atrasada o; production_date := production_date o;
     is_virtual := is_virtual o; date_updated := date_updated o;
     updated_by := updated_by o |}.

Definition set_purchase (v : bool) (o : ServiceOrder) : ServiceOrder :=
  {| order_id := order_id o; renter := renter o; employee := employee o;
     attendant := attendant o; order_date := order_date o; event := event o;
     renter_role := renter_role o; total_value := total_value o;
     advance_payment := advance_payment o;
     remaining_payment := remaining_payment o;
     payment_method := payment_method o;
     payment_details := payment_details o; came_from := came_from o;
     purchase := v; service_type := service_type o;
     service_order_phase := service_order_phase o;
     justification_refusal := justification_refusal o;
     prova_date := prova_date o; retirada_date := retirada_date o;
     devolucao_date := devolucao_date o; data_devolvido := data_devolvido o;
     data_retirado := data_retirado o; data_finalizado := data_finalizado o;
     esta_atrasada := esta_atrasada o; production_date := production_date o;
     is_virtual := is_virtual o; date_updated := date_updated o;
     updated_by := updated_by o |}.

Definition set_service_type (v : option string) (o : ServiceOrder) : ServiceOrder :=
  {| order_id := order_id o; renter := renter o; employee := employee o;
     attendant := attendant o; order_date := order_date o; event := event o;
     renter_role := renter_role o; total_value := total_value o;
     advance_payment := advance_payment o;
     remaining_payment := remaining_payment o;
     payment_method := payment_method o;
     payment_details := payment_details o; came_from := came_from o;
     purchase := purchase o; service_type := v;
     service_order_phase := service_order_phase o;
     justification_refusal := justification_refusal o;
     prova_date := prova_date o; retirada_date := retirada_date o;
     devolucao_date := devolucao_date o; data_devolvido := data_devolvido o;
     data_retirado := data_retirado o; data_finalizado := data_finalizado o;
     esta_atrasada := esta_atrasada o; production_date := production_date o;
     is_virtual := is_virtual o; date_updated := date_updated o;
     updated_by := updated_by o |}.

Definition set_service_order_phase (v : option ServiceOrderPhase) (o : ServiceOrder) : ServiceOrder :=
  {| order_id := order_id o; renter := renter o; employee := employee o;
     attendant := attendant o; order_date := order_date o; event := event o;
     renter_role := renter_role o; total_value := total_value o;
     advance_payment := advance_payment o;
     remaining_payment := remaining_payment o;
     payment_method := payment_method o;
     payment_details := payment_details o; came_from := came_from o;
     purchase := purchase o; service_type := service_type o;
     service_order_phase := v;
     justification_refusal := justification_refusal o;
     prova_date := prova_date o; retirada_date := retirada_date o;
     devolucao_date := devolucao_date o; data_devolvido := data_devolvido o;
     data_retirado := data_retirado o; data_finalizado := data_finalizado o;
     esta_atrasada := esta_atrasada o; production_date := production_date o;
     is_virtual := is_virtual o; date_updated := date_updated o;
     updated_by := updated_by o |}.

Definition set_justification_refusal (v : option string) (o : ServiceOrder) : ServiceOrder :=
  {| order_id := order_id o; renter := renter o; employee := employee o;
     attendant := attendant o; order_date := order_date o; event := event o;
     renter_role := renter_role o; total_value := total_value o;
     advance_payment := advance_payment o;
     remaining_payment := remaining_payment o;
     payment_method := payment_method o;
     payment_details := payment_details o; came_from := came_from o;
     purchase := purchase o; service_type := service_type o;
     service_order_phase := service_order_phase o;
     justification_refusal := v; prova_date := prova_date o;
     retirada_date := retirada_date o; devolucao_date := devolucao_date o;
     data_devolvido := data_devolvido o; data_retirado := data_retirado o;
     data_finalizado := data_finalizado o; esta_atrasada := esta_atrasada o;
     production_date := production_date o; is_virtual := is_virtual o;
     date_updated := date_updated o; updated_by := updated_by o |}.

Definition set_prova_date (v : option date) (o : ServiceOrder) : ServiceOrder :=
  {| order_id := order_id o; renter := renter o; employee := employee o;
     attendant := attendant o; order_date := order_date o; event := event o;
     renter_role := renter_role o; total_value := total_value o;
     advance_payment := advance_payment o;
     remaining_payment := remaining_payment o;
     payment_method := payment_method o;
     payment_details := payment_details o; came_from := came_from o;
     purchase := purchase o; service_type := service_type o;
     service_order_phase := service_order_phase o;
     justification_refusal := justification_refusal o; prova_date := v;
     retirada_date := retirada_date o; devolucao_date := devolucao_date o;
     data_devolvido := data_devolvido o; data_retirado := data_retirado o;
     data_finalizado := data_finalizado o; esta_atrasada := esta_atrasada o;
     production_date := production_date o; is_virtual := is_virtual o;
     date_updated := date_updated o; updated_by := updated_by o |}.

Definition set_retirada_date (v : option date) (o : ServiceOrder) : ServiceOrder :=
  {| order_id := order_id o; renter := renter o; employee := employee o;
     attendant := attendant o; order_date := order_date o; event := event o;
     renter_role := renter_role o; total_value := total_value o;
     advance_payment := advance_payment o;
     remaining_payment := remaining_payment o;
     payment_method := payment_method o;
     payment_details := payment_details o; came_from := came_from o;
     purchase := purchase o; service_type := service_type o;
     service_order_phase := service_order_phase o;
     justification_refusal := justification_refusal o;
     prova_date := prova_date o; retirada_date := v;
     devolucao_date := devolucao_date o; data_devolvido := data_devolvido o;
     data_retirado := data_retirado o; data_finalizado := data_finalizado o;
     esta_atrasada := esta_atrasada o; production_date := production_date o;
     is_virtual := is_virtual o; date_updated := date_updated o;
     updated_by := updated_by o |}.

Definition set_devolucao_date (v : option date) (o : ServiceOrder) : ServiceOrder :=
  {| order_id := order_id o; renter := renter o; employee := employee o;
     attendant := attendant o; order_date := order_date o; event := event o;
     renter_role := renter_role o; total_value := total_value o;
     advance_payment := advance_payment o;
     remaining_payment := remaining_payment o;
     payment_method := payment_method o;
     payment_details := payment_details o; came_from := came_from o;
     purchase := purchase o; service_type := service_type o;
     service_order_phase := service_order_phase o;
     justification_refusal := justification_refusal o;
     prova_date := prova_date o; retirada_date := retirada_date o;
     devolucao_date := v; data_devolvido := data_devolvido o;
     data_retirado := data_retirado o; data_finalizado := data_finalizado o;
     esta_atrasada := esta_atrasada o; production_date := production_date o;
     is_virtual := is_virtual o; date_updated := date_updated o;
     updated_by := updated_by o |}.

Definition set_data_devolvido (v : option datetime) (o : ServiceOrder) : ServiceOrder :=
  {| order_id := order_id o; renter := renter o; employee := employee o;
     attendant := attendant o; order_date := order_date o; event := event o;
     renter_role := renter_role o; total_value := total_value o;
     advance_payment := advance_payment o;
     remaining_payment := remaining_payment o;
     payment_method := payment_method o;
     payment_details := payment_details o; came_from := came_from o;
     purchase := purchase o; service_type := service_type o;
     service_order_phase := service_order_phase o;
     justification_refusal := justification_refusal o;
     prova_date := prova_date o; retirada_date := retirada_date o;
     devolucao_date := devolucao_date o; data_devolvido := v;
     data_retirado := data_retirado o; data_finalizado := data_finalizado o;
     esta_atrasada := esta_atrasada o; production_date := production_date o;
     is_virtual := is_virtual o; date_updated := date_updated o;
     updated_by := updated_by o |}.

Definition set_data_retirado (v : option datetime) (o : ServiceOrder) : ServiceOrder :=
  {| order_id := order_id o; renter := renter o; employee := employee o;
     attendant := attendant o; order_date := order_date o; event := event o;
     renter_role := renter_role o; total_value := total_value o;
     advance_payment := advance_payment o;
     remaining_payment := remaining_payment o;
     payment_method := payment_method o;
     payment_details := payment_details o; came_from := came_from o;
     purchase := purchase o; service_type := service_type o;
     service_order_phase := service_order_phase o;
     justification_refusal := justification_refusal o;
     prova_date := prova_date o; retirada_date := retirada_date o;
     devolucao_date := devolucao_date o; data_devolvido := data_devolvido o;
     data_retirado := v; data_finalizado := data_finalizado o;
     esta_atrasada := esta_atrasada o; production_date := production_date o;
     is_virtual := is_virtual o; date_updated := date_updated o;
     updated_by := updated_by o |}.

Definition set_data_finalizado (v : option date) (o : ServiceOrder) : ServiceOrder :=
  {| order_id := order_id o; renter := renter o; employee := employee o;
     attendant := attendant o; order_date := order_date o; event := event o;
     renter_role := renter_role o; total_value := total_value o;
     advance_payment := advance_payment o;
     remaining_payment := remaining_payment o;
     payment_method := payment_method o;
     payment_details := payment_details o; came_from := came_from o;
     purchase := purchase o; service_type := service_type o;
     service_order_phase := service_order_phase o;
     justification_refusal := justification_refusal o;
     prova_date := prova_date o; retirada_date := retirada_date o;
     devolucao_date := devolucao_date o; data_devolvido := data_devolvido o;
     data_retirado := data_retirado o; data_finalizado := v;
     esta_atrasada := esta_atrasada o; production_date := production_date o;
     is_virtual := is_virtual o; date_updated := date_updated o;
     updated_by := updated_by o |}.

Definition set_esta_atrasada (v : bool) (o : ServiceOrder) : ServiceOrder :=
  {| order_id := order_id o; renter := renter o; employee := employee o;
     attendant := attendant o; order_date := order_date o; event := event o;
     renter_role := renter_role o; total_value := total_value o;
     advance_payment := advance_payment o;
     remaining_payment := remaining_payment o;
     payment_method := payment_method o;
     payment_details := payment_details o; came_from := came_from o;
     purchase := purchase o; service_type := service_type o;
     service_order_phase := service_order_phase o;
     justification_refusal := justification_refusal o;
     prova_date := prova_date o; retirada_date := retirada_date o;
     devolucao_date := devolucao_date o; data_devolvido := data_devolvido o;
     data_retirado := data_retirado o; data_finalizado := data_finalizado o;
     esta_atrasada := v; production_date := production_date o;
     is_virtual := is_virtual o; date_updated := date_updated o;
     updated_by := updated_by o |}.

Definition set_production_date (v : option date) (o : ServiceOrder) : ServiceOrder :=
  {| order_id := order_id o; renter := renter o; employee := employee o;
     attendant := attendant o; order_date := order_date o; event := event o;
     renter_role := renter_role o; total_value := total_value o;
     advance_payment := advance_payment o;
     remaining_payment := remaining_payment o;
     payment_method := payment_method o;
     payment_details := payment_details o; came_from := came_from o;
     purchase := purchase o; service_type := service_type o;
     service_order_phase := service_order_phase o;
     justification_refusal := justification_refusal o;
     prova_date := prova_date o; retirada_date := retirada_date o;
     devolucao_date := devolucao_date o; data_devolvido := data_devolvido o;
     data_retirado := data_retirado o; data_finalizado := data_finalizado o;
     esta_atrasada := esta_atrasada o; production_date := v;
     is_virtual := is_virtual o; date_updated := date_updated o;
     updated_by := updated_by o |}.

Definition set_date_updated (v : option datetime) (o : ServiceOrder) : ServiceOrder :=
  {| order_id := order_id o; renter := renter o; employee := employee o;
     attendant := attendant o; order_date := order_date o; event := event o;
     renter_role := renter_role o; total_value := total_value o;
     advance_payment := advance_payment o;
     remaining_payment := remaining_payment o;
     payment_method := payment_method o;
     payment_details := payment_details o; came_from := came_from o;
     purchase := purchase o; service_type := service_type o;
     service_order_phase := service_order_phase o;
     justification_refusal := justification_refusal o;
     prova_date := prova_date o; retirada_date := retirada_date o;
     devolucao_date := devolucao_date o; data_devolvido := data_devolvido o;
     data_retirado := data_retirado o; data_finalizado := data_finalizado o;
     esta_atrasada := esta_atrasada o; production_date := production_date o;
     is_virtual := is_virtual o; date_updated := v;
     updated_by := updated_by o |}.

Definition set_updated_by (v : option Z) (o : ServiceOrder) : ServiceOrder :=
  {| order_id := order_id o; renter := renter o; employee := employee o;
     attendant := attendant o; order_date := order_date o; event := event o;
     renter_role := renter_role o; total_value := total_value o;
     advance_payment := advance_payment o;
     remaining_payment := remaining_payment o;
     payment_method := payment_method o;
     payment_details := payment_details o; came_from := came_from o;
     purchase := purchase o; service_type := service_type o;
     service_order_phase := service_order_phase o;
     justification_refusal := justification_refusal o;
     prova_date := prova_date o; retirada_date := retirada_date o;
     devolucao_date := devolucao_date o; data_devolvido := data_devolvido o;
     data_retirado := data_retirado o; data_finalizado := data_finalizado o;
     esta_atrasada := esta_atrasada o; production_date := production_date o;
     is_virtual := is_virtual o; date_updated := date_updated o;
     updated_by := v |}.

(** [TemporaryProduct] is declared in [products/models.py]; its columns here
    are the keyword arguments and attributes the update view writes.  A
    column the view leaves alone keeps its default, written [None]. *)
Record TemporaryProduct := {
  temporary_product_id : Z;
  product_type : string;
  size : option string;
  sleeve_length : option string;
  color : option string;
  brand : option string;
  description : option string;
  venda : bool;
  extensor : option bool;
  waist_size : option string;
  leg_length : option string;
  ajuste_cintura : option string;
  ajuste_comprimento : option string
}.

(** [ServiceOrderItem]: one line item; [service_order] is the order's id. *)
Record ServiceOrderItem := {
  item_id : Z;
  service_order : Z;
  temporary_product : option Z;
  product : option Z;
  adjustment_needed : bool;
  adjustment_notes : option string
}.

(** ** The store *)

Record Store := {
  phases : list ServiceOrderPhase;
  persons : list Person;
  orders : list ServiceOrder;
  temporary_products : list TemporaryProduct;
  items : list ServiceOrderItem
}.

Definition with_phases (v : list ServiceOrderPhase) (s : Store) : Store :=
  {| phases := v; persons := persons s; orders := orders s;
     temporary_products := temporary_products s; items := items s |}.

Definition with_persons (v : list Person) (s : Store) : Store :=
  {| phases := phases s; persons := v; orders := orders s;
     temporary_products := temporary_products s; items := items s |}.

Definition with_orders (v : list ServiceOrder) (s : Store) : Store :=
  {| phases := phases s; persons := persons s; orders := v;
     temporary_products := temporary_products s; items := items s |}.

Definition with_temporary_products (v : list TemporaryProduct) (s : Store)
  : Store :=
  {| phases := phases s; persons := persons s; orders := orders s;
     temporary_products := v; items := items s |}.

Definition with_items (v : list ServiceOrderItem) (s : Store) : Store :=
  {| phases := phases s; persons := persons s; orders := orders s;
     temporary_products := temporary_products s; items := v |}.

(** ** Responses *)

Inductive Response :=
| HTTP_200_OK
| HTTP_400_BAD_REQUEST (error : string)
| HTTP_403_FORBIDDEN (error : string)
| HTTP_404_NOT_FOUND (error : string)
| HTTP_500_INTERNAL_SERVER_ERROR (error : string).

Definition is_success (r : Response) : bool :=
  match r with HTTP_200_OK => true | _ => false end.

(** ** Object-relational layer *)

(** [ServiceOrder.objects.filter(id=order_id).first()], the lookup inside
    [get_object_or_404]. *)
Definition get_order (s : Store) (oid : Z) : option ServiceOrder :=
  find (fun o => order_id o =? oid) (orders s).

(** [ServiceOrder.save], the model's part: the recomputation of
    [remaining_payment] that runs before the row is written. *)
Definition recompute_remaining (o : ServiceOrder) : ServiceOrder :=
  match total_value o, advance_payment o with
  | Some t, Some a => set_remaining_payment (Some (t - a)) o
  | _, _ => o
  end.

(** [super().save()]: UPDATE of the row with the instance's primary key,
    INSERT when no row has it. *)
Definition write_order (o : ServiceOrder) (tbl : list ServiceOrder)
  : list ServiceOrder :=
  if existsb (fun r => order_id r =? order_id o) tbl
  then map (fun r => if order_id r =? order_id o then o else r) tbl
  else tbl ++ [o].

(** [ServiceOrder.save]: returns the instance as it is after the call and
    the store with its row written. *)
Definition save (o : ServiceOrder) (s : Store) : ServiceOrder * Store :=
  let o' := recompute_remaining o in
  (o', with_orders (write_order o' (orders s)) s).

(** [ServiceOrderPhase.objects.filter(name=n)] *)
Definition phases_named (n : string) (tbl : list ServiceOrderPhase)
  : list ServiceOrderPhase :=
  filter (fun p => String.eqb (name p) n) tbl.

(** [.first()] of an unordered query set: the row of least primary key. *)
Fixpoint first (rows : list ServiceOrderPhase) : option ServiceOrderPhase :=
  match rows with
  | [] => None
  | p :: t =>
      match first t with
      | Some q => if phase_id q <? phase_id p then Some q else Some p
      | None => Some p
      end
  end.

(** A primary key no row of the table has. *)
Definition fresh_id (ids : list Z) : Z :=
  1 + fold_right Z.max 0 ids.

(** [ServiceOrderPhase.objects.get_or_create(name=n, ...)]: the row of that
    name, created when there is none; [None] is the [MultipleObjectsReturned]
    that [get] raises when several rows have the name. *)
Definition get_or_create (n : string) (s : Store)
  : option (ServiceOrderPhase * Store) :=
  match phases_named n (phases s) with
  | [] =>
      let p := {| phase_id := fresh_id (map phase_id (phases s)); name := n |} in
      Some (p, with_phases (phases s ++ [p]) s)
  | [p] => Some (p, s)
  | _ :: _ :: _ => None
  end.

(** ** The role guard shared by the transitions *)

Definition is_admin (u : User) : bool :=
  match person u with
  | Some p => String.eqb (person_type p) "ADMINISTRADOR"
  | None => false
  end.

Definition is_employee (u : User) (o : ServiceOrder) : bool :=
  match person u, employee o with
  | Some p, Some e => person_id p =? e
  | _, _ => false
  end.

Definition is_attendant (u : User) (o : ServiceOrder) : bool :=
  match person u, attendant o with
  | Some p, Some a => person_id p =? a
  | _, _ => false
  end.

Definition role_guard (u : User) (o : ServiceOrder) : bool :=
  is_admin u || is_employee u o || is_attendant u o.

(** ** [ServiceOrderMarkPaidAPIView.post] *)

Definition mark_paid (u : User) (oid : Z) (now : datetime) (today : date)
    (s : Store) : Response * Store :=
  match get_order s oid with
  | None =>
      (* [Http404] is an [Exception]: the last handler answers *)
      (HTTP_500_INTERNAL_SERVER_ERROR "Erro ao marcar OS como paga", s)
  | Some o =>
      match service_order_phase o with
      | None => (HTTP_400_BAD_REQUEST "OS não possui fase definida.", s)
      | Some ph =>
          if String.eqb (name ph) "FINALIZADO" then
            (HTTP_400_BAD_REQUEST "OS já está finalizada.", s)
          else if negb (String.eqb (name ph) "AGUARDANDO_DEVOLUCAO") then
            (HTTP_400_BAD_REQUEST
               "OS deve estar na fase AGUARDANDO_DEVOLUCAO para ser marcada como paga.",
             s)
          else
            match get_or_create "FINALIZADO" s with
            | None =>
                (HTTP_500_INTERNAL_SERVER_ERROR "Erro ao marcar OS como paga", s)
            | Some (finalizado_phase, s1) =>
                if negb (role_guard u o) then
                  (HTTP_403_FORBIDDEN
                     "Apenas o atendente responsável, recepcionista ou um administrador pode marcar uma OS como paga.",
                   s1)
                else
                  let o1 := set_service_order_phase (Some finalizado_phase) o in
                  let o2 := set_data_devolvido (Some now) o1 in
                  let o3 := set_data_finalizado (Some today) o2 in
                  (HTTP_200_OK, snd (save o3 s1))
            end
      end
  end.

(** ** [ServiceOrderMarkRetrievedAPIView.post] *)

(** [PaymentFormItemSerializer] *)
Record PaymentFormItem := {
  pf_amount : Decimal;
  pf_forma_pagamento : string
}.

(** Validated data of [ServiceOrderMarkRetrievedSerializer].
    [remaining_amount] is [None] when the key is left out or null;
    [payment_forms] is [None] when the key is left out. *)
Record MarkRetrievedData := {
  receive_remaining_payment : bool;
  remaining_amount : option Decimal;
  payment_forms : option (list PaymentFormItem)
}.

(** [data.get("remaining_amount") or service_order.remaining_payment
     or Decimal("0")] *)
Definition target_amount (d : MarkRetrievedData) (o : ServiceOrder) : Decimal :=
  or_dec (remaining_amount d) (or_dec (remaining_payment o) 0).

(** [sum(Decimal(item["amount"]) for item in payment_forms)] *)
Definition total_paid (forms : list PaymentFormItem) : Decimal :=
  fold_left (fun acc item => acc + pf_amount item) forms 0.

(** The loop over [payment_forms]: the ledger entries appended to
    [current_details], and [formas_pagamento], which takes a method only
    when it is not in it yet. *)
Definition restante_entry (now : datetime) (item : PaymentFormItem)
  : PaymentDetail :=
  {| amount := pf_amount item; forma_pagamento := pf_forma_pagamento item;
     tipo := "restante"; data := now |}.

Definition append_forma (formas : list string) (item : PaymentFormItem)
  : list string :=
  if mem_str (pf_forma_pagamento item) formas then formas
  else formas ++ [pf_forma_pagamento item].

Definition formas_pagamento (forms : list PaymentFormItem) : list string :=
  fold_left append_forma forms [].

Definition merged_payment_method (old : option string) (formas_str : string)
  : string :=
  match old with
  | Some (String c r) => append (String c r) (append ", " formas_str)
  | _ => formas_str
  end.

(** The block under [if data.get("receive_remaining_payment")]: either the
    response of an early [return] or the instance with the payment booked. *)
Definition receive_payment (d : MarkRetrievedData) (now : datetime)
    (o : ServiceOrder) : Response + ServiceOrder :=
  let remaining := target_amount d o in
  let forms := match payment_forms d with Some l => l | None => [] end in
  match forms with
  | [] =>
      inl (HTTP_400_BAD_REQUEST
             "payment_forms é obrigatório quando receive_remaining_payment é True")
  | _ :: _ =>
      if negb (total_paid forms =? remaining) then
        inl (HTTP_400_BAD_REQUEST
               "Total dos pagamentos não corresponde ao valor restante")
      else
        let o1 :=
          set_advance_payment
            (Some (or_dec (advance_payment o) 0 + total_paid forms)) o in
        let current_details :=
          match payment_details o with Some l => l | None => [] end in
        let o2 :=
          set_payment_details
            (Some (current_details ++ map (restante_entry now) forms)) o1 in
        let formas_str := join ", " (formas_pagamento forms) in
        inr (set_payment_method
               (Some (merged_payment_method (payment_method o) formas_str)) o2)
  end.

Definition mark_retrieved (u : User) (oid : Z) (d : MarkRetrievedData)
    (now : datetime) (s : Store) : Response * Store :=
  match get_order s oid with
  | None =>
      (HTTP_500_INTERNAL_SERVER_ERROR "Erro ao marcar OS como retirada", s)
  | Some o =>
      match service_order_phase o with
      | None => (HTTP_400_BAD_REQUEST "OS não possui fase definida.", s)
      | Some ph =>
          if String.eqb (name ph) "AGUARDANDO_DEVOLUCAO" then
            (HTTP_400_BAD_REQUEST "OS já está aguardando devolução.", s)
          else if String.eqb (name ph) "FINALIZADO" then
            (HTTP_400_BAD_REQUEST "OS já está finalizada.", s)
          else if negb (mem_str (name ph) ["EM_PRODUCAO"; "AGUARDANDO_RETIRADA"])
          then
            (HTTP_400_BAD_REQUEST
               "OS deve estar na fase EM_PRODUCAO ou AGUARDANDO_RETIRADA para ser marcada como retirada.",
             s)
          else
            match get_or_create "AGUARDANDO_DEVOLUCAO" s with
            | None =>
                (HTTP_500_INTERNAL_SERVER_ERROR
                   "Erro ao marcar OS como retirada", s)
            | Some (aguardando_devolucao_phase, s1) =>
                if negb (role_guard u o) then
                  (HTTP_403_FORBIDDEN
                     "Apenas o atendente responsável, recepcionista ou um administrador pode marcar uma OS como retirada.",
                   s1)
                else
                  let booked :=
                    if receive_remaining_payment d
                    then receive_payment d now o
                    else inr o in
                  match booked with
                  | inl resp => (resp, s1)
                  | inr o1 =>
                      let o2 :=
                        set_service_order_phase
                          (Some aguardando_devolucao_phase) o1 in
                      let o3 := set_data_retirado (Some now) o2 in
                      (HTTP_200_OK, snd (save o3 s1))
                  end
            end
      end
  end.

(** ** [ServiceOrderListByPhaseAPIView.get] *)

(** [name__icontains]: substring test after ASCII case folding. *)
Definition lower_ascii (c : ascii) : ascii :=
  let n := nat_of_ascii c in
  if (Nat.leb 65 n && Nat.leb n 90)%bool then ascii_of_nat (n + 32) else c.

Fixpoint lower (s : string) : string :=
  match s with
  | EmptyString => EmptyString
  | String c r => String (lower_ascii c) (lower r)
  end.

Fixpoint contains (needle hay : string) : bool :=
  (String.prefix needle hay
   || match hay with
      | EmptyString => false
      | String _ r => contains needle r
      end)%bool.

Definition icontains (hay needle : string) : bool :=
  contains (lower needle) (lower hay).

(** Look-ups through the joins of the query sets. *)
Definition phase_name_is (n : string) (o : ServiceOrder) : bool :=
  match service_order_phase o with
  | Some p => String.eqb (name p) n
  | None => false
  end.

Definition phase_name_in (l : list string) (o : ServiceOrder) : bool :=
  match service_order_phase o with
  | Some p => mem_str (name p) l
  | None => false
  end.

(** [event__event_date__lt=today] and [event__event_date__gt=today]: false
    when there is no event or the event has no date. *)
Definition event_date_lt (today : date) (o : ServiceOrder) : bool :=
  match event o with
  | Some e => match event_date e with Some d => d <? today | None => false end
  | None => false
  end.

Definition event_date_gt (today : date) (o : ServiceOrder) : bool :=
  match event o with
  | Some e => match event_date e with Some d => today <? d | None => false end
  | None => false
  end.

(** [service_order_phase=p] for a row [p], and for [p = None], which the
    query builder turns into [service_order_phase IS NULL]. *)
Definition phase_is (p : option ServiceOrderPhase) (o : ServiceOrder) : bool :=
  match p, service_order_phase o with
  | Some p, Some q => phase_id q =? phase_id p
  | None, None => true
  | _, _ => false
  end.

Definition sweep_phases : list string :=
  ["PENDENTE"; "EM_PRODUCAO"; "AGUARDANDO_DEVOLUCAO"; "FINALIZADO";
   "AGUARDANDO_RETIRADA"].

(** The query set [overdue_orders] of the sweep. *)
Definition overdue (today : date) (o : ServiceOrder) : bool :=
  (event_date_lt today o
   && negb (is_some (data_retirado o))
   && phase_name_in sweep_phases o
   && is_some (event o)
   && negb (phase_name_is "RECUSADA" o))%bool.

(** Body of the sweep's loop, with the instance as [order.save()] leaves it. *)
Definition refuse_overdue (refused_phase : ServiceOrderPhase)
    (o : ServiceOrder) : ServiceOrder :=
  recompute_remaining
    (set_justification_refusal (Some "Cliente não retirou o produto")
       (set_service_order_phase (Some refused_phase) o)).

Definition move_to_refused_if_event_passed (today : date) (s : Store) : Store :=
  match first (phases_named "RECUSADA" (phases s)) with
  | None => s
  | Some refused_phase =>
      with_orders
        (map (fun o => if overdue today o then refuse_overdue refused_phase o
                       else o)
           (orders s))
        s
  end.

(** The sweep's loop as the source writes it, statement for statement:
    each instance of the query set is changed and saved in turn.  On a
    table whose rows have distinct primary keys this is the map above
    (lemma [sweep_as_loop]). *)
Definition sweep_loop (refused_phase : ServiceOrderPhase)
    (overdue_orders : list ServiceOrder) (s : Store) : Store :=
  fold_left
    (fun st order =>
       let order1 := set_service_order_phase (Some refused_phase) order in
       let order2 :=
         set_justification_refusal (Some "Cliente não retirou o produto")
           order1 in
       snd (save order2 st))
    overdue_orders s.

(** The two [Q] objects of the [ATRASADO] listing, over [base_qs]. *)
Definition atrasado_q (today : date) (ad : option ServiceOrderPhase)
    (o : ServiceOrder) : bool :=
  (negb (is_virtual o)
   && ((phase_is ad o
        && match devolucao_date o with Some d => d <? today | None => false end
        && event_date_gt today o
        && is_some (event o))
       || (phase_is ad o
           && negb (is_some (data_devolvido o))
           && event_date_lt today o
           && is_some (event o))))%bool.

(** [base_qs.filter(service_order_phase=phase)] *)
Definition in_phase_q (phase : ServiceOrderPhase) (o : ServiceOrder) : bool :=
  (negb (is_virtual o) && phase_is (Some phase) o)%bool.

(** The lateness test of the [AGUARDANDO_RETIRADA] listing. *)
Definition retirada_atrasada (today : date) (o : ServiceOrder) : bool :=
  (match retirada_date o with Some d => d <? today | None => false end
   || (event_date_lt today o && negb (is_some (data_retirado o))))%bool.

(** Body of its loop: the instance afterwards; it is saved only when the
    flag changed. *)
Definition update_flag (today : date) (o : ServiceOrder) : ServiceOrder :=
  if Bool.eqb (esta_atrasada o) (retirada_atrasada today o) then o
  else recompute_remaining (set_esta_atrasada (retirada_atrasada today o) o).

(** The write-back loop as the source writes it; on a table whose rows
    have distinct primary keys it is the map of [update_flag] over the
    listed rows (lemma [flag_as_loop]). *)
Definition flag_loop (today : date) (listed : list ServiceOrder) (s : Store)
  : Store :=
  fold_left
    (fun st order =>
       let esta := retirada_atrasada today order in
       if Bool.eqb (esta_atrasada order) esta then st
       else snd (save (set_esta_atrasada esta order) st))
    listed s.

Inductive ListResponse :=
| LIST_200_OK (data : list ServiceOrder)
| LIST_404_NOT_FOUND (error : string)
| LIST_500_INTERNAL_SERVER_ERROR (error : string).

(** The serialisation loop reads [order.renter.id]: an order without a
    renter raises, and the last handler answers. *)
Definition respond (listed : list ServiceOrder) : ListResponse :=
  if forallb (fun o => is_some (renter o)) listed then LIST_200_OK listed
  else LIST_500_INTERNAL_SERVER_ERROR "Erro ao listar OS".

Definition list_by_phase (phase_name : string) (today : date) (s : Store)
  : ListResponse * Store :=
  let s1 := move_to_refused_if_event_passed today s in
  match first (filter (fun p => icontains (name p) phase_name) (phases s1)) with
  | None => (LIST_404_NOT_FOUND "Fase não encontrada", s1)
  | Some phase =>
      if String.eqb (name phase) "ATRASADO" then
        let aguardando_devolucao_phase :=
          first (phases_named "AGUARDANDO_DEVOLUCAO" (phases s1)) in
        (respond (filter (atrasado_q today aguardando_devolucao_phase)
                    (orders s1)),
         s1)
      else if String.eqb (name phase) "AGUARDANDO_RETIRADA" then
        let s2 :=
          with_orders
            (map (fun o => if in_phase_q phase o then update_flag today o
                           else o)
               (orders s1))
            s1 in
        (respond (filter (in_phase_q phase) (orders s2)), s2)
      else
        (respond (filter (in_phase_q phase) (orders s1)), s1)
  end.

(** ** [ServiceOrderUpdateAPIView.put] *)

(** [str.upper] and [str.strip] on ASCII text. *)
Definition upper_ascii (c : ascii) : ascii :=
  let n := nat_of_ascii c in
  if (Nat.leb 97 n && Nat.leb n 122)%bool then ascii_of_nat (n - 32) else c.

Fixpoint upper (s : string) : string :=
  match s with
  | EmptyString => EmptyString
  | String c r => String (upper_ascii c) (upper r)
  end.

Definition is_space (c : ascii) : bool :=
  let n := nat_of_ascii c in
  ((Nat.leb 9 n && Nat.leb n 13) || (Nat.leb 28 n && Nat.leb n 32))%bool.

Fixpoint lstrip (s : string) : string :=
  match s with
  | EmptyString => EmptyString
  | String c r => if is_space c then lstrip r else s
  end.

Fixpoint rstrip (s : string) : string :=
  match s with
  | EmptyString => EmptyString
  | String c r =>
      match rstrip r with
      | EmptyString => if is_space c then EmptyString else String c EmptyString
      | r' => String c r'
      end
  end.

Definition strip (s : string) : string := rstrip (lstrip s).

(** [clean_field], on the nullable text fields it is applied to. *)
Definition clean_field (value : option string) : option string :=
  match value with
  | None => None
  | Some v =>
      match strip v with
      | EmptyString => None
      | v' => Some v'
      end
  end.

(** [s.replace(c, "")] for a one-character [c]. *)
Fixpoint remove_char (c : ascii) (s : string) : string :=
  match s with
  | EmptyString => EmptyString
  | String x r =>
      if Ascii.eqb x c then remove_char c r else String x (remove_char c r)
  end.

(** Validated data of the front-end serializers.  An optional key is an
    [option]; a key that may also be null is read with [.get], so that
    absent and null coincide, except [amount], whose default 0 applies to
    the absent key only. *)
Record FrontendOrderItem := {
  it_tipo : string;
  it_numero : option string;
  it_cor : option string;
  it_manga : option string;
  it_marca : option string;
  it_ajuste : option string;
  it_extras : option string;
  it_cintura : option string;
  it_perna : option string;
  it_ajuste_cintura : option string;
  it_ajuste_comprimento : option string;
  it_venda : bool
}.

Record FrontendAccessory := {
  ac_tipo : string;
  ac_cor : option string;
  ac_numero : option string;
  ac_descricao : option string;
  ac_marca : option string;
  ac_extensor : bool;
  ac_venda : bool
}.

Record FrontendPaymentItem := {
  pag_amount : option (option Decimal);
  pag_forma_pagamento : option string
}.

Record FrontendSignal := {
  sinal_total : Decimal;
  pagamentos : list FrontendPaymentItem
}.

Record FrontendPayment := {
  total : Decimal;
  sinal : option FrontendSignal;
  restante : Decimal;
  pagamento_forma_pagamento : option string
}.

Record FrontendOrderService := {
  data_retirada : option date;
  data_devolucao : option date;
  data_prova : option (option date);
  ocasiao : option string;
  origem : option string;
  modalidade : option string;
  employee_id : option Z;
  itens : option (list FrontendOrderItem);
  acessorios : option (list FrontendAccessory);
  pagamento : option FrontendPayment
}.

(** Of the client block only the CPF is checked by the view itself; the
    rest of [FrontendClientSerializer] goes to the person directory. *)
Record FrontendClient := {
  cpf : string;
  nome : option string
}.

Record FrontendServiceOrderUpdate := {
  ordem_servico : option FrontendOrderService;
  cliente : option FrontendClient
}.

(** The loop over [sinal_data["pagamentos"]]: [formas] and the fresh
    [payment_details]; [None] is the [TypeError] of [float(None)]. *)
Fixpoint sinal_loop (data_sinal : Z) (pags : list FrontendPaymentItem)
    (formas : list string) (details : list PaymentDetail)
  : option (list string * list PaymentDetail) :=
  match pags with
  | [] => Some (formas, details)
  | pag :: rest =>
      match pag_forma_pagamento pag with
      | Some (String c r) =>
          let forma := String c r in
          let formas' :=
            if mem_str forma formas then formas else formas ++ [forma] in
          match pag_amount pag with
          | Some None => None
          | Some (Some a) =>
              sinal_loop data_sinal rest formas'
                (details ++ [{| amount := a; forma_pagamento := forma;
                                tipo := "sinal"; data := data_sinal |}])
          | None =>
              sinal_loop data_sinal rest formas'
                (details ++ [{| amount := 0; forma_pagamento := forma;
                                tipo := "sinal"; data := data_sinal |}])
          end
      | _ => sinal_loop data_sinal rest formas details
      end
  end.

(** The block under [if "pagamento" in os_data]. *)
Definition apply_pagamento (pg : FrontendPayment) (o : ServiceOrder)
  : option ServiceOrder :=
  let o1 := set_total_value (Some (total pg)) o in
  let after_sinal :=
    match sinal pg with
    | None => Some o1
    | Some sg =>
        let o2 := set_advance_payment (Some (sinal_total sg)) o1 in
        match pagamentos sg with
        | [] => Some o2
        | pags =>
            match sinal_loop (order_date o) pags [] [] with
            | None => None
            | Some (formas, details) =>
                let o3 :=
                  match formas with
                  | [] => o2
                  | _ => set_payment_method (Some (join ", " formas)) o2
                  end in
                Some (match details with
                      | [] => o3
                      | _ => set_payment_details (Some details) o3
                      end)
            end
        end
    end in
  match after_sinal with
  | None => None
  | Some o4 =>
      if truthy_str (pagamento_forma_pagamento pg)
      then Some (set_payment_method (pagamento_forma_pagamento pg) o4)
      else Some o4
  end.

Definition apply_modalidade (m : string) (o : ServiceOrder) : ServiceOrder :=
  let o1 :=
    if String.eqb m "Compra" then set_purchase true o
    else if String.eqb m "Aluguel" then set_purchase false o
    else if String.eqb m "Aluguel + Venda" then set_purchase false o
    else if String.eqb m "Venda" then set_purchase true o
    else o in
  set_service_type (Some m) o1.

(** The block under [if "ordem_servico" in data], up to the line items,
    in the order of the source: the dates, the role and origin labels, the
    modality, the employee, the payment. *)
Definition apply_datas (os : FrontendOrderService) (o : ServiceOrder)
  : ServiceOrder :=
  let o1 := match data_retirada os with
            | Some d => set_retirada_date (Some d) o | None => o end in
  let o2 := match data_devolucao os with
            | Some d => set_devolucao_date (Some d) o1 | None => o1 end in
  match data_prova os with
  | Some d => set_prova_date d o2 | None => o2 end.

Definition apply_ocasiao_origem (os : FrontendOrderService) (o : ServiceOrder)
  : ServiceOrder :=
  let o1 := if truthy_str (ocasiao os)
            then set_renter_role (option_map upper (ocasiao os)) o else o in
  if truthy_str (origem os)
  then set_came_from (option_map upper (origem os)) o1 else o1.

Definition apply_employee (s : Store) (os : FrontendOrderService)
    (o : ServiceOrder) : Response + ServiceOrder :=
  match employee_id os with
  | Some e =>
      if e =? 0 then inr o
      else if existsb (fun p => person_id p =? e) (persons s)
           then inr (set_employee (Some e) o)
           else inl (HTTP_400_BAD_REQUEST "Atendente não encontrado")
  | None => inr o
  end.

(** The response of an early [return], or the instance with the fields
    set. *)
Definition apply_ordem_servico (s : Store) (os : FrontendOrderService)
    (o : ServiceOrder) : Response + ServiceOrder :=
  let o1 := apply_datas os o in
  let o2 := apply_ocasiao_origem os o1 in
  let o3 := match modalidade os with
            | Some m => apply_modalidade m o2 | None => o2 end in
  match apply_employee s os o3 with
  | inl r => inl r
  | inr o4 =>
      match pagamento os with
      | None => inr o4
      | Some pg =>
          match apply_pagamento pg o4 with
          | Some o5 => inr o5
          | None => inl (HTTP_500_INTERNAL_SERVER_ERROR "Erro ao atualizar OS")
          end
      end
  end.

Definition cpf_limpo (c : FrontendClient) : string :=
  strip (remove_char "-" (remove_char "." (cpf c))).

Definition cpf_valid (c : FrontendClient) : bool :=
  Nat.eqb (String.length (cpf_limpo c)) 11.

(** The rows the two loops over [itens] and [acessorios] create. *)
Definition temp_product_of_item (pk : Z) (item : FrontendOrderItem)
  : TemporaryProduct :=
  let calca := String.eqb (it_tipo item) "calca" in
  {| temporary_product_id := pk;
     product_type := it_tipo item;
     size := clean_field (it_numero item);
     sleeve_length := clean_field (it_manga item);
     color := clean_field (it_cor item);
     brand := clean_field (it_marca item);
     description := clean_field (it_extras item);
     venda := it_venda item;
     extensor := None;
     waist_size := if calca then clean_field (it_cintura item) else None;
     leg_length := if calca then clean_field (it_perna item) else None;
     ajuste_cintura :=
       if calca then clean_field (it_ajuste_cintura item) else None;
     ajuste_comprimento :=
       if calca then clean_field (it_ajuste_comprimento item) else None |}.

Definition temp_product_of_acessorio (pk : Z) (ac : FrontendAccessory)
  : TemporaryProduct :=
  {| temporary_product_id := pk;
     product_type := ac_tipo ac;
     size := clean_field (ac_numero ac);
     sleeve_length := None;
     color := clean_field (ac_cor ac);
     brand := clean_field (ac_marca ac);
     description := clean_field (ac_descricao ac);
     venda := ac_venda ac;
     extensor := Some (ac_extensor ac);
     waist_size := None;
     leg_length := None;
     ajuste_cintura := None;
     ajuste_comprimento := None |}.

(** [TemporaryProduct.objects.create] followed by
    [ServiceOrderItem.objects.create], for one entry. *)
Definition create_rows (oid : Z) (tp : Z -> TemporaryProduct)
    (needed : bool) (notes : option string) (s : Store) : Store :=
  let pk := fresh_id (map temporary_product_id (temporary_products s)) in
  let row :=
    {| item_id := fresh_id (map item_id (items s));
       service_order := oid;
       temporary_product := Some pk;
       product := None;
       adjustment_needed := needed;
       adjustment_notes := notes |} in
  with_items (items s ++ [row])
    (with_temporary_products (temporary_products s ++ [tp pk]) s).

Definition add_item (oid : Z) (s : Store) (item : FrontendOrderItem) : Store :=
  create_rows oid (fun pk => temp_product_of_item pk item)
    (is_some (clean_field (it_ajuste item)))
    (clean_field (it_ajuste item)) s.

Definition add_acessorio (oid : Z) (s : Store) (ac : FrontendAccessory)
  : Store :=
  create_rows oid (fun pk => temp_product_of_acessorio pk ac) false None s.

(** [service_order.items.all().delete()] *)
Definition delete_items (oid : Z) (s : Store) : Store :=
  with_items (filter (fun i => negb (service_order i =? oid)) (items s)) s.

Definition patch_itens (d : FrontendServiceOrderUpdate)
  : option (list FrontendOrderItem) :=
  match ordem_servico d with Some os => itens os | None => None end.

Definition patch_acessorios (d : FrontendServiceOrderUpdate)
  : option (list FrontendAccessory) :=
  match ordem_servico d with Some os => acessorios os | None => None end.

Definition is_full_update (d : FrontendServiceOrderUpdate) : bool :=
  (is_some (patch_itens d) || is_some (patch_acessorios d))%bool.

Definition production_phases : list string :=
  ["EM_PRODUCAO"; "AGUARDANDO_RETIRADA"; "AGUARDANDO_DEVOLUCAO"; "FINALIZADO";
   "RECUSADA"].

(** The block under [if is_full_update]. *)
Definition advance_to_production (today : date) (o : ServiceOrder) (s : Store)
  : ServiceOrder * Store :=
  match first (phases_named "EM_PRODUCAO" (phases s)), service_order_phase o with
  | Some em_producao_phase, Some current =>
      if negb (mem_str (name current) production_phases) then
        save (set_production_date (Some today)
                (set_service_order_phase (Some em_producao_phase) o)) s
      else (o, s)
  | _, _ => (o, s)
  end.

Section Update.

(** The person directory is an external collaborator of the life cycle:
    given the person table, the order and the client block, it finds,
    merges or creates the customer and returns the table it leaves and
    the id of the person the order is to be linked to, or no id when a
    step of it raised. *)
Variable link_cliente :
  list Person -> ServiceOrder -> FrontendClient -> list Person * option Z.

(** The block under [if "cliente" in data]. *)
Definition apply_cliente (c : FrontendClient) (o : ServiceOrder) (s : Store)
  : Response * Store + ServiceOrder * Store :=
  if negb (cpf_valid c) then
    inl (HTTP_400_BAD_REQUEST
           "CPF do cliente é obrigatório no update da OS e deve conter 11 dígitos.",
         s)
  else
    match link_cliente (persons s) o c with
    | (ps, None) =>
        inl (HTTP_500_INTERNAL_SERVER_ERROR "Erro ao atualizar OS",
             with_persons ps s)
    | (ps, Some pid) => inr (set_renter (Some pid) o, with_persons ps s)
    end.

(** From [service_order.items.all().delete()] to the response. *)
Definition replace_items_and_save (u : User) (d : FrontendServiceOrderUpdate)
    (now : datetime) (today : date) (o : ServiceOrder) (s : Store)
  : Response * Store :=
  let s1 := delete_items (order_id o) s in
  let s2 := match patch_itens d with
            | Some l => fold_left (add_item (order_id o)) l s1
            | None => s1
            end in
  let s3 := match patch_acessorios d with
            | Some l => fold_left (add_acessorio (order_id o)) l s2
            | None => s2
            end in
  let (o1, s4) := save o s3 in
  let (o2, s5) :=
    if is_full_update d then advance_to_production today o1 s4
    else (o1, s4) in
  (* [service_order.update(request.user)] *)
  let o3 := set_updated_by (Some (user_id u))
              (set_date_updated (Some now) o2) in
  (HTTP_200_OK, snd (save o3 s5)).

Definition put (u : User) (oid : Z) (d : FrontendServiceOrderUpdate)
    (now : datetime) (today : date) (s : Store) : Response * Store :=
  match get_order s oid with
  | None => (HTTP_500_INTERNAL_SERVER_ERROR "Erro ao atualizar OS", s)
  | Some o =>
      let after_os :=
        match ordem_servico d with
        | Some os => apply_ordem_servico s os o
        | None => inr o
        end in
      match after_os with
      | inl resp => (resp, s)
      | inr o1 =>
          let after_cliente :=
            match cliente d with
            | Some c => apply_cliente c o1 s
            | None => inr (o1, s)
            end in
          match after_cliente with
          | inl failed => failed
          | inr (o2, s1) => replace_items_and_save u d now today o2 s1
          end
      end
  end.

End Update.

(** ** Vocabulary of the statements *)

(** Python's [-] on two nullable decimals: there is a difference only when
    both operands are there. *)
Definition decimal_sub (x y : option Decimal) : option Decimal :=
  match x, y with
  | Some a, Some b => Some (a - b)
  | _, _ => None
  end.

(** The row is as [ServiceOrder.save] leaves a row. *)
Definition saved (o : ServiceOrder) : Prop := recompute_remaining o = o.

(** Every row of [s'] is a row of [s] or was written through
    [ServiceOrder.save]. *)
Definition written_by_save (s s' : Store) : Prop :=
  forall o', In o' (orders s') -> In o' (orders s) \/ saved o'.

(** The payment forms a mark-retrieved request supplies. *)
Definition supplied_forms (d : MarkRetrievedData) : list PaymentFormItem :=
  match payment_forms d with Some l => l | None => [] end.

(** Their decimal sum, and their methods. *)
Definition sum_of_amounts (forms : list PaymentFormItem) : Decimal :=
  fold_right Z.add 0 (map pf_amount forms).

Definition methods_of (forms : list PaymentFormItem) : list string :=
  map pf_forma_pagamento forms.

(** The call gets past the phase check, the registry look-up and the role
    guard of mark-retrieved. *)
Definition retrievable (u : User) (o : ServiceOrder) (s : Store) : Prop :=
  phase_name_in ["EM_PRODUCAO"; "AGUARDANDO_RETIRADA"] o = true
  /\ role_guard u o = true
  /\ get_or_create "AGUARDANDO_DEVOLUCAO" s <> None.

(** A list without its repetitions: each element stays where it first
    occurs. *)
Fixpoint first_occurrences (l : list string) : list string :=
  match l with
  | [] => []
  | x :: t => x :: filter (fun y => negb (String.eqb y x)) (first_occurrences t)
  end.

(** The methods a comma-joined [payment_method] string lists:
    [s.split(", ")]. *)
Fixpoint split_methods_from (cur s : string) : list string :=
  match s with
  | EmptyString => [cur]
  | String "," (String " " r) => cur :: split_methods_from EmptyString r
  | String c r => split_methods_from (append cur (String c EmptyString)) r
  end.

Definition split_methods (s : string) : list string :=
  split_methods_from EmptyString s.

(** The order has a linked event whose date is before [today]. *)
Definition event_passed (today : date) (o : ServiceOrder) : Prop :=
  exists e d, event o = Some e /\ event_date e = Some d /\ d < today.

(** The order is one the auto-refuse sweep is to move: it is in one of the
    five phases of the sweep, its event has passed and it was never
    retrieved. *)
Definition qualifies (today : date) (o : ServiceOrder) : Prop :=
  (exists ph, service_order_phase o = Some ph /\ In (name ph) sweep_phases)
  /\ event_passed today o
  /\ data_retirado o = None.

(** What the sweep does to one row [o], leaving [o']; [refused] is the
    registry's [RECUSADA] row, if there is one. *)
Definition swept_row (today : date) (refused : option ServiceOrderPhase)
    (o o' : ServiceOrder) : Prop :=
  order_id o' = order_id o
  /\ (phase_name_is "RECUSADA" o = true -> o' = o)
  /\ (event o = None -> o' = o)
  /\ match refused with
     | None => o' = o
     | Some rp =>
         name rp = "RECUSADA"
         /\ (qualifies today o ->
             service_order_phase o' = Some rp
             /\ justification_refusal o' = Some "Cliente não retirou o produto")
         /\ (~ qualifies today o -> o' = o)
     end.

(** Two instances of one order at the same stage of the life cycle. *)
Definition same_stage (o o1 : ServiceOrder) : Prop :=
  order_id o1 = order_id o
  /\ service_order_phase o1 = service_order_phase o
  /\ production_date o1 = production_date o.

(** The store after the line items of a patch have replaced those of the
    order [oid]. *)
Definition items_replaced (oid : Z) (d : FrontendServiceOrderUpdate)
    (s : Store) : Store :=
  let s1 := delete_items oid s in
  let s2 := match patch_itens d with
            | Some l => fold_left (add_item oid) l s1
            | None => s1
            end in
  match patch_acessorios d with
  | Some l => fold_left (add_acessorio oid) l s2
  | None => s2
  end.

(** Phase and production date of an order after a full update, from those
    before it: [em] is the registry's [EM_PRODUCAO] row, if there is one. *)
Definition stage_after_full_update (today : date)
    (em : option ServiceOrderPhase) (o o' : ServiceOrder) : Prop :=
  match em, service_order_phase o with
  | Some em_producao, Some current =>
      if mem_str (name current) production_phases
      then service_order_phase o' = Some current
           /\ production_date o' = production_date o
      else name em_producao = "EM_PRODUCAO"
           /\ service_order_phase o' = Some em_producao
           /\ production_date o' = Some today
  | _, _ =>
      service_order_phase o' = service_order_phase o
      /\ production_date o' = production_date o
  end.

(** The line items of an order, and what one of them shows: the temporary
    product it links to (its key left out), the catalogue product, and the
    adjustment flag and notes. *)
Definition order_items (s : Store) (oid : Z) : list ServiceOrderItem :=
  filter (fun i => service_order i =? oid) (items s).

Definition other_items (s : Store) (oid : Z) : list ServiceOrderItem :=
  filter (fun i => negb (service_order i =? oid)) (items s).

Definition linked_product (s : Store) (i : ServiceOrderItem)
  : option TemporaryProduct :=
  match temporary_product i with
  | Some pk =>
      find (fun t => temporary_product_id t =? pk) (temporary_products s)
  | None => None
  end.

Definition unkeyed (t : TemporaryProduct) : TemporaryProduct :=
  {| temporary_product_id := 0; product_type := product_type t;
     size := size t; sleeve_length := sleeve_length t; color := color t;
     brand := brand t; description := description t; venda := venda t;
     extensor := extensor t; waist_size := waist_size t;
     leg_length := leg_length t; ajuste_cintura := ajuste_cintura t;
     ajuste_comprimento := ajuste_comprimento t |}.

Definition ItemView : Type :=
  option TemporaryProduct * option Z * bool * option string.

Definition item_view (s : Store) (i : ServiceOrderItem) : ItemView :=
  (option_map unkeyed (linked_product s i), product i, adjustment_needed i,
   adjustment_notes i).

(** The line item an entry of [itens] or of [acessorios] stands for. *)
Definition view_of_item (item : FrontendOrderItem) : ItemView :=
  (Some (temp_product_of_item 0 item), None,
   is_some (clean_field (it_ajuste item)), clean_field (it_ajuste item)).

Definition view_of_acessorio (ac : FrontendAccessory) : ItemView :=
  (Some (temp_product_of_acessorio 0 ac), None, false, None).

Definition patch_views (d : FrontendServiceOrderUpdate) : list ItemView :=
  map view_of_item (match patch_itens d with Some l => l | None => [] end)
  ++ map view_of_acessorio
       (match patch_acessorios d with Some l => l | None => [] end).

(** The item links to a temporary product that [s] did not have. *)
Definition links_new_product (s : Store) (i : ServiceOrderItem) : Prop :=
  exists pk,
    temporary_product i = Some pk
    /\ ~ In pk (map temporary_product_id (temporary_products s)).

(** The update call gets to the replacement of the line items: the order
    block sets its fields without an early return (the employee, when one
    is named, exists; no payment entry with a method has a null amount),
    and the client block, when there is one, has an 11-character CPF and
    the person directory links a person. *)
Definition passes_validation
    (link_cliente :
       list Person -> ServiceOrder -> FrontendClient -> list Person * option Z)
    (d : FrontendServiceOrderUpdate) (s : Store) (o : ServiceOrder) : Prop :=
  exists o1,
    match ordem_servico d with
    | Some os => apply_ordem_servico s os o
    | None => inr o
    end = inr o1
    /\ match cliente d with
       | Some c =>
           cpf_valid c = true /\ snd (link_cliente (persons s) o1 c) <> None
       | None => True
       end.

(** The listing of [phase_name] resolves to the registry row [phase]. *)
Definition resolves_to (phase_name : string) (s : Store)
    (phase : ServiceOrderPhase) : Prop :=
  first (filter (fun p => icontains (name p) phase_name) (phases s))
  = Some phase.

(** Late for retrieval: the retrieval date is before [today], or the event
    has passed and the order was never retrieved. *)
Definition late_for_retrieval (today : date) (o : ServiceOrder) : Prop :=
  (exists d, retirada_date o = Some d /\ d < today)
  \/ (event_passed today o /\ data_retirado o = None).

(** The orders a listing of the row [phase] yields from a store: the
    non-virtual ones whose phase is that row. *)
Definition listed_in (phase : ServiceOrderPhase) (s : Store)
  : list ServiceOrder :=
  filter (in_phase_q phase) (orders s).

(** The order has a linked event whose date is after [today]. *)
Definition event_ahead (today : date) (o : ServiceOrder) : Prop :=
  exists e d, event o = Some e /\ event_date e = Some d /\ today < d.

(** Late for return, the two branches of the [ATRASADO] view. *)
Definition late_for_return (today : date) (o : ServiceOrder) : Prop :=
  ((exists d, devolucao_date o = Some d /\ d < today) /\ event_ahead today o)
  \/ (data_devolvido o = None /\ event_passed today o).

(** The rows of a table are told apart by their primary key. *)
Definition keyed (tbl : list ServiceOrderPhase) : Prop :=
  forall p q, In p tbl -> In q tbl -> phase_id p = phase_id q -> p = q.

(** ** Sample rows and stores

    [ServiceOrder.objects.create(order_date=...)] with every other column at
    its default; the samples below are built from it. *)
Definition new_order (pk : Z) (day : date) : ServiceOrder :=
  {| order_id := pk; renter := None; employee := None; attendant := None;
     order_date := day; event := None; renter_role := None;
     total_value := Some 0; advance_payment := Some 0;
     remaining_payment := Some 0; payment_method := None;
     payment_details := None; came_from := None; purchase := false;
     service_type := None; service_order_phase := None;
     justification_refusal := None; prova_date := None;
     retirada_date := None; devolucao_date := None; data_devolvido := None;
     data_retirado := None; data_finalizado := None; esta_atrasada := false;
     production_date := None; is_virtual := false; date_updated := None;
     updated_by := None |}.

(** The seven phases, seeded in life-cycle order. *)
Definition PENDENTE := {| phase_id := 1; name := "PENDENTE" |}.
Definition EM_PRODUCAO := {| phase_id := 2; name := "EM_PRODUCAO" |}.
Definition AGUARDANDO_RETIRADA :=
  {| phase_id := 3; name := "AGUARDANDO_RETIRADA" |}.
Definition AGUARDANDO_DEVOLUCAO :=
  {| phase_id := 4; name := "AGUARDANDO_DEVOLUCAO" |}.
Definition FINALIZADO := {| phase_id := 5; name := "FINALIZADO" |}.
Definition RECUSADA := {| phase_id := 6; name := "RECUSADA" |}.
Definition ATRASADO := {| phase_id := 7; name := "ATRASADO" |}.

Definition seeded_phases : list ServiceOrderPhase :=
  [PENDENTE; EM_PRODUCAO; AGUARDANDO_RETIRADA; AGUARDANDO_DEVOLUCAO;
   FINALIZADO; RECUSADA; ATRASADO].

Definition store_of (ps : list ServiceOrderPhase) (os : list ServiceOrder)
  : Store :=
  {| phases := ps; persons := []; orders := os; temporary_products := [];
     items := [] |}.

(** Staff: an administrator, the employee 11 and some other person 12. *)
Definition admin : User :=
  {| user_id := 1;
     person := Some {| person_id := 10; person_type := "ADMINISTRADOR" |} |}.
Definition atendente : User :=
  {| user_id := 2;
     person := Some {| person_id := 11; person_type := "ATENDENTE" |} |}.
Definition outsider : User :=
  {| user_id := 3;
     person := Some {| person_id := 12; person_type := "ATENDENTE" |} |}.

(** Day 100 is "today" in the samples. *)
Definition day : date := 100.

(** An order of 1000.00 with 300.00 paid in advance. *)
Definition order_1000 : ServiceOrder :=
  set_advance_payment (Some 30000)
    (set_total_value (Some 100000) (new_order 1 90)).

(** A row whose [total_value] is NULL and whose stored remainder is 500.00. *)
Definition order_without_total : ServiceOrder :=
  set_remaining_payment (Some 50000)
    (set_total_value None (new_order 2 90)).

(** An order of 1000.00 in production, handled by employee 11. *)
Definition order_in_production : ServiceOrder :=
  set_service_order_phase (Some EM_PRODUCAO)
    (set_employee (Some 11)
       (set_total_value (Some 100000) (new_order 1 90))).

Definition store_in_production : Store :=
  store_of seeded_phases [recompute_remaining order_in_production].

(** Scenario 3 of the specification: 900.00 offered against 1000.00. *)
Definition pay_900_of_1000 : MarkRetrievedData :=
  {| receive_remaining_payment := true;
     remaining_amount := Some 100000;
     payment_forms :=
       Some [ {| pf_amount := 60000; pf_forma_pagamento := "pix" |};
              {| pf_amount := 30000; pf_forma_pagamento := "debito" |} ] |}.

(** Scenario 2 of the specification, with [remaining_amount] left out:
    600.00 by pix and 400.00 by debit card. *)
Definition pay_in_full : MarkRetrievedData :=
  {| receive_remaining_payment := true;
     remaining_amount := None;
     payment_forms :=
       Some [ {| pf_amount := 60000; pf_forma_pagamento := "pix" |};
              {| pf_amount := 40000; pf_forma_pagamento := "debito" |} ] |}.

(** An order of 1000.00 in production whose deposit of 300.00 was paid by
    pix, and the request that settles the other 700.00 by pix too. *)
Definition order_with_pix_deposit : ServiceOrder :=
  recompute_remaining
    (set_payment_method (Some "pix")
       (set_advance_payment (Some 30000) order_in_production)).

Definition store_with_pix_deposit : Store :=
  store_of seeded_phases [order_with_pix_deposit].

Definition pay_rest_by_pix : MarkRetrievedData :=
  {| receive_remaining_payment := true;
     remaining_amount := None;
     payment_forms :=
       Some [ {| pf_amount := 70000; pf_forma_pagamento := "pix" |} ] |}.

(** The same order once retrieved, waiting to be returned. *)
Definition order_awaiting_return : ServiceOrder :=
  recompute_remaining
    (set_data_retirado (Some 400)
       (set_service_order_phase (Some AGUARDANDO_DEVOLUCAO)
          order_in_production)).

Definition store_awaiting_return : Store :=
  store_of seeded_phases [order_awaiting_return].

(** Scenario 4 of the specification: a pending order whose event was
    yesterday and which was never retrieved; and the same order in a
    registry that has no [RECUSADA] row yet. *)
Definition order_event_yesterday : ServiceOrder :=
  set_service_order_phase (Some PENDENTE)
    (set_renter (Some 20)
       {| order_id := 3; renter := None; employee := None; attendant := None;
          order_date := 90;
          event := Some {| event_id := 1; event_date := Some 99 |};
          renter_role := None; total_value := Some 0;
          advance_payment := Some 0; remaining_payment := Some 0;
          payment_method := None; payment_details := None; came_from := None;
          purchase := false; service_type := None;
          service_order_phase := None; justification_refusal := None;
          prova_date := None; retirada_date := None; devolucao_date := None;
          data_devolvido := None; data_retirado := None;
          data_finalizado := None; esta_atrasada := false;
          production_date := None; is_virtual := false; date_updated := None;
          updated_by := None |}).

Definition store_event_yesterday : Store :=
  store_of seeded_phases [order_event_yesterday].

Definition store_without_recusada : Store :=
  store_of [PENDENTE; EM_PRODUCAO] [order_event_yesterday].

(** A person directory that is never asked (the samples send no client
    block). *)
Definition no_directory (ps : list Person) (o : ServiceOrder)
    (c : FrontendClient) : list Person * option Z :=
  (ps, None).

(** An order created at intake while the registry had no [PENDENTE] row:
    it has no phase.  And a full update of it: one jacket, one tie. *)
Definition order_without_phase : ServiceOrder := new_order 4 90.

Definition store_without_phase : Store :=
  {| phases := seeded_phases; persons := []; orders := [order_without_phase];
     temporary_products := [];
     items := [ {| item_id := 1; service_order := 4; temporary_product := None;
                   product := Some 77; adjustment_needed := false;
                   adjustment_notes := None |} ] |}.

Definition paleto : FrontendOrderItem :=
  {| it_tipo := "paleto"; it_numero := Some "48"; it_cor := Some "preto";
     it_manga := None; it_marca := None; it_ajuste := Some " barra ";
     it_extras := None; it_cintura := None; it_perna := None;
     it_ajuste_cintura := None; it_ajuste_comprimento := None;
     it_venda := false |}.

Definition gravata : FrontendAccessory :=
  {| ac_tipo := "gravata"; ac_cor := Some "azul"; ac_numero := None;
     ac_descricao := None; ac_marca := None; ac_extensor := false;
     ac_venda := false |}.

Definition order_service (its : option (list FrontendOrderItem))
    (acs : option (list FrontendAccessory)) : FrontendOrderService :=
  {| data_retirada := None; data_devolucao := None; data_prova := None;
     ocasiao := None; origem := None; modalidade := None; employee_id := None;
     itens := its; acessorios := acs; pagamento := None |}.

Definition full_update : FrontendServiceOrderUpdate :=
  {| ordem_servico := Some (order_service (Some [paleto]) (Some [gravata]));
     cliente := None |}.

(** A patch that only moves the return date: no [itens], no [acessorios]. *)
Definition dates_only : FrontendServiceOrderUpdate :=
  {| ordem_servico :=
       Some {| data_retirada := None; data_devolucao := Some 120;
               data_prova := None; ocasiao := None; origem := None;
               modalidade := None; employee_id := None; itens := None;
               acessorios := None; pagamento := None |};
     cliente := None |}.

(** A pending order with one catalogue line item. *)
Definition order_pending : ServiceOrder :=
  set_service_order_phase (Some PENDENTE) (new_order 4 90).

Definition store_pending : Store :=
  {| phases := seeded_phases; persons := []; orders := [order_pending];
     temporary_products := [];
     items := [ {| item_id := 1; service_order := 4; temporary_product := None;
                   product := Some 77; adjustment_needed := false;
                   adjustment_notes := None |} ] |}.

(** An order ready for retrieval since day 95, two days after which a
    listing of the phase is asked for; its renter is person 20. *)
Definition order_ready : ServiceOrder :=
  set_retirada_date (Some 95)
    (set_service_order_phase (Some AGUARDANDO_RETIRADA)
       (set_renter (Some 20) (new_order 5 90))).

Definition store_ready : Store := store_of seeded_phases [order_ready].

(** A registry seeded with the rows the code never creates by itself:
    [AGUARDANDO_DEVOLUCAO] is missing until the first retrieval.  An order
    taken in without phase, to be returned on day 99, for an event on day
    101. *)
Definition phases_before_first_retrieval : list ServiceOrderPhase :=
  [ {| phase_id := 1; name := "EM_PRODUCAO" |};
    {| phase_id := 2; name := "ATRASADO" |} ].

Definition order_phaseless_late : ServiceOrder :=
  set_devolucao_date (Some 99)
    {| order_id := 6; renter := Some 20; employee := None; attendant := None;
       order_date := 90;
       event := Some {| event_id := 2; event_date := Some 101 |};
       renter_role := None; total_value := Some 0;
       advance_payment := Some 0; remaining_payment := Some 0;
       payment_method := None; payment_details := None; came_from := None;
       purchase := false; service_type := None;
       service_order_phase := None; justification_refusal := None;
       prova_date := None; retirada_date := None; devolucao_date := None;
       data_devolvido := None; data_retirado := None;
       data_finalizado := None; esta_atrasada := false;
       production_date := None; is_virtual := false; date_updated := None;
       updated_by := None |}.

Definition store_before_first_retrieval : Store :=
  store_of phases_before_first_retrieval [order_phaseless_late].

(** The same dates on an order that waits to be returned, in the seeded
    registry. *)
Definition order_late_return : ServiceOrder :=
  set_data_retirado (Some 400)
    (set_service_order_phase (Some AGUARDANDO_DEVOLUCAO) order_phaseless_late).

Definition store_late_return : Store :=
  store_of seeded_phases [order_late_return].

(** An order ready for retrieval whose event was yesterday, never
    retrieved, in the seeded registry. *)
Definition order_ready_event_passed : ServiceOrder :=
  set_service_order_phase (Some AGUARDANDO_RETIRADA) order_event_yesterday.

Definition store_ready_event_passed : Store :=
  store_of seeded_phases [order_ready_event_passed].

(** An order that waits to be returned without ever having been marked
    retrieved (the sweep's query has [AGUARDANDO_DEVOLUCAO] among its
    phases for such rows), its event yesterday. *)
Definition order_never_retrieved : ServiceOrder :=
  set_service_order_phase (Some AGUARDANDO_DEVOLUCAO) order_event_yesterday.

Definition store_never_retrieved : Store :=
  store_of seeded_phases [order_never_retrieved].

(** A payment-only record that somehow sits in [AGUARDANDO_RETIRADA], its
    retrieval date passed. *)
Definition order_virtual_ready : ServiceOrder :=
  {| order_id := 7; renter := Some 20; employee := None; attendant := None;
     order_date := 90; event := None; renter_role := None;
     total_value := Some 0; advance_payment := Some 0;
     remaining_payment := Some 0; payment_method := None;
     payment_details := None; came_from := None; purchase := false;
     service_type := None; service_order_phase := Some AGUARDANDO_RETIRADA;
     justification_refusal := None; prova_date := None;
     retirada_date := Some 95; devolucao_date := None; data_devolvido := None;
     data_retirado := None; data_finalizado := None; esta_atrasada := false;
     production_date := None; is_virtual := true; date_updated := None;
     updated_by := None |}.

Definition store_virtual_ready : Store :=
  store_of seeded_phases [order_virtual_ready].

(** * The other transitions, the calendar, the events and the money reports *)

(** ** [ServiceOrderMarkReadyAPIView.post] *)

Definition mark_ready (u : User) (oid : Z) (s : Store) : Response * Store :=
  match get_order s oid with
  | None => (HTTP_500_INTERNAL_SERVER_ERROR "Erro ao marcar OS como pronta", s)
  | Some o =>
      match service_order_phase o with
      | None => (HTTP_400_BAD_REQUEST "OS não possui fase definida.", s)
      | Some ph =>
          if negb (String.eqb (name ph) "EM_PRODUCAO") then
            (HTTP_400_BAD_REQUEST
               "OS deve estar na fase EM_PRODUCAO para ser marcada como pronta.",
             s)
          else
            match get_or_create "AGUARDANDO_RETIRADA" s with
            | None =>
                (HTTP_500_INTERNAL_SERVER_ERROR "Erro ao marcar OS como pronta",
                 s)
            | Some (aguardando_retirada_phase, s1) =>
                if negb (role_guard u o) then
                  (HTTP_403_FORBIDDEN
                     "Apenas o atendente responsável, recepcionista ou um administrador pode marcar uma OS como pronta.",
                   s1)
                else
                  let o1 :=
                    set_service_order_phase (Some aguardando_retirada_phase) o in
                  (HTTP_200_OK, snd (save o1 s1))
            end
      end
  end.

(** ** [ServiceOrderReturnToPendingAPIView.post] *)

Definition return_to_pending (u : User) (oid : Z) (s : Store)
  : Response * Store :=
  match get_order s oid with
  | None =>
      (HTTP_500_INTERNAL_SERVER_ERROR "Erro ao retornar OS para pendente", s)
  | Some o =>
      match service_order_phase o with
      | None => (HTTP_400_BAD_REQUEST "OS não possui fase definida.", s)
      | Some ph =>
          if String.eqb (name ph) "PENDENTE" then
            (HTTP_400_BAD_REQUEST "OS já está na fase PENDENTE.", s)
          else if mem_str (name ph) ["FINALIZADO"] then
            (HTTP_400_BAD_REQUEST
               "OS finalizada não pode ser retornada para pendente.", s)
          else
            match get_or_create "PENDENTE" s with
            | None =>
                (HTTP_500_INTERNAL_SERVER_ERROR
                   "Erro ao retornar OS para pendente", s)
            | Some (pendente_phase, s1) =>
                if negb (role_guard u o) then
                  (HTTP_403_FORBIDDEN
                     "Apenas o atendente responsável, recepcionista ou um administrador pode retornar uma OS para pendente.",
                   s1)
                else
                  let o1 := set_service_order_phase (Some pendente_phase) o in
                  (HTTP_200_OK, snd (save o1 s1))
            end
      end
  end.

(** ** [ServiceOrderRefuseAPIView.post] *)

(** [RefusalReason]: a row of the table of refusal reasons. *)
Record RefusalReason := {
  reason_id : Z;
  reason_name : string
}.

(** The body of the request, read with [request.data.get]: a key that is
    left out or null is [None]. *)
Record RefuseData := {
  justification_refusal_raw : option string;
  justification_reason_id : option Z
}.

(** The four columns of the order's row that no view but this one assigns
    and that the [ServiceOrder] record leaves out; the view returns what it
    writes to them beside the store, which holds the other columns. *)
Record RefusalColumns := {
  justification_reason : Z;
  data_recusa : date;
  date_canceled : datetime;
  canceled_by : Z
}.

(** [justification_raw.strip() if justification_raw else None] *)
Definition justification_of (raw : option string) : option string :=
  if truthy_str raw then option_map strip raw else None.

(** [RefusalReason.objects.get(id=reason_id)] *)
Definition get_reason (reasons : list RefusalReason) (rid : Z)
  : option RefusalReason :=
  find (fun r => reason_id r =? rid) reasons.

Definition allowed_phases : list string :=
  ["PENDENTE"; "EM_PRODUCAO"; "AGUARDANDO_RETIRADA"].

(** [is_admin or is_employee or not service_order.employee] *)
Definition refuse_guard (u : User) (o : ServiceOrder) : bool :=
  is_admin u || is_employee u o || negb (is_some (employee o)).

Definition refuse (reasons : list RefusalReason) (u : User) (oid : Z)
    (d : RefuseData) (now : datetime) (today : date) (s : Store)
  : Response * Store * option RefusalColumns :=
  match get_order s oid with
  | None => (HTTP_500_INTERNAL_SERVER_ERROR "Erro ao recusar OS", s, None)
  | Some o =>
      let justification := justification_of (justification_refusal_raw d) in
      match justification_reason_id d with
      | None =>
          (HTTP_400_BAD_REQUEST "Motivo de recusa é obrigatório.", s, None)
      | Some rid =>
          if rid =? 0 then
            (HTTP_400_BAD_REQUEST "Motivo de recusa é obrigatório.", s, None)
          else
            match get_reason reasons rid with
            | None =>
                (HTTP_400_BAD_REQUEST "Motivo de recusa inválido.", s, None)
            | Some refusal_reason =>
                match get_or_create "RECUSADA" s with
                | None =>
                    (HTTP_500_INTERNAL_SERVER_ERROR "Erro ao recusar OS", s,
                     None)
                | Some (refused_phase, s1) =>
                    let guarded :=
                      if negb (refuse_guard u o) then
                        (HTTP_403_FORBIDDEN
                           "Apenas o atendente responsável, um administrador, ou usuários autorizados para triagem podem recusar uma OS.",
                         s1, None)
                      else
                        let o1 :=
                          set_service_order_phase (Some refused_phase) o in
                        let o2 := set_justification_refusal justification o1 in
                        (* [service_order.cancel(request.user)] saves *)
                        (HTTP_200_OK, snd (save o2 s1),
                         Some {| justification_reason :=
                                   reason_id refusal_reason;
                                 data_recusa := today;
                                 date_canceled := now;
                                 canceled_by := user_id u |}) in
                    match service_order_phase o with
                    | Some current_phase =>
                        if negb (mem_str (name current_phase) allowed_phases)
                        then
                          (HTTP_400_BAD_REQUEST
                             (append "OS não pode ser recusada na fase atual ("
                                (append (name current_phase)
                                   (append "). Apenas fases "
                                      (append (join ", " allowed_phases)
                                         " ou OS sem fase definida podem ser recusadas.")))),
                           s1, None)
                        else guarded
                    | None => guarded
                    end
                end
            end
      end
  end.

(** ** [EventLinkServiceOrderAPIView.post] *)

Definition set_event (v : option Event) (o : ServiceOrder) : ServiceOrder :=
  {| order_id := order_id o; renter := renter o; employee := employee o;
     attendant := attendant o; order_date := order_date o; event := v;
     renter_role := renter_role o; total_value := total_value o;
     advance_payment := advance_payment o;
     remaining_payment := remaining_payment o;
     payment_method := payment_method o;
     payment_details := payment_details o; came_from := came_from o;
     purchase := purchase o; service_type := service_type o;
     service_order_phase := service_order_phase o;
     justification_refusal := justification_refusal o;
     prova_date := prova_date o; retirada_date := retirada_date o;
     devolucao_date := devolucao_date o; data_devolvido := data_devolvido o;
     data_retirado := data_retirado o; data_finalizado := data_finalizado o;
     esta_atrasada := esta_atrasada o; production_date := production_date o;
     is_virtual := is_virtual o; date_updated := date_updated o;
     updated_by := updated_by o |}.

Definition set_is_virtual (v : bool) (o : ServiceOrder) : ServiceOrder :=
  {| order_id := order_id o; renter := renter o; employee := employee o;
     attendant := attendant o; order_date := order_date o; event := event o;
     renter_role := renter_role o; total_value := total_value o;
     advance_payment := advance_payment o;
     remaining_payment := remaining_payment o;
     payment_method := payment_method o;
     payment_details := payment_details o; came_from := came_from o;
     purchase := purchase o; service_type := service_type o;
     service_order_phase := service_order_phase o;
     justification_refusal := justification_refusal o;
     prova_date := prova_date o; retirada_date := retirada_date o;
     devolucao_date := devolucao_date o; data_devolvido := data_devolvido o;
     data_retirado := data_retirado o; data_finalizado := data_finalizado o;
     esta_atrasada := esta_atrasada o; production_date := production_date o;
     is_virtual := v; date_updated := date_updated o;
     updated_by := updated_by o |}.

(** [get_object_or_404(Event, id=event_id)] over the event table, which
    the store does not hold: an order row carries its joined event. *)
Definition get_event (events : list Event) (eid : Z) : option Event :=
  find (fun e => event_id e =? eid) events.

Definition link_service_order (events : list Event)
    (service_order_id eid : Z) (s : Store) : Response * Store :=
  match get_order s service_order_id with
  | None =>
      (HTTP_500_INTERNAL_SERVER_ERROR "Erro ao vincular OS ao evento", s)
  | Some o =>
      match get_event events eid with
      | None =>
          (HTTP_500_INTERNAL_SERVER_ERROR "Erro ao vincular OS ao evento", s)
      | Some e => (HTTP_200_OK, snd (save (set_event (Some e) o) s))
      end
  end.

(** ** [_calculate_event_status] of the two event views *)

(** [ServiceOrder.objects.filter(event=event)] *)
Definition event_service_orders (e : Event) (s : Store) : list ServiceOrder :=
  filter (fun o => match event o with
                   | Some e' => event_id e' =? event_id e
                   | None => false
                   end)
    (orders s).

Definition em_andamento : list string :=
  ["PENDENTE"; "EM_PRODUCAO"; "AGUARDANDO_RETIRADA"; "AGUARDANDO_DEVOLUCAO"].

Definition calculate_event_status (e : Event)
    (service_orders : list ServiceOrder) (today : date) : string :=
  match event_date e with
  | None => "N/A"
  | Some d =>
      if today <=? d then "AGENDADO"
      else if Nat.eqb (List.length service_orders) 0 then "CANCELADO"
      else
        let os_finalizadas :=
          List.length (filter (phase_name_is "FINALIZADO") service_orders) in
        let os_em_andamento :=
          List.length (filter (phase_name_in em_andamento) service_orders) in
        if Nat.eqb os_finalizadas (List.length service_orders)
        then "FINALIZADO"
        else if Nat.ltb 0 os_em_andamento then "POSSUI PENDÊNCIAS"
        else "CANCELADO"
  end.

(** ** Pagination of the event list and of the finance summary *)

(** [int(request.GET.get("page", 1))] under [except ValueError: page = 1],
    then [if page <= 0: page = 1]; [raw] is the integer the parameter reads
    as, [None] when it is left out or is no integer.  Likewise the page
    size, with 50. *)
Definition page_of (raw : option Z) : Z :=
  let page := match raw with Some n => n | None => 1 end in
  if page <=? 0 then 1 else page.

Definition page_size_of (raw : option Z) : Z :=
  let page_size := match raw with Some n => n | None => 50 end in
  if page_size <=? 0 then 50 else page_size.

(** [l[start:stop]] for [0 <= start <= stop]. *)
Definition slice {A} (l : list A) (start stop : Z) : list A :=
  firstn (Z.to_nat (stop - start)) (skipn (Z.to_nat start) l).

Record Page (A : Type) := {
  count : Z;
  page : Z;
  page_size : Z;
  total_pages : Z;
  page_items : list A
}.
Arguments count {A}.
Arguments page {A}.
Arguments page_size {A}.
Arguments total_pages {A}.
Arguments page_items {A}.

Definition paginate {A} (raw_page raw_page_size : option Z)
    (result_data : list A) : Page A :=
  let page := page_of raw_page in
  let page_size := page_size_of raw_page_size in
  let total := Z.of_nat (List.length result_data) in
  let total_pages :=
    if 0 <? page_size then (total + page_size - 1) / page_size else 1 in
  let start_idx := (page - 1) * page_size in
  let end_idx := start_idx + page_size in
  {| count := total; page := page; page_size := page_size;
     total_pages := total_pages;
     page_items := slice result_data start_idx end_idx |}.

(** ** [VirtualServiceOrderCreateAPIView.post] *)

(** [VirtualPaymentItemSerializer] and
    [VirtualServiceOrderCreateSerializer], validated. *)
Record VirtualPaymentItem := {
  vp_amount : Decimal;
  vp_forma_pagamento : string;
  vp_data : option datetime
}.

Record VirtualServiceOrderCreateData := {
  renter_id : option Z;
  vc_total_value : Decimal;
  vc_sinal : option VirtualPaymentItem;
  vc_restante : option VirtualPaymentItem;
  indenizacao : option VirtualPaymentItem;
  observations : option string
}.

Inductive CreateResponse :=
| HTTP_201_CREATED (service_order_id : Z)
| CREATE_404_NOT_FOUND (error : string)
| CREATE_500_INTERNAL_SERVER_ERROR (error : string).

(** The entry appended to [payment_details]; [p.get("data") or
    timezone.now()] is its time stamp. *)
Definition virtual_entry (kind : string) (now : datetime)
    (p : VirtualPaymentItem) : PaymentDetail :=
  {| amount := vp_amount p; forma_pagamento := vp_forma_pagamento p;
     tipo := kind;
     data := match vp_data p with Some d => d | None => now end |}.

(** The two blocks under [if data.get("sinal")] and
    [if data.get("restante")]: ledger, amount paid, methods. *)
Definition virtual_payments (d : VirtualServiceOrderCreateData)
    (now : datetime) : list PaymentDetail * Decimal * list string :=
  let after_sinal :=
    match vc_sinal d with
    | Some p =>
        ([virtual_entry "sinal" now p], 0 + vp_amount p,
         [vp_forma_pagamento p])
    | None => ([], 0, [])
    end in
  match vc_restante d with
  | Some p =>
      let '(payment_details, advance_payment, payment_methods) :=
        after_sinal in
      (payment_details ++ [virtual_entry "restante" now p],
       advance_payment + vp_amount p,
       if mem_str (vp_forma_pagamento p) payment_methods then payment_methods
       else payment_methods ++ [vp_forma_pagamento p])
  | None => after_sinal
  end.

(** The row [ServiceOrder.objects.create] builds; its [observations] and
    [created_by] are columns the [ServiceOrder] record leaves out. *)
Definition virtual_order (pk : Z) (renter_pk : option Z)
    (d : VirtualServiceOrderCreateData) (now : datetime) (today : date)
  : ServiceOrder :=
  let '(payment_details, advance_payment, payment_methods) :=
    virtual_payments d now in
  set_is_virtual true
    (set_payment_method
       (match payment_methods with
        | [] => None
        | _ => Some (join ", " payment_methods)
        end)
       (set_payment_details (Some payment_details)
          (set_advance_payment (Some advance_payment)
             (set_total_value (Some (vc_total_value d))
                (set_renter renter_pk (new_order pk today)))))).

Definition virtual_create (u : User) (d : VirtualServiceOrderCreateData)
    (now : datetime) (today : date) (s : Store) : CreateResponse * Store :=
  let found :=
    match renter_id d with
    | Some rid =>
        if rid =? 0 then Some None
        else match find (fun p => person_id p =? rid) (persons s) with
             | Some p => Some (Some (person_id p))
             | None => None
             end
    | None => Some None
    end in
  match found with
  | None => (CREATE_404_NOT_FOUND "Cliente não encontrado", s)
  | Some renter_pk =>
      let pk := fresh_id (map order_id (orders s)) in
      let (o, s1) := save (virtual_order pk renter_pk d now today) s in
      (HTTP_201_CREATED (order_id o), s1)
  end.

(** ** [ServiceOrderFinanceSummaryAPIView.get] *)

(** The ["date"] of a transaction: the first ten characters of a ledger
    entry's time stamp, the order date, or the time of return. *)
Inductive TransactionDate :=
| EntryDate (stamp : Z)
| OrderDate (d : date)
| ReturnDate (d : datetime).

Record Transaction := {
  tx_order_id : Z;
  transaction_type : string;
  tx_amount : Decimal;
  tx_payment_method : string;
  tx_date : TransactionDate;
  tx_is_virtual : bool
}.

Definition CANDIDATE_EXCLUDED : list string :=
  ["RECUSADA"; "CANCELADO"; "CANCELADA"; "CONCLUÍDO"].

(** [existing_excluded or {"RECUSADA"}] *)
Definition EXCLUDED_PHASES (s : Store) : list string :=
  match map name
          (filter (fun p => mem_str (name p) CANDIDATE_EXCLUDED) (phases s))
  with
  | [] => ["RECUSADA"]
  | existing_excluded => existing_excluded
  end.

(** [order.payment_method or "NÃO INFORMADO"] *)
Definition method_or_default (m : option string) : string :=
  match m with
  | Some (String c r) => String c r
  | _ => "NÃO INFORMADO"
  end.

(** The body of the loop over the orders: the transactions one order
    appends.  [Decimal(str(float(x)))] of a two-place decimal is [x]. *)
Definition order_transactions (excluded : list string) (o : ServiceOrder)
  : list Transaction :=
  if phase_name_in excluded o then []
  else
    let adv := match advance_payment o with Some a => a | None => 0 end in
    let from_advance :=
      if 0 <? adv then
        match payment_details o with
        | Some (pag :: rest) =>
            flat_map
              (fun pag =>
                 if 0 <? amount pag then
                   [{| tx_order_id := order_id o;
                       transaction_type := tipo pag;
                       tx_amount := amount pag;
                       tx_payment_method := forma_pagamento pag;
                       tx_date := EntryDate (data pag);
                       tx_is_virtual := is_virtual o |}]
                 else [])
              (pag :: rest)
        | _ =>
            [{| tx_order_id := order_id o;
                transaction_type := "sinal";
                tx_amount := adv;
                tx_payment_method := method_or_default (payment_method o);
                tx_date := OrderDate (order_date o);
                tx_is_virtual := is_virtual o |}]
        end
      else [] in
    let from_remaining :=
      if phase_name_is "FINALIZADO" o then
        let rem := match remaining_payment o with Some r => r | None => 0 end in
        if 0 <? rem then
          [{| tx_order_id := order_id o;
              transaction_type := "restante";
              tx_amount := rem;
              tx_payment_method := method_or_default (payment_method o);
              tx_date := match data_devolvido o with
                         | Some t => ReturnDate t
                         | None => OrderDate (order_date o)
                         end;
              tx_is_virtual := is_virtual o |}]
        else []
      else [] in
    from_advance ++ from_remaining.

(** [totals_by_method], a dictionary in insertion order. *)
Fixpoint add_total (key : string) (amt : Decimal)
    (totals : list (string * Decimal)) : list (string * Decimal) :=
  match totals with
  | [] => [(key, 0 + amt)]
  | (k, v) :: rest =>
      if String.eqb k key then (k, v + amt) :: rest
      else (k, v) :: add_total key amt rest
  end.

Definition totals_key (t : Transaction) : string :=
  match tx_payment_method t with
  | EmptyString => "NÃO INFORMADO"
  | m => m
  end.

Definition totals_by_method (transactions : list Transaction)
  : list (string * Decimal) :=
  fold_left (fun totals t => add_total (totals_key t) (tx_amount t) totals)
    transactions [].

Record FinanceSummary := {
  summary_page : Page Transaction;
  total_transactions : Z;
  total_amount : Decimal;
  summary_totals_by_method : list (string * Decimal)
}.

(** The list [transactions] after the loop over the orders; [start_date]
    and [end_date] are the dates the two parameters read as, [None] when a
    parameter is left out or empty. *)
Definition finance_transactions (start_date end_date : option date)
    (s : Store) : list Transaction :=
  let orders1 :=
    match start_date with
    | Some d => filter (fun o => d <=? order_date o) (orders s)
    | None => orders s
    end in
  let orders2 :=
    match end_date with
    | Some d => filter (fun o => order_date o <=? d) orders1
    | None => orders1
    end in
  flat_map (order_transactions (EXCLUDED_PHASES s)) orders2.

Definition finance_summary (start_date end_date : option date)
    (raw_page raw_page_size : option Z) (s : Store) : FinanceSummary :=
  let transactions := finance_transactions start_date end_date s in
  {| summary_page := paginate raw_page raw_page_size transactions;
     total_transactions := Z.of_nat (List.length transactions);
     total_amount :=
       fold_left (fun total t => total + tx_amount t) transactions 0;
     summary_totals_by_method := totals_by_method transactions |}.

(** ** [ServiceOrderDashboardAPIView._calculate_kpis]: the counts and the
    two sums of money (the conversion rate, a rounded float, is left
    out) *)

Definition fases_fechadas : list string :=
  ["EM_PRODUCAO"; "AGUARDANDO_RETIRADA"; "AGUARDANDO_DEVOLUCAO"; "FINALIZADO"].

Definition qs_fechados (queryset : list ServiceOrder) : list ServiceOrder :=
  filter (phase_name_in fases_fechadas) queryset.

Definition atendimentos_nao_fechados (queryset : list ServiceOrder) : nat :=
  List.length (filter (phase_name_is "RECUSADA") queryset).

(** [if x: total += x] on a nullable decimal. *)
Definition add_if (total : Decimal) (x : option Decimal) : Decimal :=
  match x with
  | Some v => if v =? 0 then total else total + v
  | None => total
  end.

Definition total_vendido (queryset : list ServiceOrder) : Decimal :=
  fold_left (fun total order => add_if total (total_value order))
    (qs_fechados queryset) 0.

Definition total_recebido (queryset : list ServiceOrder) : Decimal :=
  fold_left
    (fun total order =>
       let total1 := add_if total (advance_payment order) in
       if phase_name_is "FINALIZADO" order
       then add_if total1 (remaining_payment order)
       else total1)
    (qs_fechados queryset) 0.

(** ** The calendar predicates of [ServiceOrder] *)

(** [phase and phase.name not in ["FINALIZADO", "RECUSADA"]] *)
Definition still_open (o : ServiceOrder) : bool :=
  match service_order_phase o with
  | Some p => negb (mem_str (name p) ["FINALIZADO"; "RECUSADA"])
  | None => false
  end.

Definition is_atrasada (today : date) (o : ServiceOrder) : bool :=
  (match devolucao_date o with Some d => d <? today | None => false end
   && still_open o)%bool.

Definition date_is (today : date) (x : option date) : bool :=
  match x with Some d => d =? today | None => false end.

Definition is_hoje (today : date) (o : ServiceOrder) : bool :=
  ((date_is today (prova_date o) || date_is today (retirada_date o)
    || date_is today (devolucao_date o))
   && still_open o)%bool.

Definition is_proximos_10_dias (today : date) (o : ServiceOrder) : bool :=
  let in_10 := today + 10 in
  (match devolucao_date o with
   | Some d => (today <? d) && (d <=? in_10)
   | None => false
   end
   && still_open o)%bool.

Definition tipo_evento (o : ServiceOrder) : string :=
  if is_some (prova_date o) then "prova"
  else if is_some (retirada_date o) then "retirada"
  else if is_some (devolucao_date o) then "devolucao"
  else "outro".

(** ** [ServiceOrderItem.clean]: the message of the [ValidationError], or
    [None] when the item passes *)

Definition clean (i : ServiceOrderItem) : option string :=
  if (negb (is_some (product i)) && negb (is_some (temporary_product i)))%bool
  then Some "Item deve ter um produto ou produto temporário"
  else if (is_some (product i) && is_some (temporary_product i))%bool
  then Some "Item não pode ter produto e produto temporário simultaneamente"
  else None.

(** ** The [justificativa_atraso] of a listed order, in
    [ServiceOrderListByPhaseAPIView.get] *)

Definition justificativa_atraso (phase : ServiceOrderPhase) (today : date)
    (o : ServiceOrder) : option string :=
  if String.eqb (name phase) "ATRASADO" then
    if (match devolucao_date o with Some d => d <? today | None => false end
        && event_date_gt today o)%bool
    then Some "Cliente ainda não devolveu"
    else if (match retirada_date o with Some d => d <? today | None => false end
             && event_date_gt today o)%bool
    then Some "Cliente não retirou"
    else if (negb (is_some (data_devolvido o)) && event_date_lt today o)%bool
    then Some "Cliente ainda não devolveu (evento passou)"
    else None
  else None.

(** ** [EmployeeRegisterSerializer]: [validate_cpf], and what [create]
    writes to the two columns it reads *)

(** [str.isdigit] on ASCII text. *)
Definition isdigit (c : ascii) : bool :=
  let n := nat_of_ascii c in (Nat.leb 48 n && Nat.leb n 57)%bool.

(** ["".join(filter(str.isdigit, value))] *)
Fixpoint digits (value : string) : string :=
  match value with
  | EmptyString => EmptyString
  | String c r => if isdigit c then String c (digits r) else digits r
  end.

(** [User.username] of every user and [Person.cpf] of every person that
    has one. *)
Record Accounts := {
  usernames : list string;
  person_cpfs : list string
}.

(** The CPF it returns, or the message of its [ValidationError]. *)
Definition validate_cpf (a : Accounts) (value : string) : string + string :=
  let cpf := digits value in
  if negb (Nat.eqb (String.length cpf) 11) then inl "CPF inválido."
  else if mem_str cpf (usernames a) then inl "CPF já cadastrado como login."
  else if mem_str cpf (person_cpfs a)
  then inl "Funcionário com este CPF já existe."
  else inr cpf.

(** [create]: [User.objects.create_user(username=cpf, ...)] and
    [Person.objects.create(cpf=cpf, ...)]. *)
Definition create (a : Accounts) (cpf : string) : Accounts :=
  {| usernames := usernames a ++ [cpf];
     person_cpfs := person_cpfs a ++ [cpf] |}.

(** ** [ServiceOrderListByPhaseV2APIView.get], up to its query set

    The second version of the listing runs a sweep of its own, resolves the
    phase and builds the query set [orders_qs] as below.  What follows in
    the view (the filters by order date and free text, the ordering, the
    page and the serialisation) narrows, sorts and reads [orders_qs], and
    writes nothing. *)

Definition overdue_v2 (today : date) (o : ServiceOrder) : bool :=
  (event_date_lt today o
   && negb (is_some (data_retirado o))
   && phase_name_in
        ["PENDENTE"; "EM_PRODUCAO"; "AGUARDANDO_DEVOLUCAO"; "FINALIZADO";
         "AGUARDANDO_RETIRADA"] o
   && is_some (event o)
   && negb (phase_name_is "RECUSADA" o))%bool.

Definition move_to_refused_if_event_passed_v2 (today : date) (s : Store)
  : Store :=
  match first (phases_named "RECUSADA" (phases s)) with
  | None => s
  | Some refused_phase =>
      with_orders
        (map (fun order =>
                if overdue_v2 today order then
                  recompute_remaining
                    (set_justification_refusal
                       (Some "Cliente não retirou o produto")
                       (set_service_order_phase (Some refused_phase) order))
                else order)
           (orders s))
        s
  end.

(** The flag of the [AGUARDANDO_RETIRADA] branch, and the instance after
    the loop body: saved only when the flag changed. *)
Definition flag_v2 (today : date) (order : ServiceOrder) : ServiceOrder :=
  let esta_atrasada0 := false in
  let esta_atrasada1 :=
    if match retirada_date order with Some d => d <? today | None => false end
    then true else esta_atrasada0 in
  let esta_atrasada2 :=
    if (match event order with
        | Some e => match event_date e with
                    | Some d => d <? today
                    | None => false
                    end
        | None => false
        end && negb (is_some (data_retirado order)))%bool
    then true else esta_atrasada1 in
  if negb (Bool.eqb (esta_atrasada order) esta_atrasada2)
  then recompute_remaining (set_esta_atrasada esta_atrasada2 order)
  else order.

(** [None] stands for the 404 of an unknown phase. *)
Definition orders_qs_v2 (phase_name : string) (today : date) (s : Store)
  : option (list ServiceOrder) * Store :=
  let s1 := move_to_refused_if_event_passed_v2 today s in
  match first (filter (fun p => icontains (name p) phase_name) (phases s1)) with
  | None => (None, s1)
  | Some phase =>
      let base_qs := filter (fun o => negb (is_virtual o)) in
      if String.eqb (name phase) "ATRASADO" then
        let aguardando_devolucao_phase :=
          first (phases_named "AGUARDANDO_DEVOLUCAO" (phases s1)) in
        (Some
           (filter
              (fun o =>
                 ((phase_is aguardando_devolucao_phase o
                   && match devolucao_date o with
                      | Some d => d <? today
                      | None => false
                      end
                   && event_date_gt today o
                   && is_some (event o))
                  || (phase_is aguardando_devolucao_phase o
                      && negb (is_some (data_devolvido o))
                      && event_date_lt today o
                      && is_some (event o)))%bool)
              (base_qs (orders s1))),
         s1)
      else if mem_str (name phase)
                ["AGUARDANDO_DEVOLUCAO"; "EM_PRODUCAO"; "AGUARDANDO_RETIRADA"]
      then
        let orders_qs s' :=
          filter (phase_is (Some phase)) (base_qs (orders s')) in
        if String.eqb (name phase) "AGUARDANDO_RETIRADA" then
          let s2 :=
            with_orders
              (map (fun o =>
                      if (negb (is_virtual o) && phase_is (Some phase) o)%bool
                      then flag_v2 today o else o)
                 (orders s1))
              s1 in
          (Some (orders_qs s2), s2)
        else (Some (orders_qs s1), s1)
      else
        (Some (filter (phase_is (Some phase)) (base_qs (orders s1))), s1)
  end.

(** ** [ServiceOrderDashboardAPIView._calculate_status_metrics] *)

Record Agenda := {
  provas : Z;
  retiradas : Z;
  devolucoes : Z
}.

Record StatusMetrics := {
  em_atraso : Agenda;
  hoje : Agenda;
  proximos_10_dias : Agenda
}.

Definition active_phases : list string :=
  ["PENDENTE"; "EM_PRODUCAO"; "AGUARDANDO_RETIRADA"; "AGUARDANDO_DEVOLUCAO"].

(** [ServiceOrder.objects.filter(...).count()] *)
Definition count_where (q : ServiceOrder -> bool) (s : Store) : Z :=
  Z.of_nat (List.length (filter q (orders s))).

(** [<column>__lt=today], and [<column>__gt=today, <column>__lte=in_10_days]:
    false on NULL. *)
Definition date_lt (today : date) (x : option date) : bool :=
  match x with Some d => d <? today | None => false end.

Definition date_within (today in_10_days : date) (x : option date) : bool :=
  match x with
  | Some d => (today <? d) && (d <=? in_10_days)
  | None => false
  end.

Definition calculate_status_metrics (today in_10_days : date) (s : Store)
  : StatusMetrics :=
  let refused_phase := first (phases_named "RECUSADA" (phases s)) in
  let atrasado_phase := first (phases_named "ATRASADO" (phases s)) in
  let atraso_phases :=
    (match refused_phase with Some p => [p] | None => [] end)
    ++ (match atrasado_phase with Some p => [p] | None => [] end) in
  let of_phases :=
    fold_left
      (fun a phase =>
         {| provas :=
              provas a
              + count_where (fun o => phase_is (Some phase) o
                                      && is_some (prova_date o))%bool s;
            retiradas :=
              retiradas a
              + count_where (fun o => phase_is (Some phase) o
                                      && is_some (retirada_date o))%bool s;
            devolucoes :=
              devolucoes a
              + count_where (fun o => phase_is (Some phase) o
                                      && is_some (devolucao_date o))%bool s |})
      atraso_phases
      {| provas := 0; retiradas := 0; devolucoes := 0 |} in
  let active := phase_name_in active_phases in
  {| em_atraso :=
       {| provas := provas of_phases;
          retiradas :=
            retiradas of_phases
            + count_where (fun o => esta_atrasada o
                                    && date_lt today (retirada_date o)
                                    && active o)%bool s;
          devolucoes :=
            devolucoes of_phases
            + count_where (fun o => esta_atrasada o
                                    && date_lt today (devolucao_date o)
                                    && active o)%bool s |};
     hoje :=
       {| provas :=
            count_where (fun o => date_is today (prova_date o) && active o)%bool
              s;
          retiradas :=
            count_where
              (fun o => date_is today (retirada_date o) && active o)%bool s;
          devolucoes :=
            count_where
              (fun o => date_is today (devolucao_date o) && active o)%bool s |};
     proximos_10_dias :=
       {| provas :=
            count_where
              (fun o => date_within today in_10_days (prova_date o)
                        && active o)%bool s;
          retiradas :=
            count_where
              (fun o => date_within today in_10_days (retirada_date o)
                        && active o)%bool s;
          devolucoes :=
            count_where
              (fun o => date_within today in_10_days (devolucao_date o)
                        && active o)%bool s |} |}.

(** ** The two counts of [_calculate_kpis], and the charts by kind of client
    and by channel ([_calculate_grafico_tipo_cliente],
    [_calculate_grafico_canal_origem]); [total_vendido] is the sum before
    its conversion to a float *)

Definition total_atendimentos (queryset : list ServiceOrder) : Z :=
  Z.of_nat (List.length queryset).

Definition atendimentos_fechados (queryset : list ServiceOrder) : Z :=
  Z.of_nat (List.length (qs_fechados queryset)).

(** A dictionary keyed by text, in insertion order:
    [if key not in d: d[key] = init], then the update [f] of [d[key]]. *)
Fixpoint bump {V} (key : string) (init : V) (f : V -> V)
    (d : list (string * V)) : list (string * V) :=
  match d with
  | [] => [(key, f init)]
  | (k, v) :: rest =>
      if String.eqb k key then (k, f v) :: rest
      else (k, v) :: bump key init f rest
  end.

(** [result.sort(key=..., reverse=True)] on an integer key: greatest
    first, rows of equal key in the order they had. *)
Fixpoint insert_desc {A} (key : A -> Z) (x : A) (l : list A) : list A :=
  match l with
  | [] => [x]
  | y :: t => if key x <? key y then y :: insert_desc key x t else x :: y :: t
  end.

Definition sort_desc {A} (key : A -> Z) (l : list A) : list A :=
  fold_right (insert_desc key) [] l.

(** [x.upper() if x else "NÃO INFORMADO"] *)
Definition upper_or_default (x : option string) : string :=
  match x with
  | Some (String c r) => upper (String c r)
  | _ => "NÃO INFORMADO"
  end.

Record TipoCliente := {
  tc_tipo : string;
  tc_atendimentos_fechados : Z;
  tc_total_vendido : Decimal
}.

Definition calculate_grafico_tipo_cliente (queryset : list ServiceOrder)
  : list TipoCliente :=
  let tipo_counts :=
    fold_left
      (fun d order =>
         bump (upper_or_default (renter_role order)) (0, 0)
           (fun dados =>
              if phase_name_in fases_fechadas order
              then (fst dados + 1, add_if (snd dados) (total_value order))
              else dados)
           d)
      queryset [] in
  sort_desc tc_atendimentos_fechados
    (map (fun kv => {| tc_tipo := fst kv;
                       tc_atendimentos_fechados := fst (snd kv);
                       tc_total_vendido := snd (snd kv) |})
       tipo_counts).

Record CanalOrigem := {
  co_canal : string;
  co_atendimentos : Z;
  co_atendimentos_fechados : Z
}.

Definition calculate_grafico_canal_origem (queryset : list ServiceOrder)
  : list CanalOrigem :=
  let canal_counts :=
    fold_left
      (fun d order =>
         bump (upper_or_default (came_from order)) (0, 0)
           (fun dados =>
              (fst dados + 1,
               if phase_name_in fases_fechadas order then snd dados + 1
               else snd dados))
           d)
      queryset [] in
  sort_desc co_atendimentos
    (map (fun kv => {| co_canal := fst kv;
                       co_atendimentos := fst (snd kv);
                       co_atendimentos_fechados := snd (snd kv) |})
       canal_counts).

(** ** Vocabulary of the further statements *)

(** The reason a refusal request names: the row of its non-zero
    [justification_reason_id], if the table has it. *)
Definition reason_of (reasons : list RefusalReason) (d : RefuseData)
  : option RefusalReason :=
  match justification_reason_id d with
  | Some rid => if rid =? 0 then None else get_reason reasons rid
  | None => None
  end.

(** The order is in a phase from which it may be refused, or in none. *)
Definition refusable (o : ServiceOrder) : bool :=
  match service_order_phase o with
  | Some p => mem_str (name p) allowed_phases
  | None => true
  end.

(** The registry has at most one row of the name: [get_or_create] does not
    raise on it. *)
Definition at_most_one (n : string) (s : Store) : Prop :=
  (List.length (phases_named n (phases s)) <= 1)%nat.

(** The row the auto-refuse sweep leaves of a row [o] of the store [s]. *)
Definition swept (today : date) (s : Store) (o : ServiceOrder) : ServiceOrder :=
  match first (phases_named "RECUSADA" (phases s)) with
  | Some rp => if overdue today o then refuse_overdue rp o else o
  | None => o
  end.

(** Two instances of one order with the same phase and the same stamps of
    retrieval, return and finalisation. *)
Definition same_custody (o o1 : ServiceOrder) : Prop :=
  order_id o1 = order_id o
  /\ service_order_phase o1 = service_order_phase o
  /\ data_retirado o1 = data_retirado o
  /\ data_devolvido o1 = data_devolvido o
  /\ data_finalizado o1 = data_finalizado o.

(** What every request keeps of a row [o], leaving [o']: a retrieval stamp
    is never cleared, and an order that is finalised and was retrieved
    keeps its phase and its stamps. *)
Definition kept (o o' : ServiceOrder) : Prop :=
  order_id o' = order_id o
  /\ (data_retirado o <> None -> data_retirado o' <> None)
  /\ (phase_name_is "FINALIZADO" o = true -> data_retirado o <> None ->
      same_custody o o').

(** What every request but a refusal keeps of a row: an order without
    phase stays without phase. *)
Definition stays_phaseless (o o' : ServiceOrder) : Prop :=
  order_id o' = order_id o
  /\ (service_order_phase o = None -> service_order_phase o' = None).

(** Every order of [s] is still in [s'], and related to its row there. *)
Definition evolves_by (R : ServiceOrder -> ServiceOrder -> Prop)
    (s s' : Store) : Prop :=
  forall oid o,
    get_order s oid = Some o ->
    exists o', get_order s' oid = Some o' /\ R o o'.

(** A request to one of the views that write order rows, with its
    arguments; [serve] is the store the view leaves. *)
Inductive Request :=
| MarkReady (u : User) (oid : Z)
| MarkRetrieved (u : User) (oid : Z) (d : MarkRetrievedData) (now : datetime)
| MarkPaid (u : User) (oid : Z) (now : datetime) (today : date)
| ReturnToPending (u : User) (oid : Z)
| Refuse (reasons : list RefusalReason) (u : User) (oid : Z) (d : RefuseData)
    (now : datetime) (today : date)
| Update (u : User) (oid : Z) (d : FrontendServiceOrderUpdate)
    (now : datetime) (today : date)
| ListByPhase (phase_name : string) (today : date)
| LinkServiceOrder (events : list Event) (service_order_id eid : Z)
| VirtualCreate (u : User) (d : VirtualServiceOrderCreateData)
    (now : datetime) (today : date).

Definition serve
    (link_cliente :
       list Person -> ServiceOrder -> FrontendClient -> list Person * option Z)
    (rq : Request) (s : Store) : Store :=
  match rq with
  | MarkReady u oid => snd (mark_ready u oid s)
  | MarkRetrieved u oid d now => snd (mark_retrieved u oid d now s)
  | MarkPaid u oid now today => snd (mark_paid u oid now today s)
  | ReturnToPending u oid => snd (return_to_pending u oid s)
  | Refuse reasons u oid d now today =>
      snd (fst (refuse reasons u oid d now today s))
  | Update u oid d now today => snd (put link_cliente u oid d now today s)
  | ListByPhase phase_name today => snd (list_by_phase phase_name today s)
  | LinkServiceOrder events service_order_id eid =>
      snd (link_service_order events service_order_id eid s)
  | VirtualCreate u d now today => snd (virtual_create u d now today s)
  end.

Definition serve_all
    (link_cliente :
       list Person -> ServiceOrder -> FrontendClient -> list Person * option Z)
    (rqs : list Request) (s : Store) : Store :=
  fold_left (fun st rq => serve link_cliente rq st) rqs s.

(** The ledger of an order, the sum of its entries, and what the order
    has paid; the ledger is balanced when the two agree. *)
Definition ledger (o : ServiceOrder) : list PaymentDetail :=
  match payment_details o with Some l => l | None => [] end.

Definition ledger_total (o : ServiceOrder) : Decimal :=
  fold_right Z.add 0 (map amount (ledger o)).

Definition paid (o : ServiceOrder) : Decimal :=
  match advance_payment o with Some a => a | None => 0 end.

Definition balanced (o : ServiceOrder) : Prop := ledger_total o = paid o.

(** The amount of an optional payment of a virtual order. *)
Definition amount_of (p : option VirtualPaymentItem) : Decimal :=
  match p with Some x => vp_amount x | None => 0 end.

(** The sum of the amounts of a list of transactions. *)
Definition sum_of_transactions (l : list Transaction) : Decimal :=
  fold_right Z.add 0 (map tx_amount l).

(** What is still to be paid on the orders of a query set that are
    confirmed and not finalised. *)
Definition outstanding (queryset : list ServiceOrder) : Decimal :=
  fold_right Z.add 0
    (map (fun o => if phase_name_is "FINALIZADO" o then 0
                   else match remaining_payment o with
                        | Some r => r
                        | None => 0
                        end)
       (qs_fechados queryset)).

(** Every character of the text is an ASCII digit. *)
Fixpoint all_digits (s : string) : bool :=
  match s with
  | EmptyString => true
  | String c r => (isdigit c && all_digits r)%bool
  end.

(** The request is no refusal of the order [oid]. *)
Definition spares (oid : Z) (rq : Request) : Prop :=
  match rq with
  | Refuse _ _ oid' _ _ _ => oid' <> oid
  | _ => True
  end.

(** Every order's phase is the registry row of its key: the join
    [service_order_phase__name] gives the name the order carries. *)
Definition phase_keyed (s : Store) : bool :=
  forallb
    (fun o =>
       match service_order_phase o with
       | Some q =>
           forallb
             (fun p => implb (phase_id q =? phase_id p)
                         (String.eqb (name q) (name p)))
             (phases s)
       | None => true
       end)
    (orders s).

(** The sum of a column over the rows of a report. *)
Definition sum_over {A} (f : A -> Z) (rows : list A) : Z :=
  fold_right Z.add 0 (map f rows).

(** Greatest first. *)
Fixpoint descending (l : list Z) : Prop :=
  match l with
  | [] => True
  | x :: t => Forall (fun y => y <= x) t /\ descending t
  end.

(** ** Further sample rows and requests *)

(** An order refused by the sweep: pending, its event yesterday. *)
Definition order_refused : ServiceOrder :=
  refuse_overdue RECUSADA order_event_yesterday.

Definition store_refused : Store := store_of seeded_phases [order_refused].

(** One reason in the table, and a request that names it. *)
Definition desistiu : RefusalReason :=
  {| reason_id := 1; reason_name := "Cliente desistiu" |}.

Definition refuse_for_price : RefuseData :=
  {| justification_refusal_raw := Some "  achou caro  ";
     justification_reason_id := Some 1 |}.

(** A registry that has no [RECUSADA] row yet, with the order in
    production of employee 11 and the pending order whose event was
    yesterday. *)
Definition store_two_orders : Store :=
  store_of [PENDENTE; EM_PRODUCAO]
    [recompute_remaining order_in_production; order_event_yesterday].

(** The event table: one event, held on day 99. *)
Definition baile : Event := {| event_id := 1; event_date := Some 99 |}.

(** A retrieval without payment. *)
Definition no_payment : MarkRetrievedData :=
  {| receive_remaining_payment := false; remaining_amount := None;
     payment_forms := None |}.

(** The order of 1000.00, finalised with its deposit of 300.00 by pix in
    the ledger and 700.00 never booked. *)
Definition order_finalised : ServiceOrder :=
  recompute_remaining
    (set_service_order_phase (Some FINALIZADO)
       (set_payment_details
          (Some [ {| amount := 30000; forma_pagamento := "pix";
                     tipo := "sinal"; data := 90 |} ])
          order_1000)).

(** A payment record of 500.00: 300.00 by pix and 200.00 in cash. *)
Definition payment_record : VirtualServiceOrderCreateData :=
  {| renter_id := None;
     vc_total_value := 50000;
     vc_sinal := Some {| vp_amount := 30000; vp_forma_pagamento := "pix";
                         vp_data := None |};
     vc_restante := Some {| vp_amount := 20000;
                            vp_forma_pagamento := "dinheiro";
                            vp_data := Some 450 |};
     indenizacao := None;
     observations := None |}.

(** One login is taken. *)
Definition one_login : Accounts :=
  {| usernames := ["11122233344"]; person_cpfs := ["11122233344"] |}.

(** * Properties *)

(** ** Look-up and write of order rows *)

Lemma get_order_id (s : Store) (oid : Z) (o : ServiceOrder) :
  get_order s oid = Some o -> order_id o = oid.
Proof.
  unfold get_order. intros H.
  apply find_some in H. destruct H as [_ H].
  now apply Z.eqb_eq in H.
Qed.

Lemma recompute_remaining_id (o : ServiceOrder) :
  order_id (recompute_remaining o) = order_id o.
Proof.
  unfold recompute_remaining.
  destruct (total_value o), (advance_payment o); reflexivity.
Qed.

Lemma find_write_order (o : ServiceOrder) (tbl : list ServiceOrder) :
  find (fun r => order_id r =? order_id o) (write_order o tbl) = Some o.
Proof.
  unfold write_order.
  destruct (existsb (fun r => order_id r =? order_id o) tbl) eqn:E.
  - induction tbl as [|r t IH]; simpl in *; [discriminate|].
    destruct (order_id r =? order_id o) eqn:Er.
    + simpl. now rewrite Z.eqb_refl.
    + simpl. rewrite Er. apply IH. exact E.
  - induction tbl as [|r t IH]; simpl in *.
    + now rewrite Z.eqb_refl.
    + destruct (order_id r =? order_id o) eqn:Er; [discriminate|].
      apply IH. exact E.
Qed.

Lemma get_order_save (o : ServiceOrder) (s : Store) :
  get_order (snd (save o s)) (order_id o) = Some (recompute_remaining o).
Proof.
  unfold save, get_order. simpl.
  rewrite <- (recompute_remaining_id o).
  apply find_write_order.
Qed.


(** [save] recomputes one column and keeps the others: the case analysis
    on its guard. *)
Ltac recompute_cases o :=
  unfold recompute_remaining;
  destruct (total_value o), (advance_payment o); reflexivity.

Lemma recompute_remaining_fields (o : ServiceOrder) :
  total_value (recompute_remaining o) = total_value o
  /\ advance_payment (recompute_remaining o) = advance_payment o
  /\ remaining_payment (recompute_remaining o) =
       match total_value o, advance_payment o with
       | Some t, Some a => Some (t - a)
       | _, _ => remaining_payment o
       end.
Proof.
  unfold recompute_remaining.
  destruct (total_value o) eqn:Et, (advance_payment o) eqn:Ea; simpl;
    rewrite ?Et, ?Ea; auto.
Qed.

Lemma recompute_remaining_saved (o : ServiceOrder) : saved (recompute_remaining o).
Proof.
  unfold saved, recompute_remaining.
  destruct (total_value o) eqn:Et, (advance_payment o) eqn:Ea; simpl;
    try rewrite Et; try rewrite Ea; reflexivity.
Qed.

Lemma in_write_order (o o' : ServiceOrder) (tbl : list ServiceOrder) :
  In o' (write_order o tbl) -> In o' tbl \/ o' = o.
Proof.
  unfold write_order.
  destruct (existsb _ tbl).
  - intros H. apply in_map_iff in H. destruct H as [r [Hr Hin]].
    destruct (order_id r =? order_id o); subst; auto.
  - intros H. apply in_app_or in H. destruct H as [H|[H|[]]]; auto.
Qed.

Lemma written_by_save_refl (s : Store) : written_by_save s s.
Proof. intros o' H. now left. Qed.

Lemma written_by_save_orders (s s1 s' : Store) :
  orders s1 = orders s -> written_by_save s1 s' -> written_by_save s s'.
Proof. unfold written_by_save. intros E H o' Ho. rewrite <- E. auto. Qed.

Lemma written_by_save_trans (s s1 s' : Store) :
  written_by_save s s1 -> written_by_save s1 s' -> written_by_save s s'.
Proof.
  unfold written_by_save. intros H1 H2 o' Ho.
  destruct (H2 o' Ho) as [H|H]; auto.
Qed.

Lemma save_written (o : ServiceOrder) (s : Store) :
  written_by_save s (snd (save o s)).
Proof.
  intros o' H. unfold save in H. simpl in H.
  apply in_write_order in H. destruct H as [H| ->]; [now left|right].
  apply recompute_remaining_saved.
Qed.

Lemma get_or_create_orders (n : string) (s s1 : Store) (p : ServiceOrderPhase) :
  get_or_create n s = Some (p, s1) ->
  orders s1 = orders s /\ persons s1 = persons s /\ items s1 = items s
  /\ temporary_products s1 = temporary_products s.
Proof.
  unfold get_or_create.
  destruct (phases_named n (phases s)) as [|q [|q' t]]; intros H;
    inversion H; subst; repeat split; reflexivity.
Qed.

Lemma mark_paid_written (u : User) (oid : Z) (now : datetime) (today : date)
    (s : Store) :
  written_by_save s (snd (mark_paid u oid now today s)).
Proof.
  unfold mark_paid.
  destruct (get_order s oid) as [o|]; [|apply written_by_save_refl].
  destruct (service_order_phase o) as [ph|]; [|apply written_by_save_refl].
  destruct (String.eqb (name ph) "FINALIZADO"); [apply written_by_save_refl|].
  destruct (negb (String.eqb (name ph) "AGUARDANDO_DEVOLUCAO"));
    [apply written_by_save_refl|].
  destruct (get_or_create "FINALIZADO" s) as [[fin s1]|] eqn:G;
    [|apply written_by_save_refl].
  apply get_or_create_orders in G. destruct G as [G _].
  apply written_by_save_orders with s1; [exact G|].
  destruct (negb (role_guard u o)); [apply written_by_save_refl|].
  apply save_written.
Qed.

Lemma mark_retrieved_written (u : User) (oid : Z) (d : MarkRetrievedData)
    (now : datetime) (s : Store) :
  written_by_save s (snd (mark_retrieved u oid d now s)).
Proof.
  unfold mark_retrieved.
  destruct (get_order s oid) as [o|]; [|apply written_by_save_refl].
  destruct (service_order_phase o) as [ph|]; [|apply written_by_save_refl].
  destruct (String.eqb (name ph) "AGUARDANDO_DEVOLUCAO");
    [apply written_by_save_refl|].
  destruct (String.eqb (name ph) "FINALIZADO"); [apply written_by_save_refl|].
  destruct (negb (mem_str (name ph) ["EM_PRODUCAO"; "AGUARDANDO_RETIRADA"]));
    [apply written_by_save_refl|].
  destruct (get_or_create "AGUARDANDO_DEVOLUCAO" s) as [[ad s1]|] eqn:G;
    [|apply written_by_save_refl].
  apply get_or_create_orders in G. destruct G as [G _].
  apply written_by_save_orders with s1; [exact G|].
  destruct (negb (role_guard u o)); [apply written_by_save_refl|].
  destruct (if receive_remaining_payment d then receive_payment d now o
            else inr o) as [resp|o1].
  - apply written_by_save_refl.
  - apply save_written.
Qed.

Lemma map_written (f : ServiceOrder -> ServiceOrder) (s : Store) :
  (forall o, f o = o \/ saved (f o)) ->
  written_by_save s (with_orders (map f (orders s)) s).
Proof.
  intros Hf o' H. simpl in H. apply in_map_iff in H.
  destruct H as [o [E Hin]]. subst o'.
  destruct (Hf o) as [E|E]; [left; now rewrite E|now right].
Qed.

Lemma sweep_written (today : date) (s : Store) :
  written_by_save s (move_to_refused_if_event_passed today s).
Proof.
  unfold move_to_refused_if_event_passed.
  destruct (first (phases_named "RECUSADA" (phases s))) as [rp|];
    [|apply written_by_save_refl].
  apply map_written. intros o.
  destruct (overdue today o); [right|now left].
  apply recompute_remaining_saved.
Qed.

Lemma update_flag_written (today : date) (o : ServiceOrder) :
  update_flag today o = o \/ saved (update_flag today o).
Proof.
  unfold update_flag.
  destruct (Bool.eqb _ _); [now left|right; apply recompute_remaining_saved].
Qed.

Lemma list_by_phase_written (phase_name : string) (today : date) (s : Store) :
  written_by_save s (snd (list_by_phase phase_name today s)).
Proof.
  unfold list_by_phase.
  set (s1 := move_to_refused_if_event_passed today s).
  assert (H1 : written_by_save s s1) by apply sweep_written.
  destruct (first _) as [phase|]; [|exact H1].
  destruct (String.eqb (name phase) "ATRASADO"); [exact H1|].
  destruct (String.eqb (name phase) "AGUARDANDO_RETIRADA"); [|exact H1].
  simpl. apply written_by_save_trans with s1; [exact H1|].
  apply map_written. intros o.
  destruct (in_phase_q phase o); [apply update_flag_written|now left].
Qed.

(** ** Frame of the line-item writes *)

Lemma fold_add_item_frame (oid : Z) (l : list FrontendOrderItem) (s : Store) :
  orders (fold_left (add_item oid) l s) = orders s
  /\ phases (fold_left (add_item oid) l s) = phases s.
Proof.
  revert s. induction l as [|x l IH]; intros s; simpl; [now split|].
  destruct (IH (add_item oid s x)) as [-> ->]. now split.
Qed.

Lemma fold_add_acessorio_frame (oid : Z) (l : list FrontendAccessory)
    (s : Store) :
  orders (fold_left (add_acessorio oid) l s) = orders s
  /\ phases (fold_left (add_acessorio oid) l s) = phases s.
Proof.
  revert s. induction l as [|x l IH]; intros s; simpl; [now split|].
  destruct (IH (add_acessorio oid s x)) as [-> ->]. now split.
Qed.

Lemma advance_to_production_written (today : date) (o : ServiceOrder)
    (s : Store) :
  written_by_save s (snd (advance_to_production today o s)).
Proof.
  unfold advance_to_production.
  destruct (first (phases_named "EM_PRODUCAO" (phases s))) as [em|];
    [|apply written_by_save_refl].
  destruct (service_order_phase o) as [ph|]; [|apply written_by_save_refl].
  destruct (negb (mem_str (name ph) production_phases));
    [apply save_written|apply written_by_save_refl].
Qed.

Lemma replace_items_and_save_written (u : User) (d : FrontendServiceOrderUpdate)
    (now : datetime) (today : date) (o : ServiceOrder) (s : Store) :
  written_by_save s (snd (replace_items_and_save u d now today o s)).
Proof.
  unfold replace_items_and_save.
  set (s1 := delete_items (order_id o) s).
  set (s2 := match patch_itens d with
             | Some l => fold_left (add_item (order_id o)) l s1
             | None => s1 end).
  set (s3 := match patch_acessorios d with
             | Some l => fold_left (add_acessorio (order_id o)) l s2
             | None => s2 end).
  assert (E2 : orders s2 = orders s).
  { unfold s2. destruct (patch_itens d); [|reflexivity].
    now rewrite (proj1 (fold_add_item_frame _ _ _)). }
  assert (E3 : orders s3 = orders s).
  { unfold s3. destruct (patch_acessorios d); [|exact E2].
    now rewrite (proj1 (fold_add_acessorio_frame _ _ _)). }
  destruct (save o s3) as [o1 s4] eqn:S4.
  assert (W4 : written_by_save s s4).
  { apply written_by_save_orders with s3; [exact E3|].
    replace s4 with (snd (save o s3)) by now rewrite S4.
    apply save_written. }
  destruct (if is_full_update d then advance_to_production today o1 s4
            else (o1, s4)) as [o2 s5] eqn:S5.
  assert (W5 : written_by_save s s5).
  { destruct (is_full_update d).
    - apply written_by_save_trans with s4; [exact W4|].
      replace s5 with (snd (advance_to_production today o1 s4))
        by now rewrite S5.
      apply advance_to_production_written.
    - inversion S5; subst. exact W4. }
  simpl. apply written_by_save_trans with s5; [exact W5|].
  apply save_written.
Qed.

Lemma put_written
    (link_cliente :
       list Person -> ServiceOrder -> FrontendClient -> list Person * option Z)
    (u : User) (oid : Z) (d : FrontendServiceOrderUpdate) (now : datetime)
    (today : date) (s : Store) :
  written_by_save s (snd (put link_cliente u oid d now today s)).
Proof.
  unfold put.
  destruct (get_order s oid) as [o|]; [|apply written_by_save_refl].
  destruct (match ordem_servico d with
            | Some os => apply_ordem_servico s os o
            | None => inr o end) as [resp|o1]; [apply written_by_save_refl|].
  destruct (cliente d) as [c|].
  - unfold apply_cliente.
    destruct (negb (cpf_valid c)); [apply written_by_save_refl|].
    destruct (link_cliente (persons s) o1 c) as [ps [pid|]].
    + apply written_by_save_orders with (with_persons ps s); [reflexivity|].
      apply replace_items_and_save_written.
    + simpl. intros o' H. now left.
  - apply replace_items_and_save_written.
Qed.

(** ** Query-set loops are maps over a keyed table *)

Lemma with_orders_same (s : Store) : with_orders (orders s) s = s.
Proof. now destruct s. Qed.

Lemma write_order_at (o o' : ServiceOrder) (done rest : list ServiceOrder) :
  NoDup (map order_id (done ++ o :: rest)) ->
  order_id o' = order_id o ->
  write_order o' (done ++ o :: rest) = done ++ o' :: rest.
Proof.
  intros Hnd Hid. unfold write_order.
  assert (Hex : existsb (fun r => order_id r =? order_id o')
                  (done ++ o :: rest) = true).
  { apply existsb_exists. exists o. split.
    - apply in_or_app. right. now left.
    - rewrite Hid. apply Z.eqb_refl. }
  rewrite Hex, map_app. cbn [map]. rewrite Hid, Z.eqb_refl.
  rewrite map_app in Hnd. cbn [map] in Hnd.
  apply NoDup_remove_2 in Hnd.
  assert (Hkeep : forall l, (forall r, In r l -> In (order_id r)
                                                   (map order_id done
                                                    ++ map order_id rest)) ->
                            map (fun r => if order_id r =? order_id o
                                          then o' else r) l = l).
  { intros l Hl. rewrite <- (map_id l) at 2. apply map_ext_in.
    intros r Hr. destruct (order_id r =? order_id o) eqn:E; [|reflexivity].
    apply Z.eqb_eq in E. exfalso. apply Hnd. rewrite <- E. now apply Hl. }
  rewrite (Hkeep done), (Hkeep rest); [reflexivity| |].
  - intros r Hr. apply in_or_app. right. now apply in_map.
  - intros r Hr. apply in_or_app. left. now apply in_map.
Qed.

(** A loop that saves, for each row of [filter sel tbl], the instance
    [upd row] (or nothing when [upd] gives [None]) rewrites the table row
    by row. *)
Lemma loop_as_map (sel : ServiceOrder -> bool)
    (upd : ServiceOrder -> option ServiceOrder) (s : Store) :
  (forall o o', upd o = Some o' -> order_id o' = order_id o) ->
  NoDup (map order_id (orders s)) ->
  fold_left
    (fun st o =>
       match upd o with
       | Some o' => with_orders (write_order o' (orders st)) st
       | None => st
       end)
    (filter sel (orders s)) s
  = with_orders
      (map (fun o => if sel o
                     then match upd o with Some o' => o' | None => o end
                     else o)
         (orders s))
      s.
Proof.
  intros Hid.
  set (h := fun o => if sel o
                     then match upd o with Some o' => o' | None => o end
                     else o).
  set (step := fun st o =>
                 match upd o with
                 | Some o' => with_orders (write_order o' (orders st)) st
                 | None => st
                 end).
  assert (Hh : forall o, order_id (h o) = order_id o).
  { intros o. unfold h. destruct (sel o); [|reflexivity].
    destruct (upd o) as [o'|] eqn:E; [now apply Hid|reflexivity]. }
  assert (G : forall rest done,
             NoDup (map order_id (done ++ rest)) ->
             fold_left step (filter sel rest) (with_orders (done ++ rest) s)
             = with_orders (done ++ map h rest) s).
  { induction rest as [|o rest IH]; intros done Hnd; [reflexivity|].
    assert (Hnd' : NoDup (map order_id ((done ++ [h o]) ++ rest))).
    { rewrite <- app_assoc. cbn [app]. rewrite map_app in *. cbn [map] in *.
      now rewrite Hh. }
    cbn [filter map]. destruct (sel o) eqn:Es.
    - cbn [fold_left]. unfold step at 2. cbn [orders with_orders].
      destruct (upd o) as [o'|] eqn:Eu.
      + rewrite (write_order_at o o' done rest Hnd (Hid _ _ Eu)).
        replace (done ++ o' :: rest) with ((done ++ [h o]) ++ rest)
          by (unfold h; rewrite Es, Eu, <- app_assoc; reflexivity).
        change (with_orders ((done ++ [h o]) ++ rest)
                  (with_orders (done ++ o :: rest) s))
          with (with_orders ((done ++ [h o]) ++ rest) s).
        rewrite (IH _ Hnd'), <- app_assoc. reflexivity.
      + replace (done ++ o :: rest) with ((done ++ [h o]) ++ rest)
          by (unfold h; rewrite Es, Eu, <- app_assoc; reflexivity).
        rewrite (IH _ Hnd'), <- app_assoc. reflexivity.
    - replace (done ++ o :: rest) with ((done ++ [h o]) ++ rest)
        by (unfold h; rewrite Es, <- app_assoc; reflexivity).
      rewrite (IH _ Hnd'), <- app_assoc. reflexivity. }
  intros Hnd. specialize (G (orders s) [] Hnd). cbn [app] in G.
  rewrite with_orders_same in G. exact G.
Qed.

Lemma fold_left_same {A B} (f g : A -> B -> A) (l : list B) (a : A) :
  (forall x y, f x y = g x y) -> fold_left f l a = fold_left g l a.
Proof.
  intros H. revert a. induction l as [|y l IH]; intros a; simpl;
    [reflexivity|]. now rewrite H, IH.
Qed.

Lemma sweep_as_loop (today : date) (s : Store) (rp : ServiceOrderPhase) :
  NoDup (map order_id (orders s)) ->
  first (phases_named "RECUSADA" (phases s)) = Some rp ->
  move_to_refused_if_event_passed today s
  = sweep_loop rp (filter (overdue today) (orders s)) s.
Proof.
  intros Hnd F. unfold move_to_refused_if_event_passed, sweep_loop. rewrite F.
  symmetry.
  etransitivity;
    [|apply (loop_as_map (overdue today)
               (fun o => Some (refuse_overdue rp o)) s); [|exact Hnd]].
  - apply fold_left_same. reflexivity.
  - intros o o' H. inversion H. unfold refuse_overdue.
    now rewrite recompute_remaining_id.
Qed.

Lemma flag_as_loop (today : date) (phase : ServiceOrderPhase) (s : Store) :
  NoDup (map order_id (orders s)) ->
  with_orders
    (map (fun o => if in_phase_q phase o then update_flag today o else o)
       (orders s)) s
  = flag_loop today (filter (in_phase_q phase) (orders s)) s.
Proof.
  intros Hnd. unfold flag_loop. symmetry.
  etransitivity;
    [|etransitivity;
      [apply (loop_as_map (in_phase_q phase)
                (fun o => if Bool.eqb (esta_atrasada o)
                               (retirada_atrasada today o)
                          then None
                          else Some (update_flag today o)) s); [|exact Hnd]|]].
  - apply fold_left_same. intros st o. cbv zeta. unfold update_flag.
    now destruct (Bool.eqb _ _).
  - intros o o'. unfold update_flag. destruct (Bool.eqb _ _); [discriminate|].
    intros H. inversion H. now rewrite recompute_remaining_id.
  - f_equal. apply map_ext. intros o. unfold update_flag.
    destruct (in_phase_q phase o); [|reflexivity].
    now destruct (Bool.eqb _ _).
Qed.

(** ** C1 — the remaining payment after a save *)

(** Scenario 1 of the specification, with a deposit: 1000.00 of which
    300.00 are paid leave 700.00. *)
Example save_order_1000 :
  remaining_payment (fst (save order_1000 (store_of [] [order_1000])))
  = Some 70000.
Proof. reflexivity. Qed.

(** C1, as the specification words it, fails on a row whose [total_value]
    is NULL: [save] leaves the stored remainder of 500.00 where it is, and
    there is no difference [total_value - advance_payment] it could equal. *)
Lemma save_keeps_stale_remaining_payment :
  let o' := fst (save order_without_total (store_of [] [order_without_total])) in
  total_value o' = None
  /\ remaining_payment o' = Some 50000
  /\ remaining_payment o' <> decimal_sub (total_value o') (advance_payment o').
Proof. simpl. repeat split. discriminate. Qed.

(** C1 (amended): [ServiceOrder.save] writes the row it returns; when
    [total_value] and [advance_payment] are both set, the row's
    [remaining_payment] is their exact difference, and when either is NULL
    the stored [remaining_payment] is kept; the two operands are never
    touched.  The views that write orders (mark paid, mark retrieved,
    update, list by phase with its sweep) write them through [save] only:
    every row they leave is an old row or a saved one. *)
Theorem save_remaining_payment (o : ServiceOrder) (s : Store) :
  let o' := fst (save o s) in
  get_order (snd (save o s)) (order_id o) = Some o'
  /\ total_value o' = total_value o
  /\ advance_payment o' = advance_payment o
  /\ remaining_payment o' =
       match total_value o, advance_payment o with
       | Some t, Some a => Some (t - a)
       | _, _ => remaining_payment o
       end
  /\ (forall u oid now today,
        written_by_save s (snd (mark_paid u oid now today s)))
  /\ (forall u oid d now,
        written_by_save s (snd (mark_retrieved u oid d now s)))
  /\ (forall link_cliente u oid d now today,
        written_by_save s (snd (put link_cliente u oid d now today s)))
  /\ (forall phase_name today,
        written_by_save s (snd (list_by_phase phase_name today s))).
Proof.
  cbv zeta. split; [apply get_order_save|].
  unfold save; simpl.
  destruct (recompute_remaining_fields o) as [Ht [Ha Hr]].
  split; [exact Ht|]. split; [exact Ha|]. split; [exact Hr|].
  split; [intros; apply mark_paid_written|].
  split; [intros; apply mark_retrieved_written|].
  split; [intros; apply put_written|].
  intros; apply list_by_phase_written.
Qed.

(** ** Mark retrieved *)

Lemma total_paid_sum (forms : list PaymentFormItem) :
  total_paid forms = sum_of_amounts forms.
Proof.
  unfold total_paid, sum_of_amounts.
  assert (G : forall acc, fold_left (fun a i => a + pf_amount i) forms acc
                          = acc + fold_right Z.add 0 (map pf_amount forms)).
  { induction forms as [|x l IH]; intros acc; simpl; [lia|].
    rewrite IH. lia. }
  rewrite G. lia.
Qed.

Lemma receive_payment_id (d : MarkRetrievedData) (now : datetime)
    (o o1 : ServiceOrder) :
  receive_payment d now o = inr o1 -> order_id o1 = order_id o.
Proof.
  unfold receive_payment.
  destruct (match payment_forms d with Some l => l | None => [] end);
    [discriminate|].
  destruct (negb _); [discriminate|].
  intros H. inversion H. reflexivity.
Qed.

Lemma receive_payment_inr (d : MarkRetrievedData) (now : datetime)
    (o o1 : ServiceOrder) :
  receive_payment d now o = inr o1 ->
  supplied_forms d <> []
  /\ total_paid (supplied_forms d) = target_amount d o
  /\ payment_method o1 =
       Some (merged_payment_method (payment_method o)
               (join ", " (formas_pagamento (supplied_forms d)))).
Proof.
  unfold receive_payment, supplied_forms.
  destruct (match payment_forms d with Some l => l | None => [] end)
    as [|f forms]; [discriminate|].
  destruct (total_paid (f :: forms) =? target_amount d o) eqn:E; simpl negb;
    cbv iota; [|discriminate].
  intros H. inversion H. apply Z.eqb_eq in E.
  repeat split; [discriminate|exact E].
Qed.

Lemma receive_payment_inl (d : MarkRetrievedData) (now : datetime)
    (o : ServiceOrder) :
  supplied_forms d = [] \/ total_paid (supplied_forms d) <> target_amount d o ->
  exists msg, receive_payment d now o = inl (HTTP_400_BAD_REQUEST msg).
Proof.
  unfold receive_payment, supplied_forms.
  destruct (match payment_forms d with Some l => l | None => [] end)
    as [|f forms].
  - intros _. eexists. reflexivity.
  - intros [H|H]; [discriminate|].
    destruct (total_paid (f :: forms) =? target_amount d o) eqn:E.
    + apply Z.eqb_eq in E. contradiction.
    + eexists. reflexivity.
Qed.

Lemma retrievable_names (n : string) :
  mem_str n ["EM_PRODUCAO"; "AGUARDANDO_RETIRADA"] = true ->
  String.eqb n "AGUARDANDO_DEVOLUCAO" = false
  /\ String.eqb n "FINALIZADO" = false.
Proof.
  unfold mem_str. simpl. intros H.
  apply orb_true_iff in H. destruct H as [H|H].
  - apply String.eqb_eq in H. subst. now split.
  - apply orb_true_iff in H. destruct H as [H|H]; [|discriminate].
    apply String.eqb_eq in H. subst. now split.
Qed.

(** What the view does once the order is found. *)
Lemma mark_retrieved_cases (u : User) (oid : Z) (d : MarkRetrievedData)
    (now : datetime) (s : Store) (o : ServiceOrder) :
  get_order s oid = Some o ->
  let r := mark_retrieved u oid d now s in
  (is_success (fst r) = false /\ orders (snd r) = orders s)
  \/ (exists ad s1 o1,
        fst r = HTTP_200_OK
        /\ retrievable u o s
        /\ get_or_create "AGUARDANDO_DEVOLUCAO" s = Some (ad, s1)
        /\ (if receive_remaining_payment d
            then receive_payment d now o = inr o1 else o1 = o)
        /\ snd r =
             snd (save (set_data_retirado (Some now)
                          (set_service_order_phase (Some ad) o1)) s1)).
Proof.
  intros Hget. unfold mark_retrieved. rewrite Hget.
  unfold retrievable, phase_name_in.
  destruct (service_order_phase o) as [ph|]; [|left; now split].
  destruct (String.eqb (name ph) "AGUARDANDO_DEVOLUCAO") eqn:E1;
    [left; now split|].
  destruct (String.eqb (name ph) "FINALIZADO") eqn:E2; [left; now split|].
  destruct (mem_str (name ph) ["EM_PRODUCAO"; "AGUARDANDO_RETIRADA"]) eqn:E3;
    simpl negb; cbv iota; [|left; now split].
  destruct (get_or_create "AGUARDANDO_DEVOLUCAO" s) as [[ad s1]|] eqn:G;
    [|left; now split].
  pose proof (get_or_create_orders _ _ _ _ G) as [Go _].
  destruct (role_guard u o) eqn:R; simpl negb; cbv iota;
    [|left; now split].
  destruct (receive_remaining_payment d) eqn:Rc.
  - destruct (receive_payment d now o) as [resp|o1] eqn:P.
    + left. split; [|exact Go].
      unfold receive_payment in P.
      destruct (match payment_forms d with Some l => l | None => [] end);
        [inversion P; reflexivity|].
      destruct (negb _); inversion P; reflexivity.
    + right. exists ad, s1, o1. repeat split; auto. discriminate.
  - right. exists ad, s1, o. repeat split; auto. discriminate.
Qed.

Lemma get_order_orders (s s' : Store) (oid : Z) :
  orders s' = orders s -> get_order s' oid = get_order s oid.
Proof. unfold get_order. now intros ->. Qed.

(** C2: a mark-retrieved call that asks to receive the remaining payment
    and whose payment forms do not sum exactly to the target amount is
    rejected, and nothing of the order is applied: the order table is the
    one before the call, so the order's row (advance payment, ledger,
    payment method, phase, retrieval time stamp and all the rest) is
    unchanged.  When the call is past the phase check and the role guard,
    the rejection is the 400 of the sum check (or of the empty list). *)
Theorem mark_retrieved_sum_mismatch (u : User) (oid : Z)
    (d : MarkRetrievedData) (now : datetime) (s : Store) (o : ServiceOrder) :
  get_order s oid = Some o ->
  receive_remaining_payment d = true ->
  sum_of_amounts (supplied_forms d) <> target_amount d o ->
  let r := mark_retrieved u oid d now s in
  is_success (fst r) = false
  /\ orders (snd r) = orders s
  /\ get_order (snd r) oid = Some o
  /\ (retrievable u o s -> exists msg, fst r = HTTP_400_BAD_REQUEST msg).
Proof.
  intros Hget Hrc Hsum r.
  rewrite <- total_paid_sum in Hsum.
  assert (Hrej : is_success (fst r) = false /\ orders (snd r) = orders s).
  { destruct (mark_retrieved_cases u oid d now s o Hget)
      as [H|[ad [s1 [o1 [_ [_ [_ [Hp _]]]]]]]]; [exact H|].
    rewrite Hrc in Hp. apply receive_payment_inr in Hp.
    destruct Hp as [_ [Hp _]]. contradiction. }
  destruct Hrej as [Hs Ho].
  split; [exact Hs|]. split; [exact Ho|].
  split; [rewrite (get_order_orders _ _ _ Ho); exact Hget|].
  intros [Hph [Hrole Hreg]].
  subst r. unfold mark_retrieved. rewrite Hget.
  unfold phase_name_in in Hph.
  destruct (service_order_phase o) as [ph|]; [|discriminate].
  destruct (retrievable_names _ Hph) as [-> ->]. rewrite Hph.
  simpl negb. cbv iota.
  destruct (get_or_create "AGUARDANDO_DEVOLUCAO" s) as [[ad s1]|];
    [|contradiction].
  rewrite Hrole, Hrc. simpl negb. cbv iota.
  destruct (receive_payment_inl d now o (or_intror Hsum)) as [msg ->].
  exists msg. reflexivity.
Qed.

(** C2 at scenario 3 of the specification: 900.00 offered against 1000.00 by
    the order's employee. *)
Lemma mark_retrieved_sum_mismatch_witness :
  (get_order store_in_production 1
     = Some (recompute_remaining order_in_production)
   /\ receive_remaining_payment pay_900_of_1000 = true
   /\ sum_of_amounts (supplied_forms pay_900_of_1000)
        <> target_amount pay_900_of_1000
             (recompute_remaining order_in_production)
   /\ retrievable atendente (recompute_remaining order_in_production)
        store_in_production)
  /\ let r :=
       mark_retrieved atendente 1 pay_900_of_1000 500 store_in_production in
     is_success (fst r) = false
     /\ orders (snd r) = orders store_in_production
     /\ get_order (snd r) 1 = Some (recompute_remaining order_in_production)
     /\ (retrievable atendente (recompute_remaining order_in_production)
           store_in_production ->
         exists msg, fst r = HTTP_400_BAD_REQUEST msg).
Proof.
  split.
  - split; [reflexivity|]. split; [reflexivity|].
    split; [vm_compute; discriminate|].
    split; [reflexivity|]. split; [reflexivity|].
    vm_compute. discriminate.
  - apply (mark_retrieved_sum_mismatch atendente 1 pay_900_of_1000 500
             store_in_production (recompute_remaining order_in_production)).
    + reflexivity.
    + reflexivity.
    + vm_compute. discriminate.
Defined.

(** Success of mark-retrieved when the remaining payment is received. *)
Lemma mark_retrieved_receive_success (u : User) (oid : Z)
    (d : MarkRetrievedData) (now : datetime) (s : Store) (o : ServiceOrder) :
  get_order s oid = Some o ->
  receive_remaining_payment d = true ->
  retrievable u o s ->
  (is_success (fst (mark_retrieved u oid d now s)) = true
   <-> supplied_forms d <> []
       /\ sum_of_amounts (supplied_forms d) = target_amount d o).
Proof.
  intros Hget Hrc [Hph [Hrole Hreg]].
  rewrite <- total_paid_sum.
  unfold mark_retrieved. rewrite Hget.
  unfold phase_name_in in Hph.
  destruct (service_order_phase o) as [ph|]; [|discriminate].
  destruct (retrievable_names _ Hph) as [-> ->]. rewrite Hph.
  simpl negb. cbv iota.
  destruct (get_or_create "AGUARDANDO_DEVOLUCAO" s) as [[ad s1]|];
    [|contradiction].
  rewrite Hrole, Hrc. simpl negb. cbv iota.
  destruct (receive_payment d now o) as [resp|o1] eqn:P.
  - split.
    + intros H. exfalso. simpl in H.
      unfold receive_payment in P.
      destruct (match payment_forms d with Some l => l | None => [] end);
        [inversion P; subst; discriminate|].
      destruct (negb _); inversion P; subst; discriminate.
    + intros [Hne Heq].
      destruct (receive_payment_inl d now o) as [msg Hm].
      * unfold receive_payment, supplied_forms in *.
        destruct (match payment_forms d with Some l => l | None => [] end);
          [contradiction|].
        rewrite Heq, Z.eqb_refl in P. discriminate.
      * unfold receive_payment, supplied_forms in *.
        destruct (match payment_forms d with Some l => l | None => [] end);
          [contradiction|].
        rewrite Heq, Z.eqb_refl in P. discriminate.
  - apply receive_payment_inr in P. destruct P as [Hne [Heq _]].
    split; [intros _; now split|reflexivity].
Qed.

(** Scenario 2 of the specification: 1000.00 settled at retrieval by pix
    and debit card. *)
Example mark_retrieved_in_full :
  let r := mark_retrieved atendente 1 pay_in_full 500 store_in_production in
  fst r = HTTP_200_OK
  /\ exists o',
       get_order (snd r) 1 = Some o'
       /\ advance_payment o' = Some 100000
       /\ remaining_payment o' = Some 0
       /\ payment_method o' = Some "pix, debito"
       /\ option_map (@List.length PaymentDetail) (payment_details o') = Some 2%nat
       /\ service_order_phase o' = Some AGUARDANDO_DEVOLUCAO
       /\ data_retirado o' = Some 500.
Proof.
  split; [reflexivity|]. eexists. split; [vm_compute; reflexivity|].
  repeat split.
Qed.

(** ** C9 — the amount the payment forms are checked against *)

(** C9: when the caller leaves [remaining_amount] out, or sends null or
    zero, the target of the sum check is the order's stored
    [remaining_payment], and zero when that column is NULL; a non-zero
    [remaining_amount] of the caller is the target whatever is stored.
    The target is what decides the call: past the phase check and the role
    guard, a call that receives the remaining payment succeeds exactly when
    payment forms are supplied and their sum is the target. *)
Theorem remaining_amount_default (d : MarkRetrievedData) (o : ServiceOrder) :
  (forall v, remaining_amount d = Some v -> v <> 0 -> target_amount d o = v)
  /\ (remaining_amount d = None \/ remaining_amount d = Some 0 ->
      target_amount d o =
        match remaining_payment o with Some r => r | None => 0 end)
  /\ (forall u oid now s,
        get_order s oid = Some o ->
        receive_remaining_payment d = true ->
        retrievable u o s ->
        (is_success (fst (mark_retrieved u oid d now s)) = true
         <-> supplied_forms d <> []
             /\ sum_of_amounts (supplied_forms d) = target_amount d o)).
Proof.
  split; [|split].
  - intros v Hv Hnz. unfold target_amount, or_dec at 1. rewrite Hv.
    destruct (v =? 0) eqn:E; [apply Z.eqb_eq in E; contradiction|reflexivity].
  - intros H. unfold target_amount.
    assert (G : or_dec (remaining_payment o) 0
                = match remaining_payment o with
                  | Some r => r | None => 0 end).
    { unfold or_dec. destruct (remaining_payment o) as [r|]; [|reflexivity].
      destruct (r =? 0) eqn:E; [apply Z.eqb_eq in E; now subst|reflexivity]. }
    destruct H as [-> | ->]; unfold or_dec at 1; simpl; exact G.
  - intros. now apply mark_retrieved_receive_success.
Qed.

(** C9 at scenario 2 of the specification with [remaining_amount] left out:
    the target is the stored 1000.00. *)
Lemma remaining_amount_default_witness :
  (remaining_amount pay_in_full = None
   /\ get_order store_in_production 1
        = Some (recompute_remaining order_in_production)
   /\ receive_remaining_payment pay_in_full = true
   /\ retrievable atendente (recompute_remaining order_in_production)
        store_in_production)
  /\ target_amount pay_in_full (recompute_remaining order_in_production)
       = 100000
  /\ (is_success
        (fst (mark_retrieved atendente 1 pay_in_full 500 store_in_production))
      = true
      <-> supplied_forms pay_in_full <> []
          /\ sum_of_amounts (supplied_forms pay_in_full)
             = target_amount pay_in_full
                 (recompute_remaining order_in_production)).
Proof.
  assert (R : retrievable atendente (recompute_remaining order_in_production)
                store_in_production).
  { split; [reflexivity|]. split; [reflexivity|]. vm_compute. discriminate. }
  pose proof (remaining_amount_default pay_in_full
                (recompute_remaining order_in_production)) as [_ [H2 H3]].
  split; [split; [reflexivity|]; split; [reflexivity|];
          split; [reflexivity|exact R]|].
  split.
  - exact (H2 (or_introl eq_refl)).
  - exact (H3 atendente 1 500 store_in_production eq_refl eq_refl R).
Defined.

(** ** C5 — the methods merged into [payment_method] *)

Lemma filter_filter {A} (f g : A -> bool) (l : list A) :
  filter f (filter g l) = filter (fun x => g x && f x) l.
Proof.
  induction l as [|x l IH]; simpl; [reflexivity|].
  destruct (g x); simpl; [destruct (f x)|]; now rewrite IH.
Qed.

Lemma mem_str_in (x : string) (l : list string) :
  mem_str x l = true <-> In x l.
Proof.
  unfold mem_str. rewrite existsb_exists. split.
  - intros [y [Hy E]]. apply String.eqb_eq in E. now subst.
  - intros H. exists x. split; [exact H|apply String.eqb_refl].
Qed.

Lemma mem_str_app (x : string) (l l' : list string) :
  mem_str x (l ++ l') = (mem_str x l || mem_str x l')%bool.
Proof. unfold mem_str. apply existsb_app. Qed.

(** The loop of the view, started from any [formas]. *)
Lemma fold_append_forma (forms : list PaymentFormItem) (acc : list string) :
  fold_left append_forma forms acc
  = acc ++ filter (fun y => negb (mem_str y acc))
             (first_occurrences (methods_of forms)).
Proof.
  revert acc. induction forms as [|f forms IH]; intros acc; simpl.
  - now rewrite app_nil_r.
  - rewrite IH. unfold append_forma.
    destruct (mem_str (pf_forma_pagamento f) acc) eqn:E; simpl.
    + f_equal. rewrite filter_filter. apply filter_ext. intros y.
      destruct (String.eqb y (pf_forma_pagamento f)) eqn:Ey; simpl;
        [|reflexivity].
      apply String.eqb_eq in Ey. subst. now rewrite E.
    + rewrite <- app_assoc. simpl. f_equal. f_equal.
      rewrite filter_filter. apply filter_ext. intros y.
      rewrite mem_str_app. unfold mem_str at 2. simpl.
      rewrite orb_false_r, negb_orb. apply andb_comm.
Qed.

Lemma formas_pagamento_first_occurrences (forms : list PaymentFormItem) :
  formas_pagamento forms = first_occurrences (methods_of forms).
Proof.
  unfold formas_pagamento. rewrite fold_append_forma. simpl.
  induction (first_occurrences (methods_of forms)) as [|x l IH];
    simpl; [reflexivity|]. now rewrite IH.
Qed.

Lemma first_occurrences_in (l : list string) (x : string) :
  In x (first_occurrences l) <-> In x l.
Proof.
  induction l as [|y l IH]; simpl; [tauto|].
  rewrite filter_In, IH. split.
  - intros [H|[H _]]; auto.
  - intros [H|H]; [now left|].
    destruct (String.eqb x y) eqn:E.
    + apply String.eqb_eq in E. now left.
    + right. now split.
Qed.

Lemma NoDup_filter {A} (f : A -> bool) (l : list A) :
  NoDup l -> NoDup (filter f l).
Proof.
  induction 1 as [|x l Hx Hl IH]; simpl; [constructor|].
  destruct (f x); [|exact IH].
  constructor; [|exact IH].
  rewrite filter_In. tauto.
Qed.

Lemma first_occurrences_NoDup (l : list string) : NoDup (first_occurrences l).
Proof.
  induction l as [|y l IH]; simpl; constructor.
  - rewrite filter_In. intros [_ H]. now rewrite String.eqb_refl in H.
  - now apply NoDup_filter.
Qed.

(** C5, as the specification words it, fails against the methods already
    in the string: settling by pix an order whose deposit was paid by pix
    succeeds and leaves the method twice in [payment_method]. *)
Lemma mark_retrieved_repeats_stored_method :
  let r := mark_retrieved atendente 1 pay_rest_by_pix 500
             store_with_pix_deposit in
  fst r = HTTP_200_OK
  /\ option_map payment_method (get_order (snd r) 1) = Some (Some "pix, pix")
  /\ ~ NoDup (split_methods "pix, pix").
Proof.
  split; [reflexivity|]. split; [reflexivity|].
  intros H. vm_compute in H. inversion H as [|x l Hx _]. apply Hx. now left.
Qed.

(** C5 (amended): on a successful mark-retrieved call that receives the
    remaining payment, the methods of the supplied payment forms are reduced
    to their first occurrences (case-sensitive, no duplicates among them,
    order of first appearance kept) and joined with [", "]; that text is
    appended, after [", "], to the order's [payment_method] when it is set
    and not empty, and becomes the [payment_method] otherwise.  The methods
    already in the string are not compared with the new ones. *)
Theorem mark_retrieved_payment_method (u : User) (oid : Z)
    (d : MarkRetrievedData) (now : datetime) (s s' : Store)
    (o : ServiceOrder) :
  get_order s oid = Some o ->
  receive_remaining_payment d = true ->
  mark_retrieved u oid d now s = (HTTP_200_OK, s') ->
  let merged := first_occurrences (methods_of (supplied_forms d)) in
  NoDup merged
  /\ (forall m, In m merged <-> In m (methods_of (supplied_forms d)))
  /\ exists o',
       get_order s' oid = Some o'
       /\ payment_method o' =
            Some (match payment_method o with
                  | Some (String c r) =>
                      append (String c r) (append ", " (join ", " merged))
                  | _ => join ", " merged
                  end).
Proof.
  intros Hget Hrc Hrun merged.
  split; [apply first_occurrences_NoDup|].
  split; [intros m; apply first_occurrences_in|].
  destruct (mark_retrieved_cases u oid d now s o Hget)
    as [[H _]|[ad [s1 [o1 [_ [_ [_ [Hp Hs]]]]]]]].
  - rewrite Hrun in H. discriminate.
  - rewrite Hrun in Hs. cbn [snd] in Hs. rewrite Hrc in Hp.
    pose proof (receive_payment_id _ _ _ _ Hp) as Hid.
    apply receive_payment_inr in Hp. destruct Hp as [_ [_ Hpm]].
    pose proof (get_order_id _ _ _ Hget) as Hoid.
    set (o3 := set_data_retirado (Some now)
                 (set_service_order_phase (Some ad) o1)) in *.
    exists (recompute_remaining o3). split.
    + rewrite Hs.
      replace oid with (order_id o3) by (simpl; congruence).
      apply get_order_save.
    + rewrite formas_pagamento_first_occurrences in Hpm.
      fold merged in Hpm. unfold merged_payment_method in Hpm.
      rewrite <- Hpm. now recompute_cases o3.
Qed.

(** C5 (amended) at scenario 2 of the specification. *)
Lemma mark_retrieved_payment_method_witness :
  (get_order store_in_production 1
     = Some (recompute_remaining order_in_production)
   /\ receive_remaining_payment pay_in_full = true
   /\ fst (mark_retrieved atendente 1 pay_in_full 500 store_in_production)
      = HTTP_200_OK)
  /\ exists o',
       get_order
         (snd (mark_retrieved atendente 1 pay_in_full 500 store_in_production))
         1 = Some o'
       /\ payment_method o' = Some "pix, debito".
Proof.
  split; [repeat split|].
  assert (Hrun : mark_retrieved atendente 1 pay_in_full 500 store_in_production
                 = (HTTP_200_OK,
                    snd (mark_retrieved atendente 1 pay_in_full 500
                           store_in_production)))
    by (vm_compute; reflexivity).
  destruct (mark_retrieved_payment_method atendente 1 pay_in_full 500
              store_in_production _
              (recompute_remaining order_in_production)
              eq_refl eq_refl Hrun) as [_ [_ [o' [H1 H2]]]].
  exists o'. split; [exact H1|]. rewrite H2. vm_compute. reflexivity.
Defined.

(** ** C3 — mark paid *)

Lemma get_or_create_name (n : string) (s s1 : Store) (p : ServiceOrderPhase) :
  get_or_create n s = Some (p, s1) -> name p = n.
Proof.
  unfold get_or_create, phases_named.
  destruct (filter _ (phases s)) as [|q [|q' t]] eqn:F; intros H;
    try discriminate; injection H as Hp Hs; subst p; [reflexivity|].
  assert (Hin : In q (filter (fun p => String.eqb (name p) n) (phases s)))
    by (rewrite F; now left).
  apply filter_In in Hin. destruct Hin as [_ Hn].
  now apply String.eqb_eq in Hn.
Qed.

Lemma get_or_create_total (n : string) (s : Store) :
  (List.length (phases_named n (phases s)) <= 1)%nat ->
  exists p s1, get_or_create n s = Some (p, s1).
Proof.
  unfold get_or_create.
  destruct (phases_named n (phases s)) as [|q [|q' t]]; simpl; intros H.
  - eexists. eexists. reflexivity.
  - eexists. eexists. reflexivity.
  - lia.
Qed.

(** C3, as the specification words it, fails in the "if" direction: the
    order waits to be returned, yet the call of a person who is neither an
    administrator nor the order's employee or attendant is refused. *)
Lemma mark_paid_refuses_outsider :
  let r := mark_paid outsider 1 500 day store_awaiting_return in
  get_order store_awaiting_return 1 = Some order_awaiting_return
  /\ phase_name_is "AGUARDANDO_DEVOLUCAO" order_awaiting_return = true
  /\ is_success (fst r) = false
  /\ ~ (is_success (fst r) = true
        <-> phase_name_is "AGUARDANDO_DEVOLUCAO" order_awaiting_return = true).
Proof.
  split; [reflexivity|]. split; [reflexivity|]. split; [reflexivity|].
  intros [_ H]. specialize (H eq_refl). vm_compute in H. discriminate.
Qed.

(** C3 (amended): in a registry with at most one [FINALIZADO] row, mark
    paid succeeds exactly when the order's phase is named
    [AGUARDANDO_DEVOLUCAO] and the caller passes the role guard
    (administrator, the order's employee or its attendant).  A call that is
    refused (order already [FINALIZADO], in another phase, without phase, or
    caller not allowed) leaves the order table as it was.  On success the
    order's row has the [FINALIZADO] phase, [data_devolvido] is the current
    time and [data_finalizado] is today's date, and any further mark paid
    on the order is refused and changes nothing. *)
Theorem mark_paid_guard (u : User) (oid : Z) (now : datetime) (today : date)
    (s : Store) (o : ServiceOrder) :
  get_order s oid = Some o ->
  (List.length (phases_named "FINALIZADO" (phases s)) <= 1)%nat ->
  let r := mark_paid u oid now today s in
  (is_success (fst r) = true
   <-> phase_name_is "AGUARDANDO_DEVOLUCAO" o = true /\ role_guard u o = true)
  /\ (is_success (fst r) = false -> orders (snd r) = orders s)
  /\ (is_success (fst r) = true ->
      exists fin o',
        name fin = "FINALIZADO"
        /\ get_order (snd r) oid = Some o'
        /\ service_order_phase o' = Some fin
        /\ data_devolvido o' = Some now
        /\ data_finalizado o' = Some today
        /\ forall u' now' today',
             let r' := mark_paid u' oid now' today' (snd r) in
             is_success (fst r') = false /\ snd r' = snd r).
Proof.
  intros Hget Hreg r.
  remember (mark_paid u oid now today s) as r0 eqn:Er. subst r.
  unfold mark_paid in Er. rewrite Hget in Er.
  unfold phase_name_is.
  destruct (service_order_phase o) as [ph|] eqn:Hph.
  2:{ subst r0. cbn [fst snd is_success].
      split; [split; [discriminate|intros [H _]; discriminate]|].
      split; [reflexivity|discriminate]. }
  destruct (String.eqb (name ph) "FINALIZADO") eqn:E1.
  { apply String.eqb_eq in E1. rewrite E1. subst r0. cbn [fst snd is_success].
    split; [split; [discriminate|intros [H _]; discriminate]|].
    split; [reflexivity|discriminate]. }
  destruct (String.eqb (name ph) "AGUARDANDO_DEVOLUCAO") eqn:E2;
    simpl negb in Er; cbv iota in Er.
  2:{ subst r0. cbn [fst snd is_success].
      split; [split; [discriminate|intros [H _]; discriminate]|].
      split; [reflexivity|discriminate]. }
  destruct (get_or_create_total "FINALIZADO" s Hreg) as [fin [s1 G]].
  rewrite G in Er.
  pose proof (get_or_create_orders _ _ _ _ G) as [Go _].
  pose proof (get_or_create_name _ _ _ _ G) as Gn.
  destruct (role_guard u o) eqn:R; simpl negb in Er; cbv iota in Er.
  2:{ subst r0. cbn [fst snd is_success].
      split; [split; [discriminate|intros [_ H]; discriminate]|].
      split; [intros _; exact Go|discriminate]. }
  set (o3 := set_data_finalizado (Some today)
               (set_data_devolvido (Some now)
                  (set_service_order_phase (Some fin) o))) in Er.
  subst r0. cbn [fst snd is_success].
  split; [split; [now split|reflexivity]|].
  split; [discriminate|]. intros _.
  pose proof (get_order_id _ _ _ Hget) as Hoid.
  assert (Hg : get_order (snd (save o3 s1)) oid = Some (recompute_remaining o3)).
  { replace oid with (order_id o3) by (simpl; congruence).
    apply get_order_save. }
  exists fin, (recompute_remaining o3).
  split; [exact Gn|]. split; [exact Hg|].
  split; [now recompute_cases o3|].
  split; [now recompute_cases o3|].
  split; [now recompute_cases o3|].
  intros u' now' today'. unfold mark_paid. rewrite Hg.
  assert (Hp : service_order_phase (recompute_remaining o3) = Some fin)
    by now recompute_cases o3.
  rewrite Hp, Gn. simpl. now split.
Qed.

(** C3 (amended) at scenario 6 of the specification: the employee marks the
    order paid, and no second call succeeds. *)
Lemma mark_paid_guard_witness :
  (get_order store_awaiting_return 1 = Some order_awaiting_return
   /\ (List.length (phases_named "FINALIZADO" (phases store_awaiting_return)) <= 1)%nat)
  /\ is_success (fst (mark_paid atendente 1 500 day store_awaiting_return))
     = true
  /\ forall u' now' today',
       is_success
         (fst (mark_paid u' 1 now' today'
                 (snd (mark_paid atendente 1 500 day store_awaiting_return))))
       = false.
Proof.
  assert (Hreg : (List.length (phases_named "FINALIZADO"
                            (phases store_awaiting_return)) <= 1)%nat)
    by (vm_compute; lia).
  split; [split; [reflexivity|exact Hreg]|].
  destruct (mark_paid_guard atendente 1 500 day store_awaiting_return
              order_awaiting_return eq_refl Hreg) as [[_ H1] [_ H3]].
  assert (Hs : is_success
                 (fst (mark_paid atendente 1 500 day store_awaiting_return))
               = true) by (apply H1; split; reflexivity).
  split; [exact Hs|].
  destruct (H3 Hs) as [fin [o' [_ [_ [_ [_ [_ H]]]]]]].
  intros u' now' today'. exact (proj1 (H u' now' today')).
Defined.

(** ** C4 — the auto-refuse sweep *)

Lemma first_in (rows : list ServiceOrderPhase) (p : ServiceOrderPhase) :
  first rows = Some p -> In p rows.
Proof.
  revert p. induction rows as [|q t IH]; simpl; intros p H; [discriminate|].
  destruct (first t) as [r|].
  - destruct (phase_id r <? phase_id q); inversion H; subst; auto.
  - inversion H. now left.
Qed.

Lemma first_named (n : string) (tbl : list ServiceOrderPhase)
    (p : ServiceOrderPhase) :
  first (phases_named n tbl) = Some p -> name p = n /\ In p tbl.
Proof.
  intros H. apply first_in in H. apply filter_In in H.
  destruct H as [Hin Hn]. apply String.eqb_eq in Hn. now split.
Qed.

Lemma event_date_lt_iff (today : date) (o : ServiceOrder) :
  event_date_lt today o = true <-> event_passed today o.
Proof.
  unfold event_date_lt, event_passed. split.
  - destruct (event o) as [e|]; [|discriminate].
    destruct (event_date e) as [d|] eqn:Ed; [|discriminate].
    intros H. apply Z.ltb_lt in H. now exists e, d.
  - intros [e [d [-> [Ed H]]]]. rewrite Ed. now apply Z.ltb_lt.
Qed.

Lemma is_some_none {A} (x : option A) : negb (is_some x) = true <-> x = None.
Proof. destruct x; simpl; split; intros H; auto; discriminate. Qed.

Lemma sweep_phases_not_recusada (n : string) :
  mem_str n sweep_phases = true -> String.eqb n "RECUSADA" = false.
Proof.
  intros H. apply mem_str_in in H. simpl in H.
  destruct H as [H|[H|[H|[H|[H|[]]]]]]; subst; reflexivity.
Qed.

Lemma overdue_iff (today : date) (o : ServiceOrder) :
  overdue today o = true <-> qualifies today o.
Proof.
  unfold overdue, qualifies, phase_name_in, phase_name_is.
  rewrite !andb_true_iff, event_date_lt_iff, is_some_none. split.
  - intros [[[[He Hr] Hp] _] _].
    destruct (service_order_phase o) as [ph|]; [|discriminate].
    apply mem_str_in in Hp. split; [now exists ph|now split].
  - intros [[ph [Hph Hin]] [He Hr]]. rewrite Hph.
    apply mem_str_in in Hin.
    rewrite (sweep_phases_not_recusada _ Hin).
    destruct He as [e [d [Hev Hd]]]. rewrite Hev.
    repeat split; auto. now exists e, d.
Qed.

Lemma Forall2_map_r {A B} (R : A -> B -> Prop) (f : A -> B) (l : list A) :
  (forall x, In x l -> R x (f x)) -> Forall2 R l (map f l).
Proof.
  induction l as [|x l IH]; intros H; simpl; constructor.
  - apply H. now left.
  - apply IH. intros y Hy. apply H. now right.
Qed.

Lemma Forall2_same {A} (R : A -> A -> Prop) (l : list A) :
  (forall x, In x l -> R x x) -> Forall2 R l l.
Proof.
  intros H. rewrite <- (map_id l) at 2. now apply Forall2_map_r.
Qed.

(** C4, as the specification words it, fails in a registry that has no
    [RECUSADA] row yet: the sweep returns at once, and the pending order
    whose event was yesterday stays pending. *)
Lemma sweep_idle_without_recusada_row :
  qualifies day order_event_yesterday
  /\ In order_event_yesterday (orders store_without_recusada)
  /\ move_to_refused_if_event_passed day store_without_recusada
     = store_without_recusada
  /\ phase_name_is "PENDENTE" order_event_yesterday = true.
Proof.
  split; [apply overdue_iff; reflexivity|].
  split; [now left|]. split; reflexivity.
Qed.

(** C4 (amended): the sweep writes order rows only, row for row.  It never
    changes a row whose phase is [RECUSADA] nor a row without event.  When
    the registry has a [RECUSADA] row, the rows it moves to that row are
    exactly those in phase [PENDENTE], [EM_PRODUCAO], [AGUARDANDO_DEVOLUCAO],
    [FINALIZADO] or [AGUARDANDO_RETIRADA] whose event date is before today
    and whose [data_retirado] is NULL, and each of them gets the fixed
    justification; every other row is unchanged.  When the registry has no
    [RECUSADA] row, the sweep changes nothing. *)
Theorem sweep_refuses_overdue (today : date) (s : Store) :
  let s' := move_to_refused_if_event_passed today s in
  phases s' = phases s
  /\ persons s' = persons s
  /\ items s' = items s
  /\ temporary_products s' = temporary_products s
  /\ Forall2 (swept_row today (first (phases_named "RECUSADA" (phases s))))
       (orders s) (orders s').
Proof.
  unfold move_to_refused_if_event_passed.
  destruct (first (phases_named "RECUSADA" (phases s))) as [rp|] eqn:F.
  - cbv zeta. simpl. repeat split.
    apply Forall2_map_r. intros o _.
    apply first_named in F. destruct F as [Fn _].
    unfold swept_row.
    destruct (overdue today o) eqn:E.
    + pose proof (proj1 (overdue_iff today o) E) as Q.
      split; [unfold refuse_overdue; now rewrite recompute_remaining_id|].
      split.
      { intros H. unfold overdue in E. rewrite H in E.
        rewrite !andb_false_r in E. discriminate. }
      split.
      { intros H. destruct Q as [_ [[e [d [He _]]] _]]. congruence. }
      split; [exact Fn|]. split; [|intros H; contradiction].
      intros _. unfold refuse_overdue.
      split; [now recompute_cases
                    (set_justification_refusal
                       (Some "Cliente não retirou o produto")
                       (set_service_order_phase (Some rp) o))|].
      now recompute_cases
            (set_justification_refusal (Some "Cliente não retirou o produto")
               (set_service_order_phase (Some rp) o)).
    + split; [reflexivity|]. split; [reflexivity|]. split; [reflexivity|].
      split; [exact Fn|]. split; [|reflexivity].
      intros Q. apply overdue_iff in Q. congruence.
  - cbv zeta. repeat split.
    apply Forall2_same. intros o _. unfold swept_row.
    split; [reflexivity|]. split; [reflexivity|]. split; reflexivity.
Qed.

(** C4 (amended) at scenario 4 of the specification. *)
Lemma sweep_refuses_overdue_witness :
  qualifies day order_event_yesterday
  /\ exists o',
       orders (move_to_refused_if_event_passed day store_event_yesterday) = [o']
       /\ service_order_phase o' = Some RECUSADA
       /\ justification_refusal o' = Some "Cliente não retirou o produto".
Proof.
  assert (Q : qualifies day order_event_yesterday)
    by (apply overdue_iff; reflexivity).
  split; [exact Q|].
  destruct (sweep_refuses_overdue day store_event_yesterday)
    as [_ [_ [_ [_ H]]]].
  remember (orders (move_to_refused_if_event_passed day store_event_yesterday))
    as l eqn:El.
  change (first (phases_named "RECUSADA" (phases store_event_yesterday)))
    with (Some RECUSADA) in H.
  change (orders store_event_yesterday) with [order_event_yesterday] in H.
  inversion H as [|o o' t t' Hrow Ht]; subst. inversion Ht; subst.
  destruct Hrow as [_ [_ [_ [_ [Hq _]]]]].
  exists o'. split; [reflexivity|]. exact (Hq Q).
Defined.

(** ** Update: what the view leaves of the order's stage *)

Lemma same_stage_refl (o : ServiceOrder) : same_stage o o.
Proof. repeat split. Qed.

Lemma same_stage_trans (o o1 o2 : ServiceOrder) :
  same_stage o o1 -> same_stage o1 o2 -> same_stage o o2.
Proof.
  unfold same_stage. intros [A [B C]] [A' [B' C']].
  repeat split; congruence.
Qed.

Lemma same_stage_recompute (o : ServiceOrder) :
  same_stage o (recompute_remaining o).
Proof.
  unfold same_stage.
  split; [now recompute_cases o|]. split; now recompute_cases o.
Qed.

Lemma apply_datas_stage (os : FrontendOrderService) (o : ServiceOrder) :
  same_stage o (apply_datas os o).
Proof.
  unfold apply_datas.
  destruct (data_retirada os), (data_devolucao os), (data_prova os);
    repeat split.
Qed.

Lemma apply_ocasiao_origem_stage (os : FrontendOrderService)
    (o : ServiceOrder) :
  same_stage o (apply_ocasiao_origem os o).
Proof.
  unfold apply_ocasiao_origem.
  destruct (truthy_str (ocasiao os)), (truthy_str (origem os)); repeat split.
Qed.

Lemma apply_modalidade_stage (m : string) (o : ServiceOrder) :
  same_stage o (apply_modalidade m o).
Proof.
  unfold apply_modalidade.
  destruct (String.eqb m "Compra"); [repeat split|].
  destruct (String.eqb m "Aluguel"); [repeat split|].
  destruct (String.eqb m "Aluguel + Venda"); [repeat split|].
  destruct (String.eqb m "Venda"); repeat split.
Qed.

Lemma apply_employee_stage (s : Store) (os : FrontendOrderService)
    (o o1 : ServiceOrder) :
  apply_employee s os o = inr o1 -> same_stage o o1.
Proof.
  unfold apply_employee.
  destruct (employee_id os) as [e|].
  - destruct (e =? 0); [intros H; inversion H; repeat split|].
    destruct (existsb _ _); intros H; inversion H; repeat split.
  - intros H; inversion H; repeat split.
Qed.

Lemma apply_pagamento_stage (pg : FrontendPayment) (o o1 : ServiceOrder) :
  apply_pagamento pg o = Some o1 -> same_stage o o1.
Proof.
  unfold apply_pagamento.
  destruct (sinal pg) as [sg|].
  - destruct (pagamentos sg) as [|pag pags].
    + destruct (truthy_str _); intros H; inversion H; repeat split.
    + destruct (sinal_loop _ _ _ _) as [[formas details]|]; [|discriminate].
      destruct formas, details, (truthy_str _);
        intros H; inversion H; repeat split.
  - destruct (truthy_str _); intros H; inversion H; repeat split.
Qed.

Lemma apply_ordem_servico_stage (s : Store) (os : FrontendOrderService)
    (o o1 : ServiceOrder) :
  apply_ordem_servico s os o = inr o1 -> same_stage o o1.
Proof.
  unfold apply_ordem_servico. cbv zeta.
  set (o3 := match modalidade os with
             | Some m => apply_modalidade m _
             | None => _ end).
  assert (S3 : same_stage o o3).
  { apply same_stage_trans with (apply_datas os o); [apply apply_datas_stage|].
    apply same_stage_trans with (apply_ocasiao_origem os (apply_datas os o));
      [apply apply_ocasiao_origem_stage|].
    subst o3. destruct (modalidade os);
      [apply apply_modalidade_stage|apply same_stage_refl]. }
  destruct (apply_employee s os o3) as [r|o4] eqn:E; [discriminate|].
  apply apply_employee_stage in E.
  destruct (pagamento os) as [pg|].
  - destruct (apply_pagamento pg o4) as [o5|] eqn:P; [|discriminate].
    apply apply_pagamento_stage in P.
    intros H; inversion H; subst.
    eapply same_stage_trans; [exact S3|].
    eapply same_stage_trans; [exact E|exact P].
  - intros H; inversion H; subst.
    eapply same_stage_trans; [exact S3|exact E].
Qed.

(** A successful update went through the replacement of the line items,
    on a store that differs from the first in its person table only. *)
Lemma put_success
    (link_cliente :
       list Person -> ServiceOrder -> FrontendClient -> list Person * option Z)
    (u : User) (oid : Z) (d : FrontendServiceOrderUpdate) (now : datetime)
    (today : date) (s s' : Store) (o : ServiceOrder) :
  get_order s oid = Some o ->
  put link_cliente u oid d now today s = (HTTP_200_OK, s') ->
  exists o2 ps,
    same_stage o o2
    /\ replace_items_and_save u d now today o2 (with_persons ps s)
       = (HTTP_200_OK, s').
Proof.
  intros Hget. unfold put. rewrite Hget.
  destruct (match ordem_servico d with
            | Some os => apply_ordem_servico s os o
            | None => inr o end) as [resp|o1] eqn:E1.
  { destruct (ordem_servico d) as [os|]; [|discriminate].
    unfold apply_ordem_servico in E1. cbv zeta in E1.
    destruct (apply_employee _ _ _) as [r|o4] eqn:Ee.
    - unfold apply_employee in Ee.
      destruct (employee_id os) as [e|]; [|discriminate].
      destruct (e =? 0); [discriminate|].
      destruct (existsb _ _); [discriminate|].
      inversion Ee; subst. inversion E1; subst. discriminate.
    - destruct (pagamento os) as [pg|]; [|discriminate].
      destruct (apply_pagamento pg o4); [discriminate|].
      inversion E1; subst. discriminate. }
  assert (S1 : same_stage o o1).
  { destruct (ordem_servico d) as [os|].
    - now apply apply_ordem_servico_stage in E1.
    - inversion E1. apply same_stage_refl. }
  destruct (cliente d) as [c|].
  - unfold apply_cliente.
    destruct (negb (cpf_valid c)); [discriminate|].
    destruct (link_cliente (persons s) o1 c) as [ps [pid|]]; [|discriminate].
    intros H. exists (set_renter (Some pid) o1), ps. split; [|exact H].
    eapply same_stage_trans; [exact S1|repeat split].
  - intros H. exists o1, (persons s). split; [exact S1|].
    replace (with_persons (persons s) s) with s by (now destruct s).
    exact H.
Qed.

Lemma stage_after_full_update_compat (today : date)
    (em : option ServiceOrderPhase) (o a o' b : ServiceOrder) :
  same_stage a o -> same_stage o' b ->
  stage_after_full_update today em o o' ->
  stage_after_full_update today em a b.
Proof.
  unfold same_stage, stage_after_full_update.
  intros [_ [P D]] [_ [P' D']]. rewrite P, D, P', D'. tauto.
Qed.

Lemma advance_to_production_spec (today : date) (o : ServiceOrder) (s : Store) :
  let r := advance_to_production today o s in
  phases (snd r) = phases s
  /\ items (snd r) = items s
  /\ temporary_products (snd r) = temporary_products s
  /\ order_id (fst r) = order_id o
  /\ stage_after_full_update today
       (first (phases_named "EM_PRODUCAO" (phases s))) o (fst r).
Proof.
  unfold advance_to_production, stage_after_full_update.
  destruct (first (phases_named "EM_PRODUCAO" (phases s))) as [em|] eqn:F;
    [|cbv zeta; simpl; repeat split].
  destruct (service_order_phase o) as [ph|] eqn:P;
    [|cbv zeta; simpl; repeat split; assumption].
  destruct (mem_str (name ph) production_phases); simpl negb; cbv iota zeta.
  - simpl. repeat split. exact P.
  - apply first_named in F. destruct F as [Fn _].
    set (o1 := set_production_date (Some today)
                 (set_service_order_phase (Some em) o)).
    cbn [fst snd save phases items temporary_products with_orders].
    split; [reflexivity|]. split; [reflexivity|]. split; [reflexivity|].
    split; [now rewrite recompute_remaining_id|].
    split; [exact Fn|]. split; now recompute_cases o1.
Qed.

Lemma replace_items_and_save_spec (u : User) (d : FrontendServiceOrderUpdate)
    (now : datetime) (today : date) (o : ServiceOrder) (s : Store) :
  let r := replace_items_and_save u d now today o s in
  fst r = HTTP_200_OK
  /\ items (snd r) = items (items_replaced (order_id o) d s)
  /\ temporary_products (snd r)
     = temporary_products (items_replaced (order_id o) d s)
  /\ exists o',
       get_order (snd r) (order_id o) = Some o'
       /\ if is_full_update d
          then stage_after_full_update today
                 (first (phases_named "EM_PRODUCAO" (phases s))) o o'
          else service_order_phase o' = service_order_phase o
               /\ production_date o' = production_date o.
Proof.
  intros r. remember (replace_items_and_save u d now today o s) as r0 eqn:Er.
  subst r. unfold replace_items_and_save in Er.
  fold (items_replaced (order_id o) d s) in Er.
  set (s3 := items_replaced (order_id o) d s) in *.
  assert (P3 : phases s3 = phases s).
  { unfold s3, items_replaced. cbv zeta.
    destruct (patch_acessorios d) as [la|], (patch_itens d) as [li|];
      rewrite ?(proj2 (fold_add_acessorio_frame _ _ _)),
              ?(proj2 (fold_add_item_frame _ _ _)); reflexivity. }
  set (o1 := recompute_remaining o).
  set (s4 := with_orders (write_order o1 (orders s3)) s3).
  change (save o s3) with (o1, s4) in Er. cbv beta iota in Er.
  pose proof (same_stage_recompute o) as S1. fold o1 in S1.
  destruct (is_full_update d) eqn:Full.
  - pose proof (advance_to_production_spec today o1 s4)
      as [A1 [A2 [A3 [A4 A5]]]].
    destruct (advance_to_production today o1 s4) as [o2 s5].
    cbn [fst snd] in *.
    set (o3 := set_updated_by (Some (user_id u))
                 (set_date_updated (Some now) o2)) in *.
    subst r0. cbn [fst snd].
    split; [reflexivity|].
    split; [cbn [save snd items with_orders]; exact A2|].
    split; [cbn [save snd temporary_products with_orders]; exact A3|].
    exists (recompute_remaining o3). split.
    + replace (order_id o) with (order_id o3).
      * apply get_order_save.
      * destruct S1 as [S1 _]. simpl. congruence.
    + replace (phases s) with (phases s4) by (rewrite <- P3; reflexivity).
      apply stage_after_full_update_compat with o1 o2.
      * destruct S1 as [Sa [Sb Sc]]. repeat split; congruence.
      * pose proof (same_stage_recompute o3) as [Sa [Sb Sc]].
        repeat split; [exact Sa|exact Sb|exact Sc].
      * exact A5.
  - set (o3 := set_updated_by (Some (user_id u))
                 (set_date_updated (Some now) o1)) in *.
    subst r0. cbn [fst snd].
    split; [reflexivity|].
    split; [reflexivity|]. split; [reflexivity|].
    exists (recompute_remaining o3). split.
    + replace (order_id o) with (order_id o3).
      * apply get_order_save.
      * destruct S1 as [S1 _]. simpl. congruence.
    + pose proof (same_stage_recompute o3) as [_ [Sb Sc]].
      destruct S1 as [_ [Sb1 Sc1]].
      split; [rewrite Sb|rewrite Sc]; simpl; assumption.
Qed.

(** ** C6 — the advance to production on a full update *)

(** C6, as the specification words it, fails on an order without phase: a
    full update of it succeeds, the registry has its [EM_PRODUCAO] row, and
    the order still has no phase and no production date. *)
Lemma full_update_leaves_phaseless_order :
  let r := put no_directory admin 4 full_update 500 day store_without_phase in
  get_order store_without_phase 4 = Some order_without_phase
  /\ service_order_phase order_without_phase = None
  /\ is_full_update full_update = true
  /\ first (phases_named "EM_PRODUCAO" (phases store_without_phase))
     = Some EM_PRODUCAO
  /\ fst r = HTTP_200_OK
  /\ option_map service_order_phase (get_order (snd r) 4) = Some None
  /\ option_map production_date (get_order (snd r) 4) = Some None.
Proof. vm_compute. repeat split. Qed.

(** C6 (amended): after a successful full update (the patch has the
    [itens] or the [acessorios] key), an order that had a phase outside
    [EM_PRODUCAO], [AGUARDANDO_RETIRADA], [AGUARDANDO_DEVOLUCAO],
    [FINALIZADO], [RECUSADA] is in the registry's [EM_PRODUCAO] row, with
    [production_date] today, provided the registry has such a row; an order
    already in one of the five phases keeps its phase and production date,
    and so does an order without phase, and every order when the registry
    has no [EM_PRODUCAO] row. *)
Theorem full_update_advances
    (link_cliente :
       list Person -> ServiceOrder -> FrontendClient -> list Person * option Z)
    (u : User) (oid : Z) (d : FrontendServiceOrderUpdate) (now : datetime)
    (today : date) (s s' : Store) (o : ServiceOrder) :
  get_order s oid = Some o ->
  is_full_update d = true ->
  put link_cliente u oid d now today s = (HTTP_200_OK, s') ->
  exists o',
    get_order s' oid = Some o'
    /\ stage_after_full_update today
         (first (phases_named "EM_PRODUCAO" (phases s))) o o'.
Proof.
  intros Hget Hfull Hput.
  destruct (put_success _ _ _ _ _ _ _ _ _ Hget Hput) as [o2 [ps [S2 Hr]]].
  pose proof (replace_items_and_save_spec u d now today o2 (with_persons ps s))
    as [_ [_ [_ [o' [Hg Hst]]]]].
  rewrite Hr in Hg. cbn [snd] in Hg. rewrite Hfull in Hst.
  pose proof (get_order_id _ _ _ Hget) as Hoid.
  destruct S2 as [Sa [Sb Sc]].
  exists o'. split; [now rewrite <- Hoid, <- Sa|].
  apply stage_after_full_update_compat with o2 o'.
  - repeat split; congruence.
  - apply same_stage_refl.
  - exact Hst.
Qed.

(** C6 (amended) on a pending order: one jacket and one tie take it to
    production. *)
Lemma full_update_advances_witness :
  (get_order store_pending 4 = Some order_pending
   /\ is_full_update full_update = true
   /\ fst (put no_directory admin 4 full_update 500 day store_pending)
      = HTTP_200_OK)
  /\ exists o',
       get_order (snd (put no_directory admin 4 full_update 500 day
                         store_pending)) 4 = Some o'
       /\ service_order_phase o' = Some EM_PRODUCAO
       /\ production_date o' = Some day.
Proof.
  split; [repeat split|].
  assert (Hrun : put no_directory admin 4 full_update 500 day store_pending
                 = (HTTP_200_OK,
                    snd (put no_directory admin 4 full_update 500 day
                           store_pending)))
    by (vm_compute; reflexivity).
  destruct (full_update_advances no_directory admin 4 full_update 500 day
              store_pending _ order_pending eq_refl eq_refl Hrun)
    as [o' [H1 H2]].
  exists o'. split; [exact H1|].
  vm_compute in H2. destruct H2 as [_ H2]. exact H2.
Defined.

(** ** C10 — the line items after an update *)

Lemma fresh_id_gt (l : list Z) (x : Z) : In x l -> x < fresh_id l.
Proof.
  unfold fresh_id. induction l as [|y l IH]; cbn [fold_right In]; [tauto|].
  intros [->|H]; [lia|]. specialize (IH H). lia.
Qed.

Lemma fresh_id_not_in (l : list Z) : ~ In (fresh_id l) l.
Proof. intros H. apply fresh_id_gt in H. lia. Qed.

Lemma find_app_some {A} (f : A -> bool) (l l' : list A) (x : A) :
  find f l = Some x -> find f (l ++ l') = Some x.
Proof.
  induction l as [|y l IH]; simpl; [discriminate|].
  destruct (f y); auto.
Qed.

Lemma find_app_fresh (tbl : list TemporaryProduct) (t : TemporaryProduct)
    (k : Z) :
  temporary_product_id t = k ->
  ~ In k (map temporary_product_id tbl) ->
  find (fun r => temporary_product_id r =? k) (tbl ++ [t]) = Some t.
Proof.
  intros Hk. induction tbl as [|r tbl IH]; simpl; intros H.
  - now rewrite Hk, Z.eqb_refl.
  - destruct (temporary_product_id r =? k) eqn:E.
    + apply Z.eqb_eq in E. exfalso. apply H. now left.
    + apply IH. intros Hin. apply H. now right.
Qed.

(** The state of the order's line items while the loops of the view run:
    [s0] is the store before the loops, [V] the views of the items made so
    far. *)
Lemma create_rows_items (oid : Z) (tp : Z -> TemporaryProduct) (needed : bool)
    (notes : option string) (s0 st : Store) (V : list ItemView) :
  (forall pk, temporary_product_id (tp pk) = pk) ->
  (forall pk, unkeyed (tp pk) = tp 0) ->
  map (item_view st) (order_items st oid) = V
  /\ Forall (fun i => linked_product st i <> None /\ links_new_product s0 i)
       (order_items st oid)
  /\ other_items st oid = other_items s0 oid
  /\ (exists extra,
        temporary_products st = temporary_products s0 ++ extra) ->
  let st' := create_rows oid tp needed notes st in
  map (item_view st') (order_items st' oid) = V ++ [(Some (tp 0), None, needed, notes)]
  /\ Forall (fun i => linked_product st' i <> None /\ links_new_product s0 i)
       (order_items st' oid)
  /\ other_items st' oid = other_items s0 oid
  /\ (exists extra,
        temporary_products st' = temporary_products s0 ++ extra).
Proof.
  intros Hpk Hun [HV [HF [HO [extra HT]]]] st'.
  set (pk := fresh_id (map temporary_product_id (temporary_products st))).
  set (row := {| item_id := fresh_id (map item_id (items st));
                 service_order := oid; temporary_product := Some pk;
                 product := None; adjustment_needed := needed;
                 adjustment_notes := notes |}).
  assert (Hitems : order_items st' oid = order_items st oid ++ [row]).
  { unfold order_items, st', create_rows. cbn [items with_items].
    rewrite filter_app. cbn [filter service_order]. fold pk. fold row.
    now rewrite Z.eqb_refl. }
  assert (Hfresh : ~ In pk (map temporary_product_id (temporary_products st)))
    by apply fresh_id_not_in.
  assert (Hrow : linked_product st' row = Some (tp pk)).
  { unfold linked_product, st', create_rows.
    cbn [temporary_product row temporary_products with_items
         with_temporary_products].
    fold pk. apply find_app_fresh; [apply Hpk|exact Hfresh]. }
  assert (Hold : forall i, linked_product st i <> None ->
                           linked_product st' i = linked_product st i).
  { intros i Hi. unfold linked_product in *.
    destruct (temporary_product i) as [k|]; [|reflexivity].
    unfold st', create_rows.
    cbn [temporary_products with_items with_temporary_products].
    destruct (find _ (temporary_products st)) as [t|] eqn:F; [|contradiction].
    now apply find_app_some. }
  split; [|split; [|split]].
  - rewrite Hitems, map_app. f_equal.
    + rewrite <- HV. apply map_ext_in. intros i Hi.
      rewrite Forall_forall in HF. destruct (HF i Hi) as [Hl _].
      unfold item_view. now rewrite (Hold i Hl).
    + cbn [map]. unfold item_view. rewrite Hrow. cbn [option_map].
      now rewrite Hun.
  - rewrite Hitems. apply Forall_app. split.
    + rewrite Forall_forall in *. intros i Hi. destruct (HF i Hi) as [Hl Hn].
      split; [rewrite (Hold i Hl); exact Hl|exact Hn].
    + constructor; [|constructor]. split; [rewrite Hrow; discriminate|].
      exists pk. split; [reflexivity|].
      intros Hin. apply Hfresh. rewrite HT, map_app. apply in_or_app. now left.
  - rewrite <- HO. unfold other_items, st', create_rows.
    cbn [items with_items]. rewrite filter_app. cbn [filter service_order].
    rewrite Z.eqb_refl. cbn [negb]. apply app_nil_r.
  - exists (extra ++ [tp pk]). unfold st', create_rows.
    cbn [temporary_products with_items with_temporary_products].
    fold pk. now rewrite HT, app_assoc.
Qed.

Lemma fold_add_item_items (oid : Z) (l : list FrontendOrderItem)
    (s0 st : Store) (V : list ItemView) :
  map (item_view st) (order_items st oid) = V
  /\ Forall (fun i => linked_product st i <> None /\ links_new_product s0 i)
       (order_items st oid)
  /\ other_items st oid = other_items s0 oid
  /\ (exists extra,
        temporary_products st = temporary_products s0 ++ extra) ->
  let st' := fold_left (add_item oid) l st in
  map (item_view st') (order_items st' oid) = V ++ map view_of_item l
  /\ Forall (fun i => linked_product st' i <> None /\ links_new_product s0 i)
       (order_items st' oid)
  /\ other_items st' oid = other_items s0 oid
  /\ (exists extra,
        temporary_products st' = temporary_products s0 ++ extra).
Proof.
  revert st V. induction l as [|x l IH]; intros st V H; cbn [fold_left map].
  - now rewrite app_nil_r.
  - cbv zeta.
    replace (V ++ view_of_item x :: map view_of_item l)
      with ((V ++ [view_of_item x]) ++ map view_of_item l)
      by (now rewrite <- app_assoc).
    apply IH. unfold add_item, view_of_item.
    apply (create_rows_items oid (fun pk => temp_product_of_item pk x));
      [reflexivity|reflexivity|exact H].
Qed.

Lemma fold_add_acessorio_items (oid : Z) (l : list FrontendAccessory)
    (s0 st : Store) (V : list ItemView) :
  map (item_view st) (order_items st oid) = V
  /\ Forall (fun i => linked_product st i <> None /\ links_new_product s0 i)
       (order_items st oid)
  /\ other_items st oid = other_items s0 oid
  /\ (exists extra,
        temporary_products st = temporary_products s0 ++ extra) ->
  let st' := fold_left (add_acessorio oid) l st in
  map (item_view st') (order_items st' oid) = V ++ map view_of_acessorio l
  /\ Forall (fun i => linked_product st' i <> None /\ links_new_product s0 i)
       (order_items st' oid)
  /\ other_items st' oid = other_items s0 oid
  /\ (exists extra,
        temporary_products st' = temporary_products s0 ++ extra).
Proof.
  revert st V. induction l as [|x l IH]; intros st V H; cbn [fold_left map].
  - now rewrite app_nil_r.
  - cbv zeta.
    replace (V ++ view_of_acessorio x :: map view_of_acessorio l)
      with ((V ++ [view_of_acessorio x]) ++ map view_of_acessorio l)
      by (now rewrite <- app_assoc).
    apply IH. unfold add_acessorio, view_of_acessorio.
    apply (create_rows_items oid (fun pk => temp_product_of_acessorio pk x));
      [reflexivity|reflexivity|exact H].
Qed.

Lemma delete_items_items (oid : Z) (s : Store) :
  let st := delete_items oid s in
  map (item_view st) (order_items st oid) = []
  /\ Forall (fun i => linked_product st i <> None /\ links_new_product s i)
       (order_items st oid)
  /\ other_items st oid = other_items s oid
  /\ (exists extra, temporary_products st = temporary_products s ++ extra).
Proof.
  cbv zeta. unfold order_items, other_items, delete_items.
  cbn [items with_items temporary_products].
  assert (E : filter (fun i => service_order i =? oid)
                (filter (fun i => negb (service_order i =? oid)) (items s))
              = []).
  { rewrite filter_filter. induction (items s) as [|i l IH]; simpl; auto.
    destruct (service_order i =? oid); simpl; auto. }
  rewrite E. split; [reflexivity|]. split; [constructor|]. split.
  - rewrite filter_filter. apply filter_ext. intros i.
    now destruct (service_order i =? oid).
  - exists []. now rewrite app_nil_r.
Qed.

Lemma items_replaced_items (oid : Z) (d : FrontendServiceOrderUpdate)
    (s : Store) :
  let st := items_replaced oid d s in
  map (item_view st) (order_items st oid) = patch_views d
  /\ Forall (fun i => linked_product st i <> None /\ links_new_product s i)
       (order_items st oid)
  /\ other_items st oid = other_items s oid
  /\ (exists extra, temporary_products st = temporary_products s ++ extra).
Proof.
  unfold items_replaced, patch_views. cbv zeta.
  pose proof (delete_items_items oid s) as H1. cbv zeta in H1.
  assert (H2 : let st := match patch_itens d with
                         | Some l => fold_left (add_item oid) l
                                       (delete_items oid s)
                         | None => delete_items oid s end in
               map (item_view st) (order_items st oid)
               = map view_of_item
                   (match patch_itens d with Some l => l | None => [] end)
               /\ Forall (fun i => linked_product st i <> None
                                   /\ links_new_product s i)
                    (order_items st oid)
               /\ other_items st oid = other_items s oid
               /\ (exists extra,
                     temporary_products st = temporary_products s ++ extra)).
  { destruct (patch_itens d) as [l|]; [|exact H1].
    exact (fold_add_item_items oid l s (delete_items oid s) [] H1). }
  cbv zeta in H2.
  destruct (patch_acessorios d) as [l|].
  - exact (fold_add_acessorio_items oid l s _ _ H2).
  - rewrite app_nil_r. exact H2.
Qed.

Lemma item_view_ext (a b : Store) (i : ServiceOrderItem) :
  temporary_products a = temporary_products b -> item_view a i = item_view b i.
Proof. unfold item_view, linked_product. now intros ->. Qed.

Lemma put_succeeds_iff
    (link_cliente :
       list Person -> ServiceOrder -> FrontendClient -> list Person * option Z)
    (u : User) (oid : Z) (d : FrontendServiceOrderUpdate) (now : datetime)
    (today : date) (s : Store) (o : ServiceOrder) :
  get_order s oid = Some o ->
  (fst (put link_cliente u oid d now today s) = HTTP_200_OK
   <-> passes_validation link_cliente d s o).
Proof.
  intros Hget. unfold put, passes_validation. rewrite Hget.
  destruct (match ordem_servico d with
            | Some os => apply_ordem_servico s os o
            | None => inr o end) as [resp|o1] eqn:E1.
  - split; [|intros [o1 [H _]]; discriminate].
    intros H. exfalso. cbn [fst] in H. subst resp.
    destruct (ordem_servico d) as [os|]; [|discriminate].
    unfold apply_ordem_servico in E1. cbv zeta in E1.
    destruct (apply_employee _ _ _) as [r|o4] eqn:Ee.
    + unfold apply_employee in Ee.
      destruct (employee_id os) as [e|]; [|discriminate].
      destruct (e =? 0); [discriminate|].
      destruct (existsb _ _); [discriminate|].
      inversion Ee; subst. discriminate.
    + destruct (pagamento os) as [pg|]; [|discriminate].
      destruct (apply_pagamento pg o4); discriminate.
  - destruct (cliente d) as [c|].
    + unfold apply_cliente.
      destruct (cpf_valid c); cbn [negb].
      * destruct (link_cliente (persons s) o1 c) as [ps [pid|]] eqn:L.
        -- split.
           ++ intros _. exists o1. split; [reflexivity|].
              split; [reflexivity|]. rewrite L. discriminate.
           ++ intros _.
              apply (proj1 (replace_items_and_save_spec u d now today _ _)).
        -- split; [discriminate|].
           intros [o1' [H1 [_ H2]]]. inversion H1; subst.
           rewrite L in H2. now contradiction H2.
      * split; [discriminate|].
        intros [o1' [_ [H _]]]. discriminate.
    + split.
      * intros _. exists o1. now split.
      * intros _.
        apply (proj1 (replace_items_and_save_spec u d now today _ _)).
Qed.



(** ** The listings *)

Lemma sweep_keeps_phases (today : date) (s : Store) :
  phases (move_to_refused_if_event_passed today s) = phases s.
Proof.
  unfold move_to_refused_if_event_passed.
  now destruct (first (phases_named "RECUSADA" (phases s))).
Qed.

Lemma overdue_refuse_overdue (today : date) (rp : ServiceOrderPhase)
    (o : ServiceOrder) :
  name rp = "RECUSADA" -> overdue today (refuse_overdue rp o) = false.
Proof.
  intros Hn. unfold refuse_overdue.
  set (o1 := set_justification_refusal _ _).
  assert (E : overdue today (recompute_remaining o1) = overdue today o1)
    by now recompute_cases o1.
  rewrite E. unfold overdue, o1, phase_name_is. cbn [service_order_phase
    set_justification_refusal set_service_order_phase].
  rewrite Hn. rewrite String.eqb_refl. cbn [negb].
  now rewrite andb_false_r.
Qed.

Lemma sweep_fixpoint (today : date) (s : Store) :
  (forall o, In o (orders s) -> overdue today o = false) ->
  move_to_refused_if_event_passed today s = s.
Proof.
  intros H. unfold move_to_refused_if_event_passed.
  destruct (first (phases_named "RECUSADA" (phases s))) as [s0|];
    [|reflexivity].
  replace (map (fun o => if overdue today o then refuse_overdue s0 o else o)
             (orders s)) with (orders s); [apply with_orders_same|].
  rewrite <- (map_id (orders s)) at 1. apply map_ext_in.
  intros o Ho. now rewrite (H o Ho).
Qed.

Lemma update_flag_overdue (today : date) (o : ServiceOrder) :
  overdue today (update_flag today o) = overdue today o.
Proof.
  unfold update_flag. destruct (Bool.eqb _ _); [reflexivity|].
  now recompute_cases (set_esta_atrasada (retirada_atrasada today o) o).
Qed.

Lemma update_flag_in_phase (today : date) (phase : ServiceOrderPhase)
    (o : ServiceOrder) :
  in_phase_q phase (update_flag today o) = in_phase_q phase o.
Proof.
  unfold update_flag. destruct (Bool.eqb _ _); [reflexivity|].
  now recompute_cases (set_esta_atrasada (retirada_atrasada today o) o).
Qed.

Lemma update_flag_late (today : date) (o : ServiceOrder) :
  retirada_atrasada today (update_flag today o) = retirada_atrasada today o.
Proof.
  unfold update_flag. destruct (Bool.eqb _ _); [reflexivity|].
  now recompute_cases (set_esta_atrasada (retirada_atrasada today o) o).
Qed.

Lemma update_flag_flag (today : date) (o : ServiceOrder) :
  esta_atrasada (update_flag today o) = retirada_atrasada today o.
Proof.
  unfold update_flag.
  destruct (Bool.eqb (esta_atrasada o) (retirada_atrasada today o)) eqn:E.
  - now apply eqb_prop in E.
  - now recompute_cases (set_esta_atrasada (retirada_atrasada today o) o).
Qed.

Lemma update_flag_idem (today : date) (o : ServiceOrder) :
  update_flag today (update_flag today o) = update_flag today o.
Proof.
  unfold update_flag at 1.
  rewrite update_flag_flag, update_flag_late.
  now rewrite eqb_reflx.
Qed.

Lemma retirada_atrasada_iff (today : date) (o : ServiceOrder) :
  retirada_atrasada today o = true <-> late_for_retrieval today o.
Proof.
  unfold retirada_atrasada, late_for_retrieval.
  rewrite orb_true_iff, andb_true_iff, event_date_lt_iff, is_some_none.
  split; intros [H|H]; auto.
  - left. destruct (retirada_date o) as [d|]; [|discriminate].
    apply Z.ltb_lt in H. now exists d.
  - left. destruct H as [d [-> H]]. now apply Z.ltb_lt.
Qed.

(** After the sweep no row is overdue, when there is a [RECUSADA] row. *)
Lemma sweep_leaves_none_overdue (today : date) (s : Store)
    (rp : ServiceOrderPhase) (o : ServiceOrder) :
  first (phases_named "RECUSADA" (phases s)) = Some rp ->
  In o (orders (move_to_refused_if_event_passed today s)) ->
  overdue today o = false.
Proof.
  intros F. unfold move_to_refused_if_event_passed. rewrite F.
  cbn [orders with_orders]. intros H. apply in_map_iff in H.
  destruct H as [o0 [E _]]. subst o.
  destruct (overdue today o0) eqn:Ov; [|exact Ov].
  apply overdue_refuse_overdue. now apply first_named in F.
Qed.

(** ** C8 — the lateness flag of the [AGUARDANDO_RETIRADA] listing *)

Lemma flag_loop_idem (today : date) (phase : ServiceOrderPhase)
    (l : list ServiceOrder) :
  let f := fun o => if in_phase_q phase o then update_flag today o else o in
  map f (map f l) = map f l.
Proof.
  cbv zeta. rewrite map_map. apply map_ext. intros o.
  destruct (in_phase_q phase o) eqn:E.
  - now rewrite update_flag_in_phase, E, update_flag_idem.
  - now rewrite E.
Qed.

(** C8, as the specification words it, fails on two kinds of order of the
    phase.  An order whose event has passed: the listing first runs the
    sweep, which, the registry having its [RECUSADA] row, moves the order
    out of [AGUARDANDO_RETIRADA]; the write-back never sees it, and its flag
    stays false although its event has passed and it was never retrieved.
    And a virtual order: the listing leaves it out, and its flag stays false
    although its retrieval date has passed. *)
Lemma list_aguardando_retirada_skips_orders :
  (let r := list_by_phase "AGUARDANDO_RETIRADA" day store_ready_event_passed in
   get_order store_ready_event_passed 3 = Some order_ready_event_passed
   /\ is_virtual order_ready_event_passed = false
   /\ phase_name_is "AGUARDANDO_RETIRADA" order_ready_event_passed = true
   /\ late_for_retrieval day order_ready_event_passed
   /\ fst r = LIST_200_OK []
   /\ option_map esta_atrasada (get_order (snd r) 3) = Some false
   /\ option_map (phase_name_is "RECUSADA") (get_order (snd r) 3) = Some true)
  /\ (let r := list_by_phase "AGUARDANDO_RETIRADA" day store_virtual_ready in
      get_order store_virtual_ready 7 = Some order_virtual_ready
      /\ phase_name_is "AGUARDANDO_RETIRADA" order_virtual_ready = true
      /\ late_for_retrieval day order_virtual_ready
      /\ fst r = LIST_200_OK []
      /\ snd r = store_virtual_ready
      /\ esta_atrasada order_virtual_ready = false).
Proof.
  split.
  - split; [reflexivity|]. split; [reflexivity|]. split; [reflexivity|].
    split; [|vm_compute; repeat split].
    right. split; [|reflexivity].
    exists {| event_id := 1; event_date := Some 99 |}, 99.
    split; [reflexivity|]. split; [reflexivity|]. unfold day. lia.
  - split; [reflexivity|]. split; [reflexivity|].
    split; [|vm_compute; repeat split].
    left. exists 95. split; [reflexivity|]. unfold day. lia.
Qed.

(** C8 (amended): the listing of the registry row named
    [AGUARDANDO_RETIRADA] first runs the auto-refuse sweep and then answers
    with the non-virtual orders that are in that row; for each of them the
    [esta_atrasada] flag it leaves in the store is true exactly when
    [retirada_date] is before today, or the event's date is before today
    and [data_retirado] is NULL.  Asked again on the store it leaves, the
    same listing on the same day gives the same answer and leaves that
    store as it is: the write-back is idempotent. *)
Theorem list_aguardando_retirada_flags (phase_name : string) (today : date)
    (s : Store) (phase : ServiceOrderPhase) :
  resolves_to phase_name s phase ->
  name phase = "AGUARDANDO_RETIRADA" ->
  let r := list_by_phase phase_name today s in
  fst r = respond (listed_in phase (snd r))
  /\ (forall o', In o' (listed_in phase (snd r)) ->
        (esta_atrasada o' = true <-> late_for_retrieval today o'))
  /\ list_by_phase phase_name today (snd r) = r.
Proof.
  intros Hres Hname r. unfold resolves_to in Hres.
  set (f := fun o => if in_phase_q phase o then update_flag today o else o).
  set (s1 := move_to_refused_if_event_passed today s).
  set (s2 := with_orders (map f (orders s1)) s1).
  assert (P1 : phases s1 = phases s) by apply sweep_keeps_phases.
  assert (Er : r = (respond (listed_in phase s2), s2)).
  { subst r. unfold list_by_phase. fold s1. rewrite P1, Hres, Hname.
    reflexivity. }
  assert (Hsweep : move_to_refused_if_event_passed today s2 = s2).
  { destruct (first (phases_named "RECUSADA" (phases s))) as [rp|] eqn:F.
    - apply sweep_fixpoint. intros o Ho. cbn [s2 orders with_orders] in Ho.
      apply in_map_iff in Ho. destruct Ho as [o0 [E Ho0]]. subst o.
      assert (Ov : overdue today o0 = false)
        by (now apply (sweep_leaves_none_overdue today s rp)).
      unfold f. destruct (in_phase_q phase o0); [|exact Ov].
      now rewrite update_flag_overdue.
    - unfold move_to_refused_if_event_passed.
      replace (phases s2) with (phases s) by (rewrite <- P1; reflexivity).
      now rewrite F. }
  rewrite Er. cbn [fst snd]. split; [reflexivity|]. split.
  - intros o' Ho'. unfold listed_in in Ho'. apply filter_In in Ho'.
    destruct Ho' as [Hin Hq]. cbn [s2 orders with_orders] in Hin.
    apply in_map_iff in Hin. destruct Hin as [o [E _]]. subst o'.
    rewrite <- retirada_atrasada_iff. unfold f in *.
    destruct (in_phase_q phase o) eqn:Eo.
    + rewrite update_flag_flag, update_flag_late. tauto.
    + rewrite Eo in Hq. discriminate.
  - unfold list_by_phase. rewrite Hsweep.
    replace (phases s2) with (phases s) by (rewrite <- P1; reflexivity).
    rewrite Hres, Hname. cbn [String.eqb Ascii.eqb Bool.eqb].
    fold f.
    assert (E2 : with_orders (map f (orders s2)) s2 = s2).
    { unfold s2 at 1 2. cbn [orders with_orders].
      unfold f. rewrite flag_loop_idem. reflexivity. }
    rewrite E2. reflexivity.
Qed.

(** C8 (amended) on an order whose retrieval date passed five days ago. *)
Lemma list_aguardando_retirada_flags_witness :
  (resolves_to "AGUARDANDO_RETIRADA" store_ready AGUARDANDO_RETIRADA
   /\ name AGUARDANDO_RETIRADA = "AGUARDANDO_RETIRADA")
  /\ let r := list_by_phase "AGUARDANDO_RETIRADA" day store_ready in
     (exists o', fst r = LIST_200_OK [o'] /\ esta_atrasada o' = true)
     /\ list_by_phase "AGUARDANDO_RETIRADA" day (snd r) = r.
Proof.
  split; [split; reflexivity|].
  destruct (list_aguardando_retirada_flags "AGUARDANDO_RETIRADA" day
              store_ready AGUARDANDO_RETIRADA eq_refl eq_refl)
    as [H1 [H2 H3]].
  cbv zeta. split; [|exact H3].
  eexists. split; [vm_compute; reflexivity|].
  apply H2; [vm_compute; now left|].
  left. exists 95. split; [reflexivity|]. unfold day. lia.
Defined.

(** ** C7 — the [ATRASADO] view *)

Lemma event_date_gt_iff (today : date) (o : ServiceOrder) :
  event_date_gt today o = true <-> event_ahead today o.
Proof.
  unfold event_date_gt, event_ahead. split.
  - destruct (event o) as [e|]; [|discriminate].
    destruct (event_date e) as [d|] eqn:Ed; [|discriminate].
    intros H. apply Z.ltb_lt in H. now exists e, d.
  - intros [e [d [-> [Ed H]]]]. rewrite Ed. now apply Z.ltb_lt.
Qed.

Lemma atrasado_q_iff (today : date) (ad : option ServiceOrderPhase)
    (o : ServiceOrder) :
  atrasado_q today ad o = true
  <-> is_virtual o = false /\ phase_is ad o = true /\ late_for_return today o.
Proof.
  unfold atrasado_q, late_for_return.
  rewrite andb_true_iff, orb_true_iff, !andb_true_iff, negb_true_iff,
    event_date_gt_iff, event_date_lt_iff, is_some_none.
  split.
  - intros [Hv [[[[Hp Hd] He] _]|[[[Hp Hd] He] _]]].
    + split; [exact Hv|]. split; [exact Hp|]. left. split; [|exact He].
      destruct (devolucao_date o) as [d|]; [|discriminate].
      apply Z.ltb_lt in Hd. now exists d.
    + split; [exact Hv|]. split; [exact Hp|]. right. now split.
  - intros [Hv [Hp [[[d [Hd Hlt]] He]|[Hd He]]]]; (split; [exact Hv|]).
    + left. rewrite Hd.
      split; [split; [split; [exact Hp|now apply Z.ltb_lt]|exact He]|].
      destruct He as [e [_ [-> _]]]. reflexivity.
    + right. split; [split; [split; [exact Hp|exact Hd]|exact He]|].
      destruct He as [e [_ [-> _]]]. reflexivity.
Qed.

(** C7, as the specification words it, fails in two ways.  By the design
    of the listing, which runs the sweep first: an order that waits to be
    returned, was never retrieved nor returned and whose event has passed
    satisfies branch (b), yet the listing does not answer with it and
    writes a phase change for it, to [RECUSADA].  And by a missing check:
    when the registry has no [AGUARDANDO_DEVOLUCAO] row, the look-up of the
    row gives [None], the filter on it selects the orders without phase,
    and the view answers with an order that is in no phase at all. *)
Lemma list_atrasado_misses_orders :
  (let r := list_by_phase "ATRASADO" day store_never_retrieved in
   get_order store_never_retrieved 3 = Some order_never_retrieved
   /\ is_virtual order_never_retrieved = false
   /\ phase_name_is "AGUARDANDO_DEVOLUCAO" order_never_retrieved = true
   /\ late_for_return day order_never_retrieved
   /\ fst r = LIST_200_OK []
   /\ option_map (phase_name_is "RECUSADA") (get_order (snd r) 3) = Some true)
  /\ (let r := list_by_phase "ATRASADO" day store_before_first_retrieval in
      first (phases_named "AGUARDANDO_DEVOLUCAO"
               (phases store_before_first_retrieval)) = None
      /\ service_order_phase order_phaseless_late = None
      /\ phase_name_is "AGUARDANDO_DEVOLUCAO" order_phaseless_late = false
      /\ fst r = LIST_200_OK [order_phaseless_late]
      /\ snd r = store_before_first_retrieval).
Proof.
  split.
  - split; [reflexivity|]. split; [reflexivity|]. split; [reflexivity|].
    split; [|vm_compute; repeat split].
    right. split; [reflexivity|].
    exists {| event_id := 1; event_date := Some 99 |}, 99.
    split; [reflexivity|]. split; [reflexivity|]. unfold day. lia.
  - vm_compute. repeat split.
Qed.

(** C7 (amended): in a keyed registry that has its [AGUARDANDO_DEVOLUCAO]
    row, a listing of the virtual [ATRASADO] phase first runs the auto-refuse
    sweep and then is a query: it leaves the store as the sweep left it, and
    it answers with exactly the non-virtual orders that are then in the
    [AGUARDANDO_DEVOLUCAO] row, have a linked event, and either (a) have
    [devolucao_date] before today and the event's date after today, or (b)
    have [data_devolvido] NULL and the event's date before today.  Every
    order it answers with is a row the call did not touch: no phase change
    is written back for it. *)
Theorem list_atrasado_query (phase_name : string) (today : date) (s : Store)
    (phase ad : ServiceOrderPhase) :
  resolves_to phase_name s phase ->
  name phase = "ATRASADO" ->
  first (phases_named "AGUARDANDO_DEVOLUCAO" (phases s)) = Some ad ->
  keyed (phases s) ->
  let r := list_by_phase phase_name today s in
  snd r = move_to_refused_if_event_passed today s
  /\ exists listed,
       fst r = respond listed
       /\ (forall o', In o' listed
                      <-> In o' (orders (snd r))
                          /\ is_virtual o' = false
                          /\ phase_is (Some ad) o' = true
                          /\ late_for_return today o')
       /\ (forall o', In o' listed -> In o' (orders s)).
Proof.
  intros Hres Hname Had Hkey r. unfold resolves_to in Hres.
  set (s1 := move_to_refused_if_event_passed today s).
  assert (P1 : phases s1 = phases s) by apply sweep_keeps_phases.
  assert (Er : r = (respond (filter (atrasado_q today (Some ad)) (orders s1)),
                    s1)).
  { subst r. unfold list_by_phase. fold s1. rewrite P1, Hres, Hname, Had.
    reflexivity. }
  rewrite Er. cbn [fst snd]. split; [reflexivity|].
  exists (filter (atrasado_q today (Some ad)) (orders s1)).
  split; [reflexivity|]. split.
  - intros o'. rewrite filter_In, atrasado_q_iff. tauto.
  - intros o' Ho'. apply filter_In in Ho'. destruct Ho' as [Hin Hq].
    apply atrasado_q_iff in Hq. destruct Hq as [_ [Hp _]].
    unfold s1, move_to_refused_if_event_passed in Hin.
    destruct (first (phases_named "RECUSADA" (phases s))) as [rp|] eqn:F;
      [|exact Hin].
    cbn [orders with_orders] in Hin. apply in_map_iff in Hin.
    destruct Hin as [o [E Ho]].
    destruct (overdue today o); [|now subst].
    exfalso. subst o'. unfold phase_is, refuse_overdue in Hp.
    set (o1 := set_justification_refusal _ _) in Hp.
    assert (E : service_order_phase (recompute_remaining o1) = Some rp)
      by now recompute_cases o1.
    rewrite E in Hp. apply Z.eqb_eq in Hp.
    apply first_named in F. destruct F as [Fn Fin].
    apply first_named in Had. destruct Had as [An Ain].
    assert (rp = ad) by (now apply Hkey). subst rp.
    rewrite An in Fn. discriminate.
Qed.

(** C7 (amended) on a retrieved order due back yesterday, its event
    tomorrow. *)
Lemma list_atrasado_query_witness :
  (resolves_to "ATRASADO" store_late_return ATRASADO
   /\ name ATRASADO = "ATRASADO"
   /\ first (phases_named "AGUARDANDO_DEVOLUCAO" (phases store_late_return))
      = Some AGUARDANDO_DEVOLUCAO
   /\ keyed (phases store_late_return))
  /\ fst (list_by_phase "ATRASADO" day store_late_return)
     = LIST_200_OK [order_late_return]
  /\ snd (list_by_phase "ATRASADO" day store_late_return) = store_late_return.
Proof.
  assert (K : keyed (phases store_late_return)).
  { intros p q Hp Hq. simpl in Hp, Hq.
    repeat (destruct Hp as [<-|Hp]; [
      repeat (destruct Hq as [<-|Hq]; [
        first [reflexivity | intros H; vm_compute in H; discriminate] |]);
      destruct Hq |]).
    destruct Hp. }
  split; [split; [reflexivity|]; split; [reflexivity|];
          split; [reflexivity|exact K]|].
  destruct (list_atrasado_query "ATRASADO" day store_late_return ATRASADO
              AGUARDANDO_DEVOLUCAO eq_refl eq_refl eq_refl K) as [H1 _].
  split; [vm_compute; reflexivity|].
  rewrite H1. vm_compute. reflexivity.
Defined.

(** * Properties of the other views *)

(** ** Rows before and after a write *)

Lemma find_write_order_other (o : ServiceOrder) (tbl : list ServiceOrder)
    (oid : Z) :
  order_id o <> oid ->
  find (fun r => order_id r =? oid) (write_order o tbl)
  = find (fun r => order_id r =? oid) tbl.
Proof.
  intros Hne. unfold write_order.
  destruct (existsb (fun r => order_id r =? order_id o) tbl).
  - induction tbl as [|r t IH]; [reflexivity|]. cbn [map find].
    destruct (order_id r =? order_id o) eqn:E.
    + apply Z.eqb_eq in E.
      assert (E1 : (order_id o =? oid) = false) by now apply Z.eqb_neq.
      assert (E2 : (order_id r =? oid) = false)
        by (apply Z.eqb_neq; congruence).
      now rewrite E1, E2.
    + destruct (order_id r =? oid); [reflexivity|exact IH].
  - induction tbl as [|r t IH]; cbn [app find].
    + assert (E1 : (order_id o =? oid) = false) by now apply Z.eqb_neq.
      now rewrite E1.
    + destruct (order_id r =? oid); [reflexivity|exact IH].
Qed.

Lemma get_order_save_other (o : ServiceOrder) (s : Store) (oid : Z) :
  order_id o <> oid ->
  get_order (snd (save o s)) oid = get_order s oid.
Proof.
  intros Hne. unfold save, get_order. cbn [snd orders with_orders].
  apply find_write_order_other. now rewrite recompute_remaining_id.
Qed.

Lemma get_order_map (f : ServiceOrder -> ServiceOrder) (s : Store) (oid : Z) :
  (forall o, order_id (f o) = order_id o) ->
  get_order (with_orders (map f (orders s)) s) oid
  = option_map f (get_order s oid).
Proof.
  intros Hf. unfold get_order. cbn [orders with_orders].
  induction (orders s) as [|r t IH]; [reflexivity|]. cbn [map find].
  rewrite Hf. destruct (order_id r =? oid); [reflexivity|exact IH].
Qed.

(** A transition that saves the instance [o1] of the order [oid] on a store
    with the same order table: the row of [oid] is [o1] as [save] leaves
    it, and every other row is as before. *)
Lemma save_one (s s1 : Store) (oid : Z) (o1 : ServiceOrder) :
  orders s1 = orders s ->
  order_id o1 = oid ->
  get_order (snd (save o1 s1)) oid = Some (recompute_remaining o1)
  /\ forall oid', oid' <> oid ->
       get_order (snd (save o1 s1)) oid' = get_order s oid'.
Proof.
  intros Ho Hid. split.
  - rewrite <- Hid. apply get_order_save.
  - intros oid' Hne. rewrite get_order_save_other by congruence.
    now apply get_order_orders.
Qed.

Lemma phase_name_is_eq (n : string) (o : ServiceOrder) (ph : ServiceOrderPhase) :
  service_order_phase o = Some ph ->
  phase_name_is n o = String.eqb (name ph) n.
Proof. unfold phase_name_is. now intros ->. Qed.

(** ** Mark ready *)

(** X1.
    In a registry with at most one [AGUARDANDO_RETIRADA] row, mark ready
    succeeds exactly when the order's phase is named [EM_PRODUCAO] and the
    caller passes the role guard.  A call that is refused leaves the order
    table as it was.  On success the order's row is the old row with the
    [AGUARDANDO_RETIRADA] phase, written through [save]; no other column is
    assigned and no other order is touched. *)
Theorem mark_ready_guard (u : User) (oid : Z) (s : Store) (o : ServiceOrder) :
  get_order s oid = Some o ->
  at_most_one "AGUARDANDO_RETIRADA" s ->
  let r := mark_ready u oid s in
  (is_success (fst r) = true
   <-> phase_name_is "EM_PRODUCAO" o = true /\ role_guard u o = true)
  /\ (is_success (fst r) = false -> orders (snd r) = orders s)
  /\ (is_success (fst r) = true ->
      exists ar,
        name ar = "AGUARDANDO_RETIRADA"
        /\ get_order (snd r) oid
           = Some (recompute_remaining (set_service_order_phase (Some ar) o))
        /\ forall oid', oid' <> oid ->
             get_order (snd r) oid' = get_order s oid').
Proof.
  intros Hget Hreg r.
  remember (mark_ready u oid s) as r0 eqn:Er. subst r.
  unfold mark_ready in Er. rewrite Hget in Er.
  unfold phase_name_is.
  destruct (service_order_phase o) as [ph|] eqn:Hph.
  2:{ subst r0. cbn [fst snd is_success].
      split; [split; [discriminate|intros [H _]; discriminate]|].
      split; [reflexivity|discriminate]. }
  destruct (String.eqb (name ph) "EM_PRODUCAO") eqn:E1;
    simpl negb in Er; cbv iota in Er.
  2:{ subst r0. cbn [fst snd is_success].
      split; [split; [discriminate|intros [H _]; discriminate]|].
      split; [reflexivity|discriminate]. }
  destruct (get_or_create_total "AGUARDANDO_RETIRADA" s Hreg) as [ar [s1 G]].
  rewrite G in Er.
  pose proof (get_or_create_orders _ _ _ _ G) as [Go _].
  pose proof (get_or_create_name _ _ _ _ G) as Gn.
  destruct (role_guard u o) eqn:R; simpl negb in Er; cbv iota in Er.
  2:{ subst r0. cbn [fst snd is_success].
      split; [split; [discriminate|intros [_ H]; discriminate]|].
      split; [intros _; exact Go|discriminate]. }
  subst r0. cbn [fst snd is_success].
  split; [split; [now split|reflexivity]|].
  split; [discriminate|]. intros _.
  exists ar. split; [exact Gn|].
  apply save_one; [exact Go|].
  cbn [order_id set_service_order_phase]. now apply get_order_id in Hget.
Qed.

(** X1 at a sample.
    The employee of the order in production marks it ready; another
    attendant may not. *)
Lemma mark_ready_guard_witness :
  (get_order store_in_production 1
   = Some (recompute_remaining order_in_production)
   /\ at_most_one "AGUARDANDO_RETIRADA" store_in_production)
  /\ is_success (fst (mark_ready atendente 1 store_in_production)) = true
  /\ is_success (fst (mark_ready outsider 1 store_in_production)) = false
  /\ option_map (phase_name_is "AGUARDANDO_RETIRADA")
       (get_order (snd (mark_ready atendente 1 store_in_production)) 1)
     = Some true.
Proof.
  assert (Hreg : at_most_one "AGUARDANDO_RETIRADA" store_in_production)
    by (unfold at_most_one; vm_compute; lia).
  split; [split; [reflexivity|exact Hreg]|].
  destruct (mark_ready_guard atendente 1 store_in_production
              (recompute_remaining order_in_production) eq_refl Hreg)
    as [[_ H1] [_ H3]].
  assert (Hs : is_success (fst (mark_ready atendente 1 store_in_production))
               = true) by (apply H1; split; reflexivity).
  split; [exact Hs|]. split; [reflexivity|].
  destruct (H3 Hs) as [ar [Hn [Hg _]]]. rewrite Hg. cbn [option_map].
  f_equal. unfold phase_name_is.
  replace (service_order_phase
             (recompute_remaining
                (set_service_order_phase (Some ar)
                   (recompute_remaining order_in_production))))
    with (Some ar) by (symmetry; vm_compute; reflexivity).
  rewrite Hn. reflexivity.
Defined.

(** ** Return to pending *)

(** X2.
    In a registry with at most one [PENDENTE] row, return to pending
    succeeds exactly when the order has a phase, named neither [PENDENTE]
    nor [FINALIZADO], and the caller passes the role guard; a refused order
    is among those it takes back.  A call that is refused leaves the order
    table as it was.  On success the order's row is the old row with the
    [PENDENTE] phase, written through [save]: retrieval stamp, production
    date and refusal justification stay as they were, no other order is
    touched, and a second call on the order is refused and changes
    nothing. *)
Theorem return_to_pending_guard (u : User) (oid : Z) (s : Store)
    (o : ServiceOrder) :
  get_order s oid = Some o ->
  at_most_one "PENDENTE" s ->
  let r := return_to_pending u oid s in
  (is_success (fst r) = true
   <-> (exists ph, service_order_phase o = Some ph
                   /\ name ph <> "PENDENTE" /\ name ph <> "FINALIZADO")
       /\ role_guard u o = true)
  /\ (is_success (fst r) = false -> orders (snd r) = orders s)
  /\ (is_success (fst r) = true ->
      exists pend,
        name pend = "PENDENTE"
        /\ get_order (snd r) oid
           = Some (recompute_remaining (set_service_order_phase (Some pend) o))
        /\ (forall oid', oid' <> oid ->
              get_order (snd r) oid' = get_order s oid')
        /\ forall u',
             let r' := return_to_pending u' oid (snd r) in
             is_success (fst r') = false /\ snd r' = snd r).
Proof.
  intros Hget Hreg r.
  remember (return_to_pending u oid s) as r0 eqn:Er. subst r.
  unfold return_to_pending in Er. rewrite Hget in Er.
  destruct (service_order_phase o) as [ph|] eqn:Hph.
  2:{ subst r0. cbn [fst snd is_success].
      split; [split; [discriminate|intros [[ph [H _]] _]; discriminate]|].
      split; [reflexivity|discriminate]. }
  destruct (String.eqb (name ph) "PENDENTE") eqn:E1.
  { apply String.eqb_eq in E1. subst r0. cbn [fst snd is_success].
    split; [split; [discriminate|]|split; [reflexivity|discriminate]].
    intros [[ph' [H [N _]]] _]. inversion H; subst. contradiction. }
  destruct (mem_str (name ph) ["FINALIZADO"]) eqn:E2.
  { unfold mem_str in E2. cbn [existsb] in E2. rewrite orb_false_r in E2.
    apply String.eqb_eq in E2. subst r0. cbn [fst snd is_success].
    split; [split; [discriminate|]|split; [reflexivity|discriminate]].
    intros [[ph' [H [_ N]]] _]. inversion H; subst. contradiction. }
  assert (N1 : name ph <> "PENDENTE") by now apply String.eqb_neq.
  assert (N2 : name ph <> "FINALIZADO").
  { unfold mem_str in E2. cbn [existsb] in E2. rewrite orb_false_r in E2.
    now apply String.eqb_neq. }
  destruct (get_or_create_total "PENDENTE" s Hreg) as [pend [s1 G]].
  rewrite G in Er.
  pose proof (get_or_create_orders _ _ _ _ G) as [Go _].
  pose proof (get_or_create_name _ _ _ _ G) as Gn.
  destruct (role_guard u o) eqn:R; simpl negb in Er; cbv iota in Er.
  2:{ subst r0. cbn [fst snd is_success].
      split; [split; [discriminate|intros [_ H]; discriminate]|].
      split; [intros _; exact Go|discriminate]. }
  subst r0. cbn [fst snd is_success].
  split; [split; [intros _|reflexivity]|].
  { split; [|reflexivity]. exists ph. now repeat split. }
  split; [discriminate|]. intros _.
  set (o1 := set_service_order_phase (Some pend) o).
  assert (Hid : order_id o1 = oid)
    by (cbn [o1 order_id set_service_order_phase]; now apply get_order_id in Hget).
  destruct (save_one s s1 oid o1 Go Hid) as [Hg Hother].
  exists pend. split; [exact Gn|]. split; [exact Hg|]. split; [exact Hother|].
  intros u'. unfold return_to_pending. rewrite Hg.
  assert (Hp : service_order_phase (recompute_remaining o1) = Some pend)
    by now recompute_cases o1.
  rewrite Hp, Gn. simpl. now split.
Qed.

(** X2 at a sample.
    An administrator takes the refused order back to pending: it is
    pending again and still carries the justification of its refusal. *)
Lemma return_to_pending_guard_witness :
  (get_order store_refused 3 = Some order_refused
   /\ at_most_one "PENDENTE" store_refused)
  /\ phase_name_is "RECUSADA" order_refused = true
  /\ is_success (fst (return_to_pending admin 3 store_refused)) = true
  /\ exists o',
       get_order (snd (return_to_pending admin 3 store_refused)) 3 = Some o'
       /\ phase_name_is "PENDENTE" o' = true
       /\ justification_refusal o' = Some "Cliente não retirou o produto".
Proof.
  assert (Hreg : at_most_one "PENDENTE" store_refused)
    by (unfold at_most_one; vm_compute; lia).
  split; [split; [reflexivity|exact Hreg]|]. split; [reflexivity|].
  destruct (return_to_pending_guard admin 3 store_refused order_refused
              eq_refl Hreg) as [[_ H1] [_ H3]].
  assert (Hs : is_success (fst (return_to_pending admin 3 store_refused))
               = true).
  { apply H1. split; [|reflexivity]. exists RECUSADA.
    split; [reflexivity|]. split; discriminate. }
  split; [exact Hs|].
  destruct (H3 Hs) as [pend [Hn [Hg _]]].
  eexists. split; [exact Hg|].
  set (o1 := set_service_order_phase (Some pend) order_refused).
  assert (E1 : service_order_phase (recompute_remaining o1) = Some pend)
    by now recompute_cases o1.
  assert (E2 : justification_refusal (recompute_remaining o1)
               = justification_refusal order_refused)
    by now recompute_cases o1.
  split; [unfold phase_name_is; rewrite E1, Hn; reflexivity|].
  rewrite E2. reflexivity.
Defined.

(** ** Refuse *)

Lemma refusable_iff (o : ServiceOrder) :
  refusable o = true
  <-> service_order_phase o = None
      \/ phase_name_in allowed_phases o = true.
Proof.
  unfold refusable, phase_name_in.
  destruct (service_order_phase o); split; auto.
  - intros [H|H]; [discriminate|exact H].
Qed.

Lemma get_or_create_has_row (n : string) (s s1 : Store) (p : ServiceOrderPhase) :
  get_or_create n s = Some (p, s1) ->
  first (phases_named n (phases s1)) = Some p.
Proof.
  unfold get_or_create.
  destruct (phases_named n (phases s)) as [|q [|q' t]] eqn:F; intros H;
    try discriminate; injection H as Hp Hs; subst p s1.
  - cbn [phases with_phases]. unfold phases_named in *.
    rewrite filter_app, F. cbn [filter name app first].
    now rewrite String.eqb_refl.
  - rewrite F. reflexivity.
Qed.

(** What the view does once the order is found and the reason is named. *)
Lemma refuse_cases (reasons : list RefusalReason) (u : User) (oid : Z)
    (d : RefuseData) (now : datetime) (today : date) (s : Store)
    (o : ServiceOrder) (reason : RefusalReason) (rp : ServiceOrderPhase)
    (s1 : Store) :
  get_order s oid = Some o ->
  reason_of reasons d = Some reason ->
  get_or_create "RECUSADA" s = Some (rp, s1) ->
  let r := refuse reasons u oid d now today s in
  if (refusable o && refuse_guard u o)%bool
  then r = (HTTP_200_OK,
            snd (save (set_justification_refusal
                         (justification_of (justification_refusal_raw d))
                         (set_service_order_phase (Some rp) o)) s1),
            Some {| justification_reason := reason_id reason;
                    data_recusa := today; date_canceled := now;
                    canceled_by := user_id u |})
  else is_success (fst (fst r)) = false /\ snd (fst r) = s1 /\ snd r = None.
Proof.
  intros Hget Hreason G r. subst r. unfold refuse. rewrite Hget.
  unfold reason_of in Hreason.
  destruct (justification_reason_id d) as [rid|]; [|discriminate].
  destruct (rid =? 0); [discriminate|]. rewrite Hreason, G.
  unfold refusable.
  destruct (service_order_phase o) as [ph|].
  - destruct (mem_str (name ph) allowed_phases); simpl negb; cbv iota.
    + cbn [andb]. destruct (refuse_guard u o); simpl negb; cbv iota.
      * reflexivity.
      * now repeat split.
    + cbn [andb]. now repeat split.
  - cbn [andb]. destruct (refuse_guard u o); simpl negb; cbv iota.
    + reflexivity.
    + now repeat split.
Qed.

(** X3.
    In a registry with at most one [RECUSADA] row, a refusal succeeds
    exactly when the request names a reason of the table by a non-zero id,
    the order is in [PENDENTE], [EM_PRODUCAO] or [AGUARDANDO_RETIRADA] or in
    no phase at all, and the caller is an administrator, the order's
    employee, or anyone when the order has no employee; being the order's
    attendant does not count.  A refusal that is turned down leaves the
    order table as it was and writes no refusal column.  On success the
    order's row is the old row with the [RECUSADA] phase and the stripped
    justification text (NULL when the text is missing or empty), written
    through [save]; the four refusal columns get the reason, today's date,
    the current time and the caller; no other order is touched. *)
Theorem refuse_guarded (reasons : list RefusalReason) (u : User) (oid : Z)
    (d : RefuseData) (now : datetime) (today : date) (s : Store)
    (o : ServiceOrder) :
  get_order s oid = Some o ->
  at_most_one "RECUSADA" s ->
  let r := refuse reasons u oid d now today s in
  (is_success (fst (fst r)) = true
   <-> reason_of reasons d <> None
       /\ refusable o = true /\ refuse_guard u o = true)
  /\ (is_success (fst (fst r)) = false ->
      orders (snd (fst r)) = orders s /\ snd r = None)
  /\ (is_success (fst (fst r)) = true ->
      exists rp reason,
        name rp = "RECUSADA"
        /\ reason_of reasons d = Some reason
        /\ get_order (snd (fst r)) oid
           = Some (recompute_remaining
                     (set_justification_refusal
                        (justification_of (justification_refusal_raw d))
                        (set_service_order_phase (Some rp) o)))
        /\ snd r = Some {| justification_reason := reason_id reason;
                           data_recusa := today; date_canceled := now;
                           canceled_by := user_id u |}
        /\ forall oid', oid' <> oid ->
             get_order (snd (fst r)) oid' = get_order s oid').
Proof.
  intros Hget Hreg r.
  destruct (reason_of reasons d) as [reason|] eqn:Hreason.
  2:{ assert (Er : is_success (fst (fst r)) = false /\ snd (fst r) = s
                   /\ snd r = None).
      { subst r. unfold refuse. rewrite Hget. unfold reason_of in Hreason.
        destruct (justification_reason_id d) as [rid|]; [|now repeat split].
        destruct (rid =? 0); [now repeat split|]. rewrite Hreason.
        now repeat split. }
      destruct Er as [E1 [E2 E3]]. rewrite E1, E2, E3.
      split; [split; [discriminate|intros [H _]; now contradiction H]|].
      split; [now split|discriminate]. }
  destruct (get_or_create_total "RECUSADA" s Hreg) as [rp [s1 G]].
  pose proof (get_or_create_orders _ _ _ _ G) as [Go _].
  pose proof (get_or_create_name _ _ _ _ G) as Gn.
  pose proof (refuse_cases reasons u oid d now today s o reason rp s1
                Hget Hreason G) as C.
  cbv zeta in C. fold r in C.
  destruct (refusable o) eqn:Rf; cbn [andb] in C;
    [destruct (refuse_guard u o) eqn:Rg|].
  - rewrite C. cbn [fst snd is_success].
    split; [split; [intros _|reflexivity]|].
    { split; [discriminate|now split]. }
    split; [discriminate|]. intros _.
    set (o2 := set_justification_refusal _ _).
    assert (Hid : order_id o2 = oid)
      by (cbn [o2 order_id set_justification_refusal set_service_order_phase];
          now apply get_order_id in Hget).
    destruct (save_one s s1 oid o2 Go Hid) as [Hg Hother].
    exists rp, reason. now repeat split.
  - destruct C as [C1 [C2 C3]]. rewrite C1, C2, C3.
    split; [split; [discriminate|intros [_ [_ H]]; discriminate]|].
    split; [now split|discriminate].
  - destruct C as [C1 [C2 C3]]. rewrite C1, C2, C3.
    split; [split; [discriminate|intros [_ [H _]]; discriminate]|].
    split; [now split|discriminate].
Qed.

(** X3 at a sample.
    The pending order has no employee: an attendant who has nothing to do
    with it refuses it, and the text is stored stripped.  The order in
    production has one: the same attendant is turned down. *)
Lemma refuse_guarded_witness :
  (get_order store_event_yesterday 3 = Some order_event_yesterday
   /\ at_most_one "RECUSADA" store_event_yesterday)
  /\ (let r :=
        refuse [desistiu] outsider 3 refuse_for_price 500 day
          store_event_yesterday in
      is_success (fst (fst r)) = true
      /\ option_map justification_refusal (get_order (snd (fst r)) 3)
         = Some (Some "achou caro")
      /\ snd r = Some {| justification_reason := 1; data_recusa := day;
                         date_canceled := 500; canceled_by := 3 |})
  /\ is_success
       (fst (fst (refuse [desistiu] outsider 1 refuse_for_price 500 day
                    store_in_production)))
     = false.
Proof.
  assert (Hreg : at_most_one "RECUSADA" store_event_yesterday)
    by (unfold at_most_one; vm_compute; lia).
  split; [split; [reflexivity|exact Hreg]|].
  destruct (refuse_guarded [desistiu] outsider 3 refuse_for_price 500 day
              store_event_yesterday order_event_yesterday eq_refl Hreg)
    as [[_ H1] _].
  cbv zeta. split; [|reflexivity].
  split; [apply H1; split; [discriminate|split; reflexivity]|].
  split; vm_compute; reflexivity.
Defined.

(** ** Rows after the sweep and after a listing *)

Lemma swept_id (today : date) (s : Store) (o : ServiceOrder) :
  order_id (swept today s o) = order_id o.
Proof.
  unfold swept. destruct (first _) as [rp|]; [|reflexivity].
  destruct (overdue today o); [|reflexivity].
  unfold refuse_overdue. now rewrite recompute_remaining_id.
Qed.

Lemma sweep_get (today : date) (s : Store) (oid : Z) :
  get_order (move_to_refused_if_event_passed today s) oid
  = option_map (swept today s) (get_order s oid).
Proof.
  unfold move_to_refused_if_event_passed.
  destruct (first (phases_named "RECUSADA" (phases s))) as [rp|] eqn:F.
  - rewrite get_order_map.
    + destruct (get_order s oid); [|reflexivity]. cbn [option_map].
      unfold swept. now rewrite F.
    + intros o. destruct (overdue today o); [|reflexivity].
      unfold refuse_overdue. now rewrite recompute_remaining_id.
  - destruct (get_order s oid); [|reflexivity]. cbn [option_map].
    unfold swept. now rewrite F.
Qed.

Lemma update_flag_id (today : date) (o : ServiceOrder) :
  order_id (update_flag today o) = order_id o.
Proof.
  unfold update_flag. destruct (Bool.eqb _ _); [reflexivity|].
  now rewrite recompute_remaining_id.
Qed.

Lemma list_by_phase_get (phase_name : string) (today : date) (s : Store)
    (oid : Z) (o : ServiceOrder) :
  get_order s oid = Some o ->
  exists o',
    get_order (snd (list_by_phase phase_name today s)) oid = Some o'
    /\ (o' = swept today s o \/ o' = update_flag today (swept today s o)).
Proof.
  intros Hget. unfold list_by_phase.
  set (s1 := move_to_refused_if_event_passed today s).
  assert (H1 : get_order s1 oid = Some (swept today s o))
    by (unfold s1; now rewrite sweep_get, Hget).
  destruct (first _) as [phase|]; [|exists (swept today s o); auto].
  destruct (String.eqb (name phase) "ATRASADO");
    [exists (swept today s o); auto|].
  destruct (String.eqb (name phase) "AGUARDANDO_RETIRADA");
    [|exists (swept today s o); auto].
  cbn [snd]. rewrite get_order_map, H1.
  - cbn [option_map]. destruct (in_phase_q phase (swept today s o)); eauto.
  - intros r. destruct (in_phase_q phase r); [apply update_flag_id|reflexivity].
Qed.

Lemma update_flag_columns (today : date) (o : ServiceOrder) :
  service_order_phase (update_flag today o) = service_order_phase o
  /\ justification_refusal (update_flag today o) = justification_refusal o
  /\ event (update_flag today o) = event o
  /\ data_retirado (update_flag today o) = data_retirado o
  /\ data_finalizado (update_flag today o) = data_finalizado o
  /\ data_devolvido (update_flag today o) = data_devolvido o.
Proof.
  unfold update_flag. destruct (Bool.eqb _ _); [now repeat split|].
  set (o1 := set_esta_atrasada _ o).
  repeat split; now recompute_cases o1.
Qed.

Lemma refuse_overdue_columns (rp : ServiceOrderPhase) (o : ServiceOrder) :
  service_order_phase (refuse_overdue rp o) = Some rp
  /\ justification_refusal (refuse_overdue rp o)
     = Some "Cliente não retirou o produto"
  /\ event (refuse_overdue rp o) = event o.
Proof.
  unfold refuse_overdue. set (o1 := set_justification_refusal _ _).
  repeat split; now recompute_cases o1.
Qed.

(** A listing refuses every qualifying order when the registry has its
    [RECUSADA] row. *)
Lemma list_by_phase_refuses (phase_name : string) (today : date) (s : Store)
    (rp : ServiceOrderPhase) (oid : Z) (o : ServiceOrder) :
  first (phases_named "RECUSADA" (phases s)) = Some rp ->
  get_order s oid = Some o ->
  qualifies today o ->
  exists o',
    get_order (snd (list_by_phase phase_name today s)) oid = Some o'
    /\ service_order_phase o' = Some rp
    /\ justification_refusal o' = Some "Cliente não retirou o produto"
    /\ event o' = event o.
Proof.
  intros F Hget Hq. apply overdue_iff in Hq.
  destruct (list_by_phase_get phase_name today s oid o Hget) as [o' [Hg Ho']].
  exists o'. split; [exact Hg|].
  assert (Hs : swept today s o = refuse_overdue rp o)
    by (unfold swept; now rewrite F, Hq).
  destruct (refuse_overdue_columns rp o) as [A [B C]].
  destruct Ho' as [->| ->]; rewrite Hs.
  - now repeat split.
  - destruct (update_flag_columns today (refuse_overdue rp o))
      as [A' [B' [C' _]]].
    rewrite A', B', C'. now repeat split.
Qed.

(** X4.
    A refusal request that names a reason of the table leaves a [RECUSADA]
    row in the registry whatever it answers (200, the 400 of the phase
    check or the 403 of the role guard): the row is looked up or created
    before the two checks.  From then on the sweep is armed: every phase
    listing moves each order that qualifies (in one of the five phases of
    the sweep, event passed, never retrieved) to that row, with the fixed
    justification. *)
Theorem refuse_arms_sweep (reasons : list RefusalReason) (u : User) (oid : Z)
    (d : RefuseData) (now : datetime) (today : date) (s : Store)
    (o : ServiceOrder) :
  get_order s oid = Some o ->
  reason_of reasons d <> None ->
  at_most_one "RECUSADA" s ->
  let s' := snd (fst (refuse reasons u oid d now today s)) in
  exists rp,
    first (phases_named "RECUSADA" (phases s')) = Some rp
    /\ forall phase_name today' oid2 o2,
         get_order s' oid2 = Some o2 ->
         qualifies today' o2 ->
         exists o2',
           get_order (snd (list_by_phase phase_name today' s')) oid2 = Some o2'
           /\ service_order_phase o2' = Some rp
           /\ justification_refusal o2' = Some "Cliente não retirou o produto".
Proof.
  intros Hget Hreason Hreg s'.
  destruct (reason_of reasons d) as [reason|] eqn:Er; [|contradiction].
  destruct (get_or_create_total "RECUSADA" s Hreg) as [rp [s1 G]].
  pose proof (get_or_create_has_row _ _ _ _ G) as F1.
  pose proof (refuse_cases reasons u oid d now today s o reason rp s1
                Hget Er G) as C.
  cbv zeta in C.
  assert (F : first (phases_named "RECUSADA" (phases s')) = Some rp).
  { unfold s'. destruct (refusable o && refuse_guard u o)%bool.
    - rewrite C. exact F1.
    - destruct C as [_ [-> _]]. exact F1. }
  exists rp. split; [exact F|].
  intros phase_name today' oid2 o2 Hg2 Hq.
  destruct (list_by_phase_refuses phase_name today' s' rp oid2 o2 F Hg2 Hq)
    as [o2' [A [B [C' _]]]].
  exists o2'. now repeat split.
Qed.

(** X4 at a sample.
    The registry has no [RECUSADA] row and the sweep is idle.  An attendant
    tries to refuse the order in production of a colleague and is turned
    down with 403; the row has been created all the same, and the next
    listing of the pending orders refuses the order whose event was
    yesterday. *)
Lemma refuse_arms_sweep_witness :
  (get_order store_two_orders 1 = Some (recompute_remaining order_in_production)
   /\ reason_of [desistiu] refuse_for_price <> None
   /\ at_most_one "RECUSADA" store_two_orders)
  /\ first (phases_named "RECUSADA" (phases store_two_orders)) = None
  /\ snd (list_by_phase "PENDENTE" day store_two_orders) = store_two_orders
  /\ (let r := refuse [desistiu] outsider 1 refuse_for_price 500 day
                 store_two_orders in
      (exists msg, fst (fst r) = HTTP_403_FORBIDDEN msg)
      /\ exists o2',
           get_order (snd (list_by_phase "PENDENTE" day (snd (fst r)))) 3
           = Some o2'
           /\ phase_name_is "RECUSADA" o2' = true).
Proof.
  assert (Hreason : reason_of [desistiu] refuse_for_price <> None)
    by (vm_compute; discriminate).
  assert (Hreg : at_most_one "RECUSADA" store_two_orders)
    by (unfold at_most_one; vm_compute; lia).
  split; [split; [reflexivity|split; [exact Hreason|exact Hreg]]|].
  split; [reflexivity|]. split; [vm_compute; reflexivity|].
  cbv zeta. split; [eexists; vm_compute; reflexivity|].
  destruct (refuse_arms_sweep [desistiu] outsider 1 refuse_for_price 500 day
              store_two_orders (recompute_remaining order_in_production)
              eq_refl Hreason Hreg) as [rp [F H]].
  assert (Hg : get_order
                 (snd (fst (refuse [desistiu] outsider 1 refuse_for_price 500
                              day store_two_orders))) 3
               = Some order_event_yesterday) by (vm_compute; reflexivity).
  assert (Hq : qualifies day order_event_yesterday).
  { apply overdue_iff. vm_compute. reflexivity. }
  destruct (H "PENDENTE" day 3 order_event_yesterday Hg Hq)
    as [o2' [A [B _]]].
  exists o2'. split; [exact A|].
  unfold phase_name_is. rewrite B.
  apply first_named in F. destruct F as [-> _]. reflexivity.
Defined.

(** ** Linking an order to an event *)



(** ** From production to finalised *)

Lemma get_or_create_other (n n' : string) (s s1 : Store)
    (p : ServiceOrderPhase) :
  get_or_create n s = Some (p, s1) ->
  n' <> n ->
  phases_named n' (phases s1) = phases_named n' (phases s).
Proof.
  unfold get_or_create. intros H Hne.
  destruct (phases_named n (phases s)) as [|q [|q' t]];
    try discriminate; injection H as Hp Hs; subst p s1; [|reflexivity].
  cbn [phases with_phases]. unfold phases_named.
  rewrite filter_app. cbn [filter name].
  assert (E : String.eqb n n' = false) by (apply String.eqb_neq; congruence).
  rewrite E. apply app_nil_r.
Qed.

Lemma role_guard_recompute (u : User) (o : ServiceOrder) :
  role_guard u (recompute_remaining o) = role_guard u o.
Proof. now recompute_cases o. Qed.

Lemma mark_ready_success (u : User) (oid : Z) (s : Store) (o : ServiceOrder) :
  get_order s oid = Some o ->
  phase_name_is "EM_PRODUCAO" o = true ->
  role_guard u o = true ->
  at_most_one "AGUARDANDO_RETIRADA" s ->
  exists ar s1,
    get_or_create "AGUARDANDO_RETIRADA" s = Some (ar, s1)
    /\ mark_ready u oid s
       = (HTTP_200_OK, snd (save (set_service_order_phase (Some ar) o) s1)).
Proof.
  intros Hget Hph Hrole Hreg.
  destruct (get_or_create_total _ s Hreg) as [ar [s1 G]].
  exists ar, s1. split; [exact G|].
  unfold mark_ready. rewrite Hget. unfold phase_name_is in Hph.
  destruct (service_order_phase o) as [ph|]; [|discriminate].
  now rewrite Hph, G, Hrole.
Qed.

Lemma mark_retrieved_success (u : User) (oid : Z) (d : MarkRetrievedData)
    (now : datetime) (s : Store) (o : ServiceOrder) :
  get_order s oid = Some o ->
  phase_name_in ["EM_PRODUCAO"; "AGUARDANDO_RETIRADA"] o = true ->
  role_guard u o = true ->
  at_most_one "AGUARDANDO_DEVOLUCAO" s ->
  receive_remaining_payment d = false ->
  exists ad s1,
    get_or_create "AGUARDANDO_DEVOLUCAO" s = Some (ad, s1)
    /\ mark_retrieved u oid d now s
       = (HTTP_200_OK,
          snd (save (set_data_retirado (Some now)
                       (set_service_order_phase (Some ad) o)) s1)).
Proof.
  intros Hget Hph Hrole Hreg Hrc.
  destruct (get_or_create_total _ s Hreg) as [ad [s1 G]].
  exists ad, s1. split; [exact G|].
  unfold mark_retrieved. rewrite Hget. unfold phase_name_in in Hph.
  destruct (service_order_phase o) as [ph|]; [|discriminate].
  destruct (retrievable_names _ Hph) as [-> ->].
  now rewrite Hph, G, Hrole, Hrc.
Qed.

Lemma mark_paid_success (u : User) (oid : Z) (now : datetime) (today : date)
    (s : Store) (o : ServiceOrder) :
  get_order s oid = Some o ->
  phase_name_is "AGUARDANDO_DEVOLUCAO" o = true ->
  role_guard u o = true ->
  at_most_one "FINALIZADO" s ->
  exists fin s1,
    get_or_create "FINALIZADO" s = Some (fin, s1)
    /\ mark_paid u oid now today s
       = (HTTP_200_OK,
          snd (save (set_data_finalizado (Some today)
                       (set_data_devolvido (Some now)
                          (set_service_order_phase (Some fin) o))) s1)).
Proof.
  intros Hget Hph Hrole Hreg.
  destruct (get_or_create_total _ s Hreg) as [fin [s1 G]].
  exists fin, s1. split; [exact G|].
  unfold mark_paid. rewrite Hget. unfold phase_name_is in Hph.
  destruct (service_order_phase o) as [ph|]; [|discriminate].
  apply String.eqb_eq in Hph. rewrite Hph. cbn [String.eqb Ascii.eqb Bool.eqb negb].
  now rewrite G, Hrole.
Qed.

Ltac by_columns o :=
  let t := fresh "t" in
  let a := fresh "a" in
  let Et := fresh "Et" in
  let Ea := fresh "Ea" in
  destruct (total_value o) as [t|] eqn:Et;
  destruct (advance_payment o) as [a|] eqn:Ea;
  unfold recompute_remaining;
  repeat (cbn; rewrite ?Et, ?Ea);
  reflexivity.

Lemma three_saves (o : ServiceOrder) (ar ad fin : ServiceOrderPhase)
    (now1 now2 : datetime) (today : date) :
  recompute_remaining
    (set_data_finalizado (Some today)
       (set_data_devolvido (Some now2)
          (set_service_order_phase (Some fin)
             (recompute_remaining
                (set_data_retirado (Some now1)
                   (set_service_order_phase (Some ad)
                      (recompute_remaining
                         (set_service_order_phase (Some ar) o))))))))
  = recompute_remaining
      (set_data_finalizado (Some today)
         (set_data_devolvido (Some now2)
            (set_data_retirado (Some now1)
               (set_service_order_phase (Some fin) o)))).
Proof. by_columns o. Qed.

(** X6.
    The straight path of the life cycle.  An order in [EM_PRODUCAO], a
    caller who passes its role guard, a registry without duplicate rows for
    the three phases ahead, no payment taken at retrieval: mark ready, mark
    retrieved and mark paid succeed one after the other, and the row they
    leave is the first row with the [FINALIZADO] phase and the three stamps
    (retrieved, returned, finalised), as [save] leaves it; nothing else of
    the order has changed.  Mark paid is refused before the retrieval. *)
Theorem ready_retrieved_paid (u : User) (oid : Z) (d : MarkRetrievedData)
    (now1 now2 : datetime) (today : date) (s : Store) (o : ServiceOrder) :
  get_order s oid = Some o ->
  phase_name_is "EM_PRODUCAO" o = true ->
  role_guard u o = true ->
  at_most_one "AGUARDANDO_RETIRADA" s ->
  at_most_one "AGUARDANDO_DEVOLUCAO" s ->
  at_most_one "FINALIZADO" s ->
  receive_remaining_payment d = false ->
  let r1 := mark_ready u oid s in
  let r2 := mark_retrieved u oid d now1 (snd r1) in
  let r3 := mark_paid u oid now2 today (snd r2) in
  fst r1 = HTTP_200_OK /\ fst r2 = HTTP_200_OK /\ fst r3 = HTTP_200_OK
  /\ (forall u' now' today',
        is_success (fst (mark_paid u' oid now' today' s)) = false
        /\ is_success (fst (mark_paid u' oid now' today' (snd r1))) = false)
  /\ exists fin,
       name fin = "FINALIZADO"
       /\ get_order (snd r3) oid
          = Some (recompute_remaining
                    (set_data_finalizado (Some today)
                       (set_data_devolvido (Some now2)
                          (set_data_retirado (Some now1)
                             (set_service_order_phase (Some fin) o))))).
Proof.
  intros Hget Hph Hrole R1 R2 R3 Hrc r1 r2 r3.
  pose proof (get_order_id _ _ _ Hget) as Hoid.
  (* mark ready *)
  destruct (mark_ready_success u oid s o Hget Hph Hrole R1)
    as [ar [s1 [G1 E1]]].
  pose proof (get_or_create_orders _ _ _ _ G1) as [Go1 _].
  pose proof (get_or_create_name _ _ _ _ G1) as Gn1.
  set (oa := set_service_order_phase (Some ar) o) in *.
  assert (Hg1 : get_order (snd r1) oid = Some (recompute_remaining oa)).
  { unfold r1. rewrite E1. cbn [snd].
    exact (proj1 (save_one s s1 oid oa Go1 Hoid)). }
  assert (P1 : forall n, n <> "AGUARDANDO_RETIRADA" ->
                         phases_named n (phases (snd r1))
                         = phases_named n (phases s)).
  { intros n Hn. unfold r1. rewrite E1. cbn [snd save phases with_orders].
    now apply (get_or_create_other _ _ _ _ _ G1). }
  (* mark retrieved *)
  assert (Hpa : phase_name_in ["EM_PRODUCAO"; "AGUARDANDO_RETIRADA"]
                  (recompute_remaining oa) = true).
  { assert (E : service_order_phase (recompute_remaining oa) = Some ar)
      by now recompute_cases oa.
    unfold phase_name_in. rewrite E, Gn1. reflexivity. }
  assert (Hra : role_guard u (recompute_remaining oa) = true)
    by (rewrite role_guard_recompute; exact Hrole).
  assert (R2' : at_most_one "AGUARDANDO_DEVOLUCAO" (snd r1))
    by (unfold at_most_one; rewrite P1; [exact R2|discriminate]).
  destruct (mark_retrieved_success u oid d now1 (snd r1)
              (recompute_remaining oa) Hg1 Hpa Hra R2' Hrc)
    as [ad [s2 [G2 E2]]].
  pose proof (get_or_create_orders _ _ _ _ G2) as [Go2 _].
  pose proof (get_or_create_name _ _ _ _ G2) as Gn2.
  set (ob := set_data_retirado (Some now1)
               (set_service_order_phase (Some ad) (recompute_remaining oa)))
    in *.
  assert (Hidb : order_id ob = oid)
    by (cbn [ob order_id set_data_retirado set_service_order_phase];
        now rewrite recompute_remaining_id).
  assert (Hg2 : get_order (snd r2) oid = Some (recompute_remaining ob)).
  { unfold r2. rewrite E2. cbn [snd].
    exact (proj1 (save_one (snd r1) s2 oid ob Go2 Hidb)). }
  assert (P2 : phases_named "FINALIZADO" (phases (snd r2))
               = phases_named "FINALIZADO" (phases s)).
  { unfold r2. rewrite E2. cbn [snd save phases with_orders].
    rewrite (get_or_create_other _ "FINALIZADO" _ _ _ G2) by discriminate.
    apply P1. discriminate. }
  (* mark paid *)
  assert (Hpb : phase_name_is "AGUARDANDO_DEVOLUCAO" (recompute_remaining ob)
                = true).
  { assert (E : service_order_phase (recompute_remaining ob) = Some ad)
      by now recompute_cases ob.
    unfold phase_name_is. rewrite E, Gn2. reflexivity. }
  assert (Hrb : role_guard u (recompute_remaining ob) = true).
  { rewrite role_guard_recompute.
    change (role_guard u ob) with (role_guard u (recompute_remaining oa)).
    exact Hra. }
  assert (R3' : at_most_one "FINALIZADO" (snd r2))
    by (unfold at_most_one; rewrite P2; exact R3).
  destruct (mark_paid_success u oid now2 today (snd r2)
              (recompute_remaining ob) Hg2 Hpb Hrb R3')
    as [fin [s3 [G3 E3]]].
  pose proof (get_or_create_orders _ _ _ _ G3) as [Go3 _].
  pose proof (get_or_create_name _ _ _ _ G3) as Gn3.
  split; [unfold r1; now rewrite E1|].
  split; [unfold r2; now rewrite E2|].
  split; [unfold r3; now rewrite E3|].
  split.
  - intros u' now' today'. split.
    + unfold mark_paid. rewrite Hget. unfold phase_name_is in Hph.
      destruct (service_order_phase o) as [ph|]; [|discriminate].
      apply String.eqb_eq in Hph. rewrite Hph. reflexivity.
    + unfold mark_paid. rewrite Hg1.
      assert (E : service_order_phase (recompute_remaining oa) = Some ar)
        by now recompute_cases oa.
      rewrite E, Gn1. reflexivity.
  - exists fin. split; [exact Gn3|].
    unfold r3. rewrite E3. cbn [snd].
    rewrite <- (three_saves o ar ad fin now1 now2 today).
    refine (proj1 (save_one (snd r2) s3 oid _ Go3 _)).
    cbn [order_id set_data_finalizado set_data_devolvido
         set_service_order_phase].
    now rewrite recompute_remaining_id.
Qed.

(** X6 at a sample.
    The employee of the order of 1000.00 takes it from production to
    finalised: ready, retrieved at time 400 without payment, paid at time
    500 on day 100. *)
Lemma ready_retrieved_paid_witness :
  (get_order store_in_production 1
   = Some (recompute_remaining order_in_production)
   /\ phase_name_is "EM_PRODUCAO" (recompute_remaining order_in_production)
      = true
   /\ role_guard atendente (recompute_remaining order_in_production) = true
   /\ at_most_one "AGUARDANDO_RETIRADA" store_in_production
   /\ at_most_one "AGUARDANDO_DEVOLUCAO" store_in_production
   /\ at_most_one "FINALIZADO" store_in_production
   /\ receive_remaining_payment no_payment = false)
  /\ (let r1 := mark_ready atendente 1 store_in_production in
      let r2 := mark_retrieved atendente 1 no_payment 400 (snd r1) in
      let r3 := mark_paid atendente 1 500 day (snd r2) in
      fst r3 = HTTP_200_OK
      /\ exists o',
           get_order (snd r3) 1 = Some o'
           /\ data_retirado o' = Some 400
           /\ data_devolvido o' = Some 500
           /\ data_finalizado o' = Some day
           /\ remaining_payment o' = Some 100000).
Proof.
  assert (R1 : at_most_one "AGUARDANDO_RETIRADA" store_in_production)
    by (unfold at_most_one; vm_compute; lia).
  assert (R2 : at_most_one "AGUARDANDO_DEVOLUCAO" store_in_production)
    by (unfold at_most_one; vm_compute; lia).
  assert (R3 : at_most_one "FINALIZADO" store_in_production)
    by (unfold at_most_one; vm_compute; lia).
  split.
  { split; [reflexivity|]. split; [reflexivity|]. split; [reflexivity|].
    split; [exact R1|]. split; [exact R2|]. split; [exact R3|reflexivity]. }
  destruct (ready_retrieved_paid atendente 1 no_payment 400 500 day
              store_in_production (recompute_remaining order_in_production)
              eq_refl eq_refl eq_refl R1 R2 R3 eq_refl)
    as [_ [_ [H3 [_ [fin [Hn Hg]]]]]].
  cbv zeta. split; [exact H3|].
  eexists. split; [exact Hg|].
  set (o4 := set_data_finalizado _ _).
  split; [now recompute_cases o4|]. split; [now recompute_cases o4|].
  split; [now recompute_cases o4|].
  destruct (recompute_remaining_fields o4) as [_ [_ R]]. rewrite R.
  reflexivity.
Defined.

(** ** What every request keeps of the orders *)

Lemma same_custody_refl (o : ServiceOrder) : same_custody o o.
Proof. now repeat split. Qed.

Lemma same_custody_trans (o o1 o2 : ServiceOrder) :
  same_custody o o1 -> same_custody o1 o2 -> same_custody o o2.
Proof.
  unfold same_custody. intros [A [B [C [D E]]]] [A' [B' [C' [D' E']]]].
  repeat split; congruence.
Qed.

Lemma same_custody_recompute (o : ServiceOrder) :
  same_custody o (recompute_remaining o).
Proof. unfold same_custody. repeat split; now recompute_cases o. Qed.

Lemma apply_datas_custody (os : FrontendOrderService) (o : ServiceOrder) :
  same_custody o (apply_datas os o).
Proof.
  unfold apply_datas.
  destruct (data_retirada os), (data_devolucao os), (data_prova os);
    repeat split.
Qed.

Lemma apply_ocasiao_origem_custody (os : FrontendOrderService)
    (o : ServiceOrder) :
  same_custody o (apply_ocasiao_origem os o).
Proof.
  unfold apply_ocasiao_origem.
  destruct (truthy_str (ocasiao os)), (truthy_str (origem os)); repeat split.
Qed.

Lemma apply_modalidade_custody (m : string) (o : ServiceOrder) :
  same_custody o (apply_modalidade m o).
Proof.
  unfold apply_modalidade.
  destruct (String.eqb m "Compra"); [repeat split|].
  destruct (String.eqb m "Aluguel"); [repeat split|].
  destruct (String.eqb m "Aluguel + Venda"); [repeat split|].
  destruct (String.eqb m "Venda"); repeat split.
Qed.

Lemma apply_employee_custody (s : Store) (os : FrontendOrderService)
    (o o1 : ServiceOrder) :
  apply_employee s os o = inr o1 -> same_custody o o1.
Proof.
  unfold apply_employee.
  destruct (employee_id os) as [e|].
  - destruct (e =? 0); [intros H; inversion H; repeat split|].
    destruct (existsb _ _); intros H; inversion H; repeat split.
  - intros H; inversion H; repeat split.
Qed.

Lemma apply_pagamento_custody (pg : FrontendPayment) (o o1 : ServiceOrder) :
  apply_pagamento pg o = Some o1 -> same_custody o o1.
Proof.
  unfold apply_pagamento.
  destruct (sinal pg) as [sg|].
  - destruct (pagamentos sg) as [|pag pags].
    + destruct (truthy_str _); intros H; inversion H; repeat split.
    + destruct (sinal_loop _ _ _ _) as [[formas details]|]; [|discriminate].
      destruct formas, details, (truthy_str _);
        intros H; inversion H; repeat split.
  - destruct (truthy_str _); intros H; inversion H; repeat split.
Qed.

Lemma apply_ordem_servico_custody (s : Store) (os : FrontendOrderService)
    (o o1 : ServiceOrder) :
  apply_ordem_servico s os o = inr o1 -> same_custody o o1.
Proof.
  unfold apply_ordem_servico. cbv zeta.
  set (o3 := match modalidade os with
             | Some m => apply_modalidade m _
             | None => _ end).
  assert (S3 : same_custody o o3).
  { apply same_custody_trans with (apply_datas os o);
      [apply apply_datas_custody|].
    apply same_custody_trans with (apply_ocasiao_origem os (apply_datas os o));
      [apply apply_ocasiao_origem_custody|].
    subst o3. destruct (modalidade os);
      [apply apply_modalidade_custody|apply same_custody_refl]. }
  destruct (apply_employee s os o3) as [r|o4] eqn:E; [discriminate|].
  apply apply_employee_custody in E.
  destruct (pagamento os) as [pg|].
  - destruct (apply_pagamento pg o4) as [o5|] eqn:P; [|discriminate].
    apply apply_pagamento_custody in P.
    intros H; inversion H; subst.
    eapply same_custody_trans; [exact S3|].
    eapply same_custody_trans; [exact E|exact P].
  - intros H; inversion H; subst.
    eapply same_custody_trans; [exact S3|exact E].
Qed.

Lemma update_flag_custody (today : date) (o : ServiceOrder) :
  same_custody o (update_flag today o).
Proof.
  destruct (update_flag_columns today o) as [A [_ [_ [B [C D]]]]].
  split; [apply update_flag_id|]. now repeat split.
Qed.

Lemma allowed_not_finalizado (n : string) :
  mem_str n allowed_phases = true -> n <> "FINALIZADO".
Proof.
  intros H. apply mem_str_in in H. simpl in H.
  destruct H as [H|[H|[H|[]]]]; subst; discriminate.
Qed.

(** The views one by one, for any relation [R] between the row before
    and the row after that holds of a row and itself, composes, holds when
    phase and stamps are the same, holds of a write to an order in a phase
    other than [FINALIZADO] that clears no retrieval stamp, and holds of
    the sweep. *)
Section Kept.

Variable R : ServiceOrder -> ServiceOrder -> Prop.

Hypothesis R_refl : forall o, R o o.
Hypothesis R_trans : forall o o1 o2, R o o1 -> R o1 o2 -> R o o2.
Hypothesis R_same : forall o o1, same_custody o o1 -> R o o1.
Hypothesis R_moved :
  forall o o1 ph,
    service_order_phase o = Some ph ->
    name ph <> "FINALIZADO" ->
    order_id o1 = order_id o ->
    (data_retirado o <> None -> data_retirado o1 <> None) ->
    R o (recompute_remaining o1).
Hypothesis R_swept : forall today s o, R o (swept today s o).

Lemma evolves_refl (s : Store) : evolves_by R s s.
Proof. intros oid o H. exists o. split; [exact H|apply R_refl]. Qed.

Lemma evolves_trans (s s1 s2 : Store) :
  evolves_by R s s1 -> evolves_by R s1 s2 -> evolves_by R s s2.
Proof.
  intros H1 H2 oid o H.
  destruct (H1 oid o H) as [o1 [G1 K1]].
  destruct (H2 oid o1 G1) as [o2 [G2 K2]].
  exists o2. split; [exact G2|]. now apply R_trans with o1.
Qed.

Lemma evolves_orders (s s' : Store) :
  orders s' = orders s -> evolves_by R s s'.
Proof.
  intros E oid o H. exists o. split; [|apply R_refl].
  now rewrite (get_order_orders _ _ _ E).
Qed.

Lemma evolves_save (s s1 : Store) (o o1 : ServiceOrder) :
  orders s1 = orders s ->
  get_order s (order_id o1) = Some o ->
  R o (recompute_remaining o1) ->
  evolves_by R s (snd (save o1 s1)).
Proof.
  intros Ho Hget K oid o' H.
  destruct (Z.eq_dec oid (order_id o1)) as [->|Hne].
  - rewrite Hget in H. inversion H; subst o'.
    exists (recompute_remaining o1). split; [apply get_order_save|exact K].
  - exists o'. split; [|apply R_refl].
    rewrite get_order_save_other by congruence.
    now rewrite (get_order_orders _ _ _ Ho).
Qed.

Lemma evolves_insert (s : Store) (o1 : ServiceOrder) :
  ~ In (order_id o1) (map order_id (orders s)) ->
  evolves_by R s (snd (save o1 s)).
Proof.
  intros Hfresh oid o H. exists o. split; [|apply R_refl].
  rewrite get_order_save_other; [exact H|].
  intros E. apply Hfresh. unfold get_order in H.
  apply find_some in H. destruct H as [Hin Hid].
  apply Z.eqb_eq in Hid. rewrite E, <- Hid. now apply in_map.
Qed.

Lemma mark_ready_evolves (u : User) (oid : Z) (s : Store) :
  evolves_by R s (snd (mark_ready u oid s)).
Proof.
  unfold mark_ready.
  destruct (get_order s oid) as [o|] eqn:Hget; [|apply evolves_refl].
  destruct (service_order_phase o) as [ph|] eqn:Hph; [|apply evolves_refl].
  destruct (String.eqb (name ph) "EM_PRODUCAO") eqn:E1; simpl negb; cbv iota;
    [|apply evolves_refl].
  destruct (get_or_create "AGUARDANDO_RETIRADA" s) as [[ar s1]|] eqn:G;
    [|apply evolves_refl].
  apply get_or_create_orders in G. destruct G as [G _].
  destruct (negb (role_guard u o)); [now apply evolves_orders|].
  cbn [snd]. pose proof (get_order_id _ _ _ Hget) as Hid.
  apply evolves_save with o; [exact G| |].
  - cbn [order_id set_service_order_phase]. now rewrite Hid.
  - apply (R_moved o _ ph Hph); [|reflexivity|auto].
    apply String.eqb_eq in E1. rewrite E1. discriminate.
Qed.

Lemma mark_retrieved_evolves (u : User) (oid : Z) (d : MarkRetrievedData)
    (now : datetime) (s : Store) :
  evolves_by R s (snd (mark_retrieved u oid d now s)).
Proof.
  destruct (get_order s oid) as [o|] eqn:Hget.
  2:{ unfold mark_retrieved. rewrite Hget. apply evolves_refl. }
  destruct (mark_retrieved_cases u oid d now s o Hget)
    as [[_ H]|[ad [s1 [o1 [_ [[Hph _] [G [Hp ->]]]]]]]];
    [now apply evolves_orders|].
  apply get_or_create_orders in G. destruct G as [G _].
  pose proof (get_order_id _ _ _ Hget) as Hid.
  assert (Hid1 : order_id o1 = order_id o).
  { destruct (receive_remaining_payment d);
      [now apply receive_payment_id in Hp|now subst]. }
  unfold phase_name_in in Hph.
  destruct (service_order_phase o) as [ph|] eqn:Eph; [|discriminate].
  apply evolves_save with o; [exact G| |].
  - cbn [order_id set_data_retirado set_service_order_phase]. congruence.
  - apply (R_moved o _ ph Eph).
    + destruct (retrievable_names _ Hph) as [_ H]. now apply String.eqb_neq.
    + exact Hid1.
    + intros _. discriminate.
Qed.

Lemma mark_paid_evolves (u : User) (oid : Z) (now : datetime) (today : date)
    (s : Store) :
  evolves_by R s (snd (mark_paid u oid now today s)).
Proof.
  unfold mark_paid.
  destruct (get_order s oid) as [o|] eqn:Hget; [|apply evolves_refl].
  destruct (service_order_phase o) as [ph|] eqn:Hph; [|apply evolves_refl].
  destruct (String.eqb (name ph) "FINALIZADO") eqn:E0; [apply evolves_refl|].
  destruct (String.eqb (name ph) "AGUARDANDO_DEVOLUCAO") eqn:E1;
    simpl negb; cbv iota; [|apply evolves_refl].
  destruct (get_or_create "FINALIZADO" s) as [[fin s1]|] eqn:G;
    [|apply evolves_refl].
  apply get_or_create_orders in G. destruct G as [G _].
  destruct (negb (role_guard u o)); [now apply evolves_orders|].
  cbn [snd]. pose proof (get_order_id _ _ _ Hget) as Hid.
  apply evolves_save with o; [exact G| |].
  - cbn [order_id set_data_finalizado set_data_devolvido
         set_service_order_phase]. now rewrite Hid.
  - apply (R_moved o _ ph Hph); [|reflexivity|auto].
    now apply String.eqb_neq.
Qed.

Lemma return_to_pending_evolves (u : User) (oid : Z) (s : Store) :
  evolves_by R s (snd (return_to_pending u oid s)).
Proof.
  unfold return_to_pending.
  destruct (get_order s oid) as [o|] eqn:Hget; [|apply evolves_refl].
  destruct (service_order_phase o) as [ph|] eqn:Hph; [|apply evolves_refl].
  destruct (String.eqb (name ph) "PENDENTE"); [apply evolves_refl|].
  destruct (mem_str (name ph) ["FINALIZADO"]) eqn:E2; [apply evolves_refl|].
  destruct (get_or_create "PENDENTE" s) as [[pend s1]|] eqn:G;
    [|apply evolves_refl].
  apply get_or_create_orders in G. destruct G as [G _].
  destruct (negb (role_guard u o)); [now apply evolves_orders|].
  cbn [snd]. pose proof (get_order_id _ _ _ Hget) as Hid.
  apply evolves_save with o; [exact G| |].
  - cbn [order_id set_service_order_phase]. now rewrite Hid.
  - apply (R_moved o _ ph Hph); [|reflexivity|auto].
    unfold mem_str in E2. cbn [existsb] in E2. rewrite orb_false_r in E2.
    now apply String.eqb_neq.
Qed.

(** A refusal of an order that has a phase. *)
Lemma refuse_evolves_phased (reasons : list RefusalReason) (u : User)
    (oid : Z) (d : RefuseData) (now : datetime) (today : date) (s : Store) :
  (forall o, get_order s oid = Some o -> service_order_phase o <> None) ->
  evolves_by R s (snd (fst (refuse reasons u oid d now today s))).
Proof.
  intros Hphased. unfold refuse.
  destruct (get_order s oid) as [o|] eqn:Hget; [|apply evolves_refl].
  specialize (Hphased o eq_refl).
  destruct (justification_reason_id d) as [rid|]; [|apply evolves_refl].
  destruct (rid =? 0); [apply evolves_refl|].
  destruct (get_reason reasons rid) as [reason|]; [|apply evolves_refl].
  destruct (get_or_create "RECUSADA" s) as [[rp s1]|] eqn:G;
    [|apply evolves_refl].
  apply get_or_create_orders in G. destruct G as [G _].
  pose proof (get_order_id _ _ _ Hget) as Hid.
  cbv zeta.
  destruct (service_order_phase o) as [ph|] eqn:Hph; [|contradiction].
  destruct (mem_str (name ph) allowed_phases) eqn:E; simpl negb; cbv iota;
    [|now apply evolves_orders].
  destruct (negb (refuse_guard u o)); [now apply evolves_orders|].
  cbn [fst snd]. apply evolves_save with o; [exact G| |].
  - cbn [order_id set_justification_refusal set_service_order_phase].
    now rewrite Hid.
  - apply (R_moved o _ ph Hph); [|reflexivity|auto].
    now apply allowed_not_finalizado.
Qed.

Lemma list_by_phase_evolves (phase_name : string) (today : date) (s : Store) :
  evolves_by R s (snd (list_by_phase phase_name today s)).
Proof.
  intros oid o H.
  destruct (list_by_phase_get phase_name today s oid o H) as [o' [G Ho']].
  exists o'. split; [exact G|].
  destruct Ho' as [->| ->]; [apply R_swept|].
  apply R_trans with (swept today s o);
    [apply R_swept|apply R_same, update_flag_custody].
Qed.

Lemma link_service_order_evolves (events : list Event) (oid eid : Z)
    (s : Store) :
  evolves_by R s (snd (link_service_order events oid eid s)).
Proof.
  unfold link_service_order.
  destruct (get_order s oid) as [o|] eqn:Hget; [|apply evolves_refl].
  destruct (get_event events eid) as [e|]; [|apply evolves_refl].
  cbn [snd]. pose proof (get_order_id _ _ _ Hget) as Hid.
  apply evolves_save with o; [reflexivity| |].
  - cbn [order_id set_event]. now rewrite Hid.
  - apply R_same.
    apply same_custody_trans with (set_event (Some e) o);
      [now repeat split|apply same_custody_recompute].
Qed.

Lemma virtual_create_evolves (u : User) (d : VirtualServiceOrderCreateData)
    (now : datetime) (today : date) (s : Store) :
  evolves_by R s (snd (virtual_create u d now today s)).
Proof.
  unfold virtual_create.
  destruct (match renter_id d with
            | Some rid => _
            | None => _
            end) as [renter_pk|]; [|apply evolves_refl].
  set (pk := fresh_id (map order_id (orders s))).
  set (o1 := virtual_order pk renter_pk d now today).
  assert (Hid : order_id o1 = pk).
  { unfold o1, virtual_order.
    destruct (virtual_payments d now) as [[pd ap] pm]. reflexivity. }
  pose proof (evolves_insert s o1) as H.
  destruct (save o1 s) as [o s1]. cbn [snd] in *. apply H.
  rewrite Hid. apply fresh_id_not_in.
Qed.

Lemma advance_to_production_evolves (today : date) (o : ServiceOrder)
    (s : Store) :
  get_order s (order_id o) = Some o ->
  let r := advance_to_production today o s in
  evolves_by R s (snd r)
  /\ get_order (snd r) (order_id (fst r)) = Some (fst r)
  /\ order_id (fst r) = order_id o.
Proof.
  intros Hget. unfold advance_to_production.
  destruct (first (phases_named "EM_PRODUCAO" (phases s))) as [em|];
    [|cbv zeta; cbn [fst snd]; split; [apply evolves_refl|now split]].
  destruct (service_order_phase o) as [ph|] eqn:Hph;
    [|cbv zeta; cbn [fst snd]; split; [apply evolves_refl|now split]].
  destruct (mem_str (name ph) production_phases) eqn:E; simpl negb; cbv iota;
    [cbv zeta; cbn [fst snd]; split; [apply evolves_refl|now split]|].
  set (o1 := set_production_date (Some today)
               (set_service_order_phase (Some em) o)).
  cbv zeta. split; [|split].
  - apply evolves_save with o; [reflexivity|exact Hget|].
    apply (R_moved o _ ph Hph); [|reflexivity|auto].
    intros Ef. rewrite Ef in E. discriminate.
  - cbn [fst save]. rewrite recompute_remaining_id. apply get_order_save.
  - cbn [fst save]. now rewrite recompute_remaining_id.
Qed.

Lemma replace_items_and_save_evolves (u : User)
    (d : FrontendServiceOrderUpdate) (now : datetime) (today : date)
    (o o2 : ServiceOrder) (s s1 : Store) :
  orders s1 = orders s ->
  get_order s (order_id o2) = Some o ->
  same_custody o o2 ->
  evolves_by R s (snd (replace_items_and_save u d now today o2 s1)).
Proof.
  intros Ho Hget Sc. unfold replace_items_and_save.
  fold (items_replaced (order_id o2) d s1).
  set (s3 := items_replaced (order_id o2) d s1).
  assert (O3 : orders s3 = orders s).
  { rewrite <- Ho. unfold s3, items_replaced. cbv zeta.
    destruct (patch_acessorios d) as [la|], (patch_itens d) as [li|];
      rewrite ?(proj1 (fold_add_acessorio_frame _ _ _)),
              ?(proj1 (fold_add_item_frame _ _ _)); reflexivity. }
  set (o1 := recompute_remaining o2).
  set (s4 := with_orders (write_order o1 (orders s3)) s3).
  change (save o2 s3) with (o1, s4). cbv beta iota.
  assert (E4 : evolves_by R s s4).
  { change s4 with (snd (save o2 s3)).
    apply evolves_save with o; [exact O3|exact Hget|].
    apply R_same. apply same_custody_trans with o2;
      [exact Sc|apply same_custody_recompute]. }
  assert (G4 : get_order s4 (order_id o1) = Some o1).
  { unfold o1. rewrite recompute_remaining_id.
    change s4 with (snd (save o2 s3)). apply get_order_save. }
  assert (E5 : exists o5 s5,
             (if is_full_update d then advance_to_production today o1 s4
              else (o1, s4)) = (o5, s5)
             /\ evolves_by R s s5 /\ get_order s5 (order_id o5) = Some o5).
  { destruct (is_full_update d).
    - pose proof (advance_to_production_evolves today o1 s4 G4) as [A [B _]].
      destruct (advance_to_production today o1 s4) as [o5 s5].
      exists o5, s5. cbn [fst snd] in *.
      split; [reflexivity|]. split; [|exact B].
      now apply evolves_trans with s4.
    - exists o1, s4. now repeat split. }
  destruct E5 as [o5 [s5 [-> [E5 G5]]]].
  cbn [snd]. apply evolves_trans with s5; [exact E5|].
  apply evolves_save with o5; [reflexivity|exact G5|].
  apply R_same.
  apply same_custody_trans
    with (set_updated_by (Some (user_id u)) (set_date_updated (Some now) o5));
    [now repeat split|apply same_custody_recompute].
Qed.

Lemma put_evolves
    (link_cliente :
       list Person -> ServiceOrder -> FrontendClient -> list Person * option Z)
    (u : User) (oid : Z) (d : FrontendServiceOrderUpdate) (now : datetime)
    (today : date) (s : Store) :
  evolves_by R s (snd (put link_cliente u oid d now today s)).
Proof.
  unfold put.
  destruct (get_order s oid) as [o|] eqn:Hget; [|apply evolves_refl].
  pose proof (get_order_id _ _ _ Hget) as Hid.
  destruct (match ordem_servico d with
            | Some os => apply_ordem_servico s os o
            | None => inr o end) as [resp|o1] eqn:E1; [apply evolves_refl|].
  assert (S1 : same_custody o o1).
  { destruct (ordem_servico d) as [os|].
    - now apply apply_ordem_servico_custody in E1.
    - inversion E1. apply same_custody_refl. }
  assert (Hid1 : order_id o1 = oid) by (destruct S1 as [A _]; congruence).
  destruct (cliente d) as [c|].
  - unfold apply_cliente.
    destruct (negb (cpf_valid c)); [apply evolves_refl|].
    destruct (link_cliente (persons s) o1 c) as [ps [pid|]];
      [|now apply evolves_orders].
    apply replace_items_and_save_evolves with o; [reflexivity| |].
    + cbn [order_id set_renter]. now rewrite Hid1.
    + apply same_custody_trans with o1; [exact S1|now repeat split].
  - apply replace_items_and_save_evolves with o;
      [reflexivity|now rewrite Hid1|exact S1].
Qed.

(** Every request but a refusal. *)
Lemma serve_evolves
    (link_cliente :
       list Person -> ServiceOrder -> FrontendClient -> list Person * option Z)
    (rq : Request) (s : Store) :
  match rq with Refuse _ _ _ _ _ _ => False | _ => True end ->
  evolves_by R s (serve link_cliente rq s).
Proof.
  destruct rq; cbn [serve]; intros Hrq.
  - apply mark_ready_evolves.
  - apply mark_retrieved_evolves.
  - apply mark_paid_evolves.
  - apply return_to_pending_evolves.
  - contradiction.
  - apply put_evolves.
  - apply list_by_phase_evolves.
  - apply link_service_order_evolves.
  - apply virtual_create_evolves.
Qed.

End Kept.

(** The two relations. *)

Lemma kept_refl (o : ServiceOrder) : kept o o.
Proof.
  split; [reflexivity|]. split; [auto|]. intros _ _. apply same_custody_refl.
Qed.

Lemma kept_same (o o1 : ServiceOrder) : same_custody o o1 -> kept o o1.
Proof.
  intros S. pose proof S as [A [B [C _]]].
  split; [exact A|]. split; [now rewrite C|]. intros _ _. exact S.
Qed.

Lemma kept_trans (o o1 o2 : ServiceOrder) :
  kept o o1 -> kept o1 o2 -> kept o o2.
Proof.
  intros [A [B C]] [A' [B' C']].
  split; [congruence|]. split; [auto|].
  intros Hf Hr. specialize (C Hf Hr).
  apply same_custody_trans with o1; [exact C|].
  destruct C as [_ [P [Rt _]]].
  apply C'.
  - unfold phase_name_is in *. now rewrite P.
  - now rewrite Rt.
Qed.

(** A write to an order that is not finalised. *)
Lemma kept_unfinished (o o1 : ServiceOrder) :
  phase_name_is "FINALIZADO" o = false ->
  order_id o1 = order_id o ->
  (data_retirado o <> None -> data_retirado o1 <> None) ->
  kept o (recompute_remaining o1).
Proof.
  intros Hf Hid Hr.
  split; [now rewrite recompute_remaining_id|].
  split.
  - intros H. specialize (Hr H).
    replace (data_retirado (recompute_remaining o1)) with (data_retirado o1)
      by now recompute_cases o1.
    exact Hr.
  - rewrite Hf. discriminate.
Qed.

Lemma kept_moved (o o1 : ServiceOrder) (ph : ServiceOrderPhase) :
  service_order_phase o = Some ph ->
  name ph <> "FINALIZADO" ->
  order_id o1 = order_id o ->
  (data_retirado o <> None -> data_retirado o1 <> None) ->
  kept o (recompute_remaining o1).
Proof.
  intros Hph Hn. apply kept_unfinished.
  unfold phase_name_is. rewrite Hph. now apply String.eqb_neq.
Qed.

Lemma kept_swept (today : date) (s : Store) (o : ServiceOrder) :
  kept o (swept today s o).
Proof.
  unfold swept. destruct (first _) as [rp|]; [|apply kept_refl].
  destruct (overdue today o) eqn:Ov; [|apply kept_refl].
  assert (Hr : data_retirado o = None).
  { unfold overdue in Ov. rewrite !andb_true_iff in Ov.
    destruct Ov as [[[[_ Hr] _] _] _]. now apply is_some_none in Hr. }
  split; [unfold refuse_overdue; now rewrite recompute_remaining_id|].
  split; intros; contradiction.
Qed.

Lemma refuse_kept (reasons : list RefusalReason) (u : User) (oid : Z)
    (d : RefuseData) (now : datetime) (today : date) (s : Store) :
  evolves_by kept s (snd (fst (refuse reasons u oid d now today s))).
Proof.
  destruct (get_order s oid) as [o|] eqn:Hget.
  2:{ unfold refuse. rewrite Hget.
      apply (evolves_refl kept kept_refl). }
  destruct (service_order_phase o) as [ph|] eqn:Hph.
  { apply (refuse_evolves_phased kept kept_refl kept_moved).
    intros o' Ho'. rewrite Hget in Ho'. inversion Ho'; subst o'.
    rewrite Hph. discriminate. }
  unfold refuse. rewrite Hget, Hph.
  destruct (justification_reason_id d) as [rid|];
    [|apply (evolves_refl kept kept_refl)].
  destruct (rid =? 0); [apply (evolves_refl kept kept_refl)|].
  destruct (get_reason reasons rid) as [reason|];
    [|apply (evolves_refl kept kept_refl)].
  destruct (get_or_create "RECUSADA" s) as [[rp s1]|] eqn:G;
    [|apply (evolves_refl kept kept_refl)].
  apply get_or_create_orders in G. destruct G as [G _].
  pose proof (get_order_id _ _ _ Hget) as Hid.
  cbv zeta.
  destruct (negb (refuse_guard u o));
    [now apply (evolves_orders kept kept_refl)|].
  cbn [fst snd]. apply (evolves_save kept kept_refl) with o; [exact G| |].
  - cbn [order_id set_justification_refusal set_service_order_phase].
    now rewrite Hid.
  - apply kept_unfinished; [|reflexivity|auto].
    unfold phase_name_is. now rewrite Hph.
Qed.

Lemma serve_kept
    (link_cliente :
       list Person -> ServiceOrder -> FrontendClient -> list Person * option Z)
    (rq : Request) (s : Store) :
  evolves_by kept s (serve link_cliente rq s).
Proof.
  assert (H : match rq with Refuse _ _ _ _ _ _ => False | _ => True end ->
              evolves_by kept s (serve link_cliente rq s))
    by apply (serve_evolves kept kept_refl kept_trans kept_same
                kept_moved kept_swept).
  destruct rq; try (apply H; exact I).
  cbn [serve]. apply refuse_kept.
Qed.



Lemma stays_phaseless_refl (o : ServiceOrder) : stays_phaseless o o.
Proof. now split. Qed.

Lemma stays_phaseless_trans (o o1 o2 : ServiceOrder) :
  stays_phaseless o o1 -> stays_phaseless o1 o2 -> stays_phaseless o o2.
Proof. intros [A B] [A' B']. split; [congruence|auto]. Qed.

Lemma stays_phaseless_same (o o1 : ServiceOrder) :
  same_custody o o1 -> stays_phaseless o o1.
Proof. intros [A [B _]]. split; [exact A|]. now rewrite B. Qed.

Lemma stays_phaseless_moved (o o1 : ServiceOrder) (ph : ServiceOrderPhase) :
  service_order_phase o = Some ph ->
  name ph <> "FINALIZADO" ->
  order_id o1 = order_id o ->
  (data_retirado o <> None -> data_retirado o1 <> None) ->
  stays_phaseless o (recompute_remaining o1).
Proof.
  intros Hph _ Hid _. split; [now rewrite recompute_remaining_id|].
  rewrite Hph. discriminate.
Qed.

Lemma stays_phaseless_swept (today : date) (s : Store) (o : ServiceOrder) :
  stays_phaseless o (swept today s o).
Proof.
  split; [apply swept_id|]. intros Hn. unfold swept.
  destruct (first _) as [rp|]; [|exact Hn].
  assert (Ov : overdue today o = false).
  { unfold overdue, phase_name_in. rewrite Hn.
    now rewrite !andb_false_r. }
  now rewrite Ov.
Qed.

Lemma refuse_spares (reasons : list RefusalReason) (u : User) (oid oid' : Z)
    (d : RefuseData) (now : datetime) (today : date) (s : Store) :
  oid' <> oid ->
  get_order (snd (fst (refuse reasons u oid' d now today s))) oid
  = get_order s oid.
Proof.
  intros Hne. unfold refuse.
  destruct (get_order s oid') as [o|] eqn:Hget; [|reflexivity].
  destruct (justification_reason_id d) as [rid|]; [|reflexivity].
  destruct (rid =? 0); [reflexivity|].
  destruct (get_reason reasons rid) as [reason|]; [|reflexivity].
  destruct (get_or_create "RECUSADA" s) as [[rp s1]|] eqn:G; [|reflexivity].
  apply get_or_create_orders in G. destruct G as [G _].
  pose proof (get_order_id _ _ _ Hget) as Hid.
  cbv zeta.
  assert (Hsave : get_order
                    (snd (save (set_justification_refusal
                                  (justification_of
                                     (justification_refusal_raw d))
                                  (set_service_order_phase (Some rp) o)) s1))
                    oid
                  = get_order s oid).
  { rewrite get_order_save_other; [now apply get_order_orders|].
    cbn [order_id set_justification_refusal set_service_order_phase].
    congruence. }
  destruct (service_order_phase o) as [ph|].
  - destruct (negb (mem_str (name ph) allowed_phases));
      [now apply get_order_orders|].
    destruct (negb (refuse_guard u o)); [now apply get_order_orders|].
    exact Hsave.
  - destruct (negb (refuse_guard u o)); [now apply get_order_orders|].
    exact Hsave.
Qed.



(** ** The calendar predicates *)

(** X9.
    The three calendar predicates of an order hold only for an order that
    has a phase other than [FINALIZADO] and [RECUSADA].  "Late" and "due
    within ten days" exclude each other, and each of them excludes a return
    date that is today.  An order for which one of the three holds has a
    date, so its [tipo_evento] is not ["outro"]. *)
Theorem calendar_predicates (today : date) (o : ServiceOrder) :
  (still_open o = false ->
   is_atrasada today o = false /\ is_hoje today o = false
   /\ is_proximos_10_dias today o = false)
  /\ (still_open o = true <->
      exists ph, service_order_phase o = Some ph
                 /\ name ph <> "FINALIZADO" /\ name ph <> "RECUSADA")
  /\ (is_atrasada today o = true -> is_proximos_10_dias today o = false)
  /\ (date_is today (devolucao_date o) = true ->
      is_atrasada today o = false /\ is_proximos_10_dias today o = false)
  /\ (is_atrasada today o = true \/ is_hoje today o = true
      \/ is_proximos_10_dias today o = true ->
      tipo_evento o <> "outro").
Proof.
  unfold is_atrasada, is_hoje, is_proximos_10_dias, tipo_evento, date_is.
  split; [intros ->; now rewrite !andb_false_r|].
  split.
  { unfold still_open. destruct (service_order_phase o) as [ph|].
    - unfold mem_str. cbn [existsb]. rewrite orb_false_r, negb_true_iff,
        orb_false_iff, !String.eqb_neq.
      split.
      + intros [A B]. now exists ph.
      + intros [ph' [E [A B]]]. inversion E; subst. now split.
    - split; [discriminate|]. intros [ph [E _]]. discriminate. }
  split.
  { destruct (devolucao_date o) as [d|]; [|discriminate].
    rewrite andb_true_iff, Z.ltb_lt. intros [H _].
    assert (E : (today <? d) = false) by (apply Z.ltb_ge; lia).
    now rewrite E. }
  split.
  { destruct (devolucao_date o) as [d|]; [|discriminate].
    rewrite Z.eqb_eq. intros ->. now rewrite Z.ltb_irrefl. }
  destruct (prova_date o) as [p|]; [intros _; discriminate|].
  destruct (retirada_date o) as [r|]; [intros _; discriminate|].
  destruct (devolucao_date o) as [d|]; [intros _; discriminate|].
  cbn. intros [H|[H|H]]; discriminate.
Qed.

(** ** Line items and [clean] *)

Lemma clean_iff (i : ServiceOrderItem) :
  clean i = None
  <-> (product i = None /\ temporary_product i <> None)
      \/ (product i <> None /\ temporary_product i = None).
Proof.
  unfold clean. destruct (product i), (temporary_product i); cbn; split;
    try discriminate; try reflexivity.
  - intros [[H _]|[_ H]]; discriminate.
  - intros _. right. split; [discriminate|reflexivity].
  - intros _. left. split; [reflexivity|discriminate].
  - intros [[_ H]|[H _]]; now contradiction H.
Qed.

Lemma patch_views_product (d : FrontendServiceOrderUpdate) (v : ItemView) :
  In v (patch_views d) -> snd (fst (fst v)) = None.
Proof.
  unfold patch_views. intros H. apply in_app_or in H.
  destruct H as [H|H]; apply in_map_iff in H; destruct H as [x [<- _]];
    reflexivity.
Qed.

(** X10.
    [clean] passes an item exactly when one of its product and its
    temporary product is set and the other is not.  Every line item a
    successful update leaves for the order passes it: the item links to a
    temporary product and to no catalogue product. *)
Theorem put_items_pass_clean
    (link_cliente :
       list Person -> ServiceOrder -> FrontendClient -> list Person * option Z)
    (u : User) (oid : Z) (d : FrontendServiceOrderUpdate) (now : datetime)
    (today : date) (s : Store) (o : ServiceOrder) :
  get_order s oid = Some o ->
  let r := put link_cliente u oid d now today s in
  fst r = HTTP_200_OK ->
  Forall (fun i => clean i = None
                   /\ product i = None /\ temporary_product i <> None)
    (order_items (snd r) oid).
Proof.
  intros Hget r Hok.
  assert (Hput : put link_cliente u oid d now today s = (HTTP_200_OK, snd r)).
  { subst r. rewrite <- Hok. now destruct (put _ _ _ _ _ _ _). }
  destruct (put_success _ _ _ _ _ _ _ _ _ Hget Hput) as [o2 [ps [S2 Hr]]].
  pose proof (replace_items_and_save_spec u d now today o2 (with_persons ps s))
    as [_ [Hi _]].
  rewrite Hr in Hi. cbn [snd] in Hi.
  pose proof (get_order_id _ _ _ Hget) as Hoid.
  destruct S2 as [Sa _]. rewrite Sa, Hoid in Hi.
  pose proof (items_replaced_items oid d (with_persons ps s))
    as [HV [HF _]].
  set (st := items_replaced oid d (with_persons ps s)) in *.
  assert (Eo : order_items (snd r) oid = order_items st oid)
    by (unfold order_items; now rewrite Hi).
  rewrite Eo. rewrite Forall_forall in *. intros i Hin.
  assert (Hp : product i = None).
  { assert (Hv : In (item_view st i) (patch_views d))
      by (rewrite <- HV; now apply in_map).
    apply patch_views_product in Hv. exact Hv. }
  assert (Ht : temporary_product i <> None).
  { destruct (HF i Hin) as [_ [pk [E _]]]. rewrite E. discriminate. }
  split; [|now split]. apply clean_iff. left. now split.
Qed.

(** X10 at a sample.
    The full update of the pending order leaves a jacket and a tie, and
    both pass [clean]. *)
Lemma put_items_pass_clean_witness :
  get_order store_pending 4 = Some order_pending
  /\ fst (put no_directory admin 4 full_update 500 day store_pending)
     = HTTP_200_OK
  /\ List.length
       (order_items
          (snd (put no_directory admin 4 full_update 500 day store_pending)) 4)
     = 2%nat
  /\ Forall (fun i => clean i = None
                      /\ product i = None /\ temporary_product i <> None)
       (order_items
          (snd (put no_directory admin 4 full_update 500 day store_pending)) 4).
Proof.
  assert (Hok : fst (put no_directory admin 4 full_update 500 day
                       store_pending) = HTTP_200_OK)
    by (vm_compute; reflexivity).
  split; [reflexivity|]. split; [exact Hok|].
  split; [vm_compute; reflexivity|].
  exact (put_items_pass_clean no_directory admin 4 full_update 500 day
           store_pending order_pending eq_refl Hok).
Defined.

(** ** The listing: what it answers and what it leaves alone *)

Lemma respond_data (listed data : list ServiceOrder) :
  respond listed = LIST_200_OK data ->
  data = listed /\ Forall (fun o => renter o <> None) data.
Proof.
  unfold respond. destruct (forallb _ listed) eqn:E; [|discriminate].
  intros H. inversion H; subst. split; [reflexivity|].
  rewrite forallb_forall in E. apply Forall_forall. intros o Ho.
  specialize (E o Ho). destruct (renter o); [discriminate|discriminate].
Qed.

(** X11.
    A phase listing never changes the registry, the person table or the
    line items.  It answers 404 exactly when no registry row has the asked
    name as a substring, case ignored.  When it answers with orders, each
    of them is a row of the store it leaves, is not virtual and has a
    renter: a virtual order is never listed, whatever its phase. *)
Theorem list_by_phase_frame (phase_name : string) (today : date) (s : Store) :
  let r := list_by_phase phase_name today s in
  phases (snd r) = phases s
  /\ persons (snd r) = persons s
  /\ items (snd r) = items s
  /\ temporary_products (snd r) = temporary_products s
  /\ ((exists msg, fst r = LIST_404_NOT_FOUND msg)
      <-> forall p, In p (phases s) -> icontains (name p) phase_name = false)
  /\ forall data,
       fst r = LIST_200_OK data ->
       Forall (fun o => In o (orders (snd r)) /\ is_virtual o = false
                        /\ renter o <> None) data.
Proof.
  cbv zeta. unfold list_by_phase.
  set (s1 := move_to_refused_if_event_passed today s).
  assert (P1 : phases s1 = phases s) by apply sweep_keeps_phases.
  assert (Q1 : persons s1 = persons s /\ items s1 = items s
               /\ temporary_products s1 = temporary_products s).
  { unfold s1, move_to_refused_if_event_passed.
    destruct (first _); now repeat split. }
  destruct Q1 as [Q1 [Q2 Q3]]. rewrite P1.
  assert (Hlisted : forall (q : ServiceOrder -> bool) st data,
             (forall o, q o = true -> is_virtual o = false) ->
             respond (filter q (orders st)) = LIST_200_OK data ->
             Forall (fun o => In o (orders st) /\ is_virtual o = false
                              /\ renter o <> None) data).
  { intros q st data Hq H. apply respond_data in H. destruct H as [-> Hr].
    rewrite Forall_forall in *. intros o Ho. pose proof (Hr o Ho) as Hren.
    apply filter_In in Ho. destruct Ho as [Hin Hqo].
    split; [exact Hin|]. split; [now apply Hq|exact Hren]. }
  assert (Hin_phase : forall phase o,
             in_phase_q phase o = true -> is_virtual o = false).
  { intros phase o H. unfold in_phase_q in H. apply andb_true_iff in H.
    destruct H as [H _]. now apply negb_true_iff in H. }
  destruct (first (filter (fun p => icontains (name p) phase_name) (phases s)))
    as [phase|] eqn:F.
  - assert (Hno404 : ~ (forall p, In p (phases s) ->
                                  icontains (name p) phase_name = false)).
    { intros H. apply first_in in F. apply filter_In in F.
      destruct F as [Hin Hc]. rewrite (H _ Hin) in Hc. discriminate. }
    destruct (String.eqb (name phase) "ATRASADO").
    + cbn [fst snd]. repeat split; auto.
      * intros [msg H]. unfold respond in H.
        destruct (forallb _ _); discriminate.
      * intros H. contradiction.
      * intros data H.
        apply (Hlisted
                 (atrasado_q today
                    (first (phases_named "AGUARDANDO_DEVOLUCAO" (phases s))))
                 s1 data); [|exact H].
        intros o Ho. unfold atrasado_q in Ho. apply andb_true_iff in Ho.
        destruct Ho as [Ho _]. now apply negb_true_iff in Ho.
    + destruct (String.eqb (name phase) "AGUARDANDO_RETIRADA").
      * cbn [fst snd phases persons items temporary_products with_orders].
        repeat split; auto.
        -- intros [msg H]. unfold respond in H.
           destruct (forallb _ _); discriminate.
        -- intros H. contradiction.
        -- intros data H.
           apply (Hlisted (in_phase_q phase) _ data (Hin_phase phase)).
           exact H.
      * cbn [fst snd]. repeat split; auto.
        -- intros [msg H]. unfold respond in H.
           destruct (forallb _ _); discriminate.
        -- intros H. contradiction.
        -- intros data H.
           apply (Hlisted (in_phase_q phase) s1 data (Hin_phase phase)).
           exact H.
  - cbn [fst snd]. repeat split; auto.
    + intros _ p Hp.
      destruct (icontains (name p) phase_name) eqn:E; [|reflexivity].
      exfalso.
      assert (Hin : In p (filter (fun p => icontains (name p) phase_name)
                            (phases s))) by (apply filter_In; now split).
      destruct (filter _ (phases s)) as [|q t]; [contradiction|].
      cbn [first] in F. destruct (first t) as [q'|];
        [destruct (phase_id q' <? phase_id q)|]; discriminate.
    + intros _. eexists. reflexivity.
    + intros data H. discriminate.
Qed.

(** ** The justification of a late order *)

(** X12.
    Every order the [ATRASADO] listing answers with gets a justification,
    and only two of the three texts occur: "Cliente ainda não devolveu"
    when its return date has passed and its event is still ahead, "Cliente
    ainda não devolveu (evento passou)" when it was never returned and its
    event has passed.  The text "Cliente não retirou" is never given to a
    listed order, and no listed order is left without text. *)
Theorem listed_late_orders_are_justified (phase_name : string) (today : date)
    (s : Store) (phase : ServiceOrderPhase) (data : list ServiceOrder) :
  resolves_to phase_name s phase ->
  name phase = "ATRASADO" ->
  fst (list_by_phase phase_name today s) = LIST_200_OK data ->
  Forall
    (fun o =>
       (justificativa_atraso phase today o = Some "Cliente ainda não devolveu"
        /\ (exists d, devolucao_date o = Some d /\ d < today)
        /\ event_ahead today o)
       \/ (justificativa_atraso phase today o
           = Some "Cliente ainda não devolveu (evento passou)"
           /\ data_devolvido o = None
           /\ event_passed today o))
    data.
Proof.
  intros Hres Hname Hdata. unfold resolves_to in Hres.
  unfold list_by_phase in Hdata.
  rewrite sweep_keeps_phases, Hres, Hname in Hdata.
  cbn [String.eqb Ascii.eqb Bool.eqb fst] in Hdata.
  apply respond_data in Hdata. destruct Hdata as [-> _].
  apply Forall_forall. intros o Ho. apply filter_In in Ho.
  destruct Ho as [_ Hq]. apply atrasado_q_iff in Hq.
  destruct Hq as [_ [_ Hlate]].
  unfold justificativa_atraso. rewrite Hname.
  cbn [String.eqb Ascii.eqb Bool.eqb].
  destruct Hlate as [[[d [Hd Hlt]] He]|[Hd He]].
  - left. rewrite Hd. apply event_date_gt_iff in He. rewrite He.
    assert (E : (d <? today) = true) by now apply Z.ltb_lt.
    rewrite E. cbn [andb]. split; [reflexivity|].
    split; [now exists d|now apply event_date_gt_iff].
  - right. pose proof He as He'. apply event_date_lt_iff in He.
    assert (Eg : event_date_gt today o = false).
    { unfold event_date_gt. destruct He' as [e [dt [-> [-> Hlt]]]].
      apply Z.ltb_ge. lia. }
    rewrite Eg, !andb_false_r, Hd, He. cbn [is_some negb andb].
    now repeat split.
Qed.

(** X12 at a sample.
    The retrieved order due back yesterday, its event tomorrow, is listed
    as late and said not to have been returned yet. *)
Lemma listed_late_orders_are_justified_witness :
  (resolves_to "ATRASADO" store_late_return ATRASADO
   /\ name ATRASADO = "ATRASADO"
   /\ fst (list_by_phase "ATRASADO" day store_late_return)
      = LIST_200_OK [order_late_return])
  /\ justificativa_atraso ATRASADO day order_late_return
     = Some "Cliente ainda não devolveu".
Proof.
  assert (Hl : fst (list_by_phase "ATRASADO" day store_late_return)
               = LIST_200_OK [order_late_return])
    by (vm_compute; reflexivity).
  split; [split; [reflexivity|split; [reflexivity|exact Hl]]|].
  pose proof (listed_late_orders_are_justified "ATRASADO" day
                store_late_return ATRASADO [order_late_return]
                eq_refl eq_refl Hl) as H.
  inversion H as [|? ? [[A _]|[A _]] _]; subst.
  - exact A.
  - vm_compute in A. discriminate.
Defined.

(** ** The status of an event *)

Lemma length_filter_all {A} (f : A -> bool) (l : list A) :
  List.length (filter f l) = List.length l <-> Forall (fun x => f x = true) l.
Proof.
  induction l as [|x l IH]; cbn [filter List.length].
  - split; [constructor|reflexivity].
  - pose proof (filter_length_le f l) as Hle.
    destruct (f x) eqn:E; cbn [List.length].
    + split.
      * intros H. constructor; [exact E|]. apply IH. lia.
      * intros H. inversion H; subst. f_equal. now apply IH.
    + split; [lia|]. intros H. inversion H; subst. congruence.
Qed.

Lemma length_filter_some {A} (f : A -> bool) (l : list A) :
  Nat.ltb 0 (List.length (filter f l)) = true
  <-> Exists (fun x => f x = true) l.
Proof.
  rewrite Nat.ltb_lt. induction l as [|x l IH]; cbn [filter List.length].
  - split; [lia|]. intros H. inversion H.
  - destruct (f x) eqn:E; cbn [List.length].
    + split; [intros _; now left|lia].
    + rewrite IH. split; [now right|].
      intros H. inversion H; subst; [congruence|assumption].
Qed.

Lemma andamento_not_finalizado (o : ServiceOrder) :
  phase_name_in em_andamento o = true -> phase_name_is "FINALIZADO" o = false.
Proof.
  unfold phase_name_in, phase_name_is.
  destruct (service_order_phase o) as [ph|]; [|reflexivity].
  intros H. apply mem_str_in in H. simpl in H.
  destruct H as [H|[H|[H|[H|[]]]]]; rewrite <- H; reflexivity.
Qed.

(** X13.
    The status of an event is one of five texts.  It is ["N/A"] exactly
    when the event has no date, ["AGENDADO"] exactly when its date is today
    or later.  For an event whose date has passed it is ["FINALIZADO"]
    exactly when the event has orders and all of them are finalised,
    ["POSSUI PENDÊNCIAS"] exactly when one of its orders is in [PENDENTE],
    [EM_PRODUCAO], [AGUARDANDO_RETIRADA] or [AGUARDANDO_DEVOLUCAO], and
    ["CANCELADO"] in every other case: no order at all, or orders none of
    which is in progress and not all of which are finalised. *)
Theorem event_status_cases (e : Event) (service_orders : list ServiceOrder)
    (today : date) :
  let st := calculate_event_status e service_orders today in
  let past := exists d, event_date e = Some d /\ d < today in
  let all_done :=
    service_orders <> []
    /\ Forall (fun o => phase_name_is "FINALIZADO" o = true) service_orders in
  let some_open :=
    Exists (fun o => phase_name_in em_andamento o = true) service_orders in
  In st ["N/A"; "AGENDADO"; "CANCELADO"; "FINALIZADO"; "POSSUI PENDÊNCIAS"]
  /\ (st = "N/A" <-> event_date e = None)
  /\ (st = "AGENDADO" <-> exists d, event_date e = Some d /\ today <= d)
  /\ (st = "FINALIZADO" <-> past /\ all_done)
  /\ (st = "POSSUI PENDÊNCIAS" <-> past /\ some_open)
  /\ (st = "CANCELADO" <-> past /\ ~ all_done /\ ~ some_open).
Proof.
  cbv zeta. unfold calculate_event_status.
  destruct (event_date e) as [d|].
  2:{ split; [now left|]. split; [tauto|].
      repeat split; try discriminate;
        try (intros [[d [H _]] _]; discriminate);
        intros [d [H _]]; discriminate. }
  destruct (today <=? d) eqn:Ed.
  { apply Z.leb_le in Ed.
    split; [right; now left|]. split; [split; discriminate|].
    split; [split; [intros _; now exists d|reflexivity]|].
    repeat split; try discriminate;
      intros [[d' [H Hlt]] _]; inversion H; subst; lia. }
  apply Z.leb_gt in Ed.
  assert (Hpast : exists d0, Some d = Some d0 /\ d0 < today) by now exists d.
  assert (Hnot : ~ (exists d0, Some d = Some d0 /\ today <= d0))
    by (intros [d0 [H Hle]]; inversion H; subst; lia).
  destruct service_orders as [|o l] eqn:El.
  { cbn [List.length Nat.eqb].
    split; [right; right; now left|]. split; [split; discriminate|].
    split; [split; [discriminate|intros H; now apply Hnot in H]|].
    split; [split; [discriminate|intros [_ [H _]]; now contradiction H]|].
    split; [split; [discriminate|intros [_ H]; inversion H]|].
    split; [intros _|reflexivity].
    split; [exact Hpast|]. split.
    - intros [H _]. now contradiction H.
    - intros H. inversion H. }
  rewrite <- El. assert (Hne : service_orders <> []) by (rewrite El; discriminate).
  assert (E0 : Nat.eqb (List.length service_orders) 0 = false)
    by (rewrite El; reflexivity).
  rewrite E0.
  destruct (Nat.eqb (List.length (filter (phase_name_is "FINALIZADO")
                                    service_orders))
              (List.length service_orders)) eqn:Ef.
  { apply Nat.eqb_eq in Ef. apply length_filter_all in Ef.
    assert (Hopen : ~ Exists (fun o => phase_name_in em_andamento o = true)
                      service_orders).
    { intros H. apply Exists_exists in H. destruct H as [x [Hx Hx']].
      rewrite Forall_forall in Ef. specialize (Ef x Hx).
      apply andamento_not_finalizado in Hx'. congruence. }
    split; [right; right; right; now left|]. split; [split; discriminate|].
    split; [split; [discriminate|intros H; now apply Hnot in H]|].
    split; [split; [intros _|reflexivity]; now repeat split|].
    split; [split; [discriminate|intros [_ H]; contradiction]|].
    split; [discriminate|]. intros [_ [H _]]. exfalso. apply H. now split. }
  assert (Hall : ~ (service_orders <> []
                    /\ Forall (fun o => phase_name_is "FINALIZADO" o = true)
                         service_orders)).
  { intros [_ H]. apply length_filter_all in H. apply Nat.eqb_neq in Ef.
    contradiction. }
  destruct (Nat.ltb 0 (List.length (filter (phase_name_in em_andamento)
                                      service_orders))) eqn:Ea.
  - apply length_filter_some in Ea.
    split; [right; right; right; right; now left|].
    split; [split; discriminate|].
    split; [split; [discriminate|intros H; now apply Hnot in H]|].
    split; [split; [discriminate|intros [_ H]; contradiction]|].
    split; [split; [intros _; now split|reflexivity]|].
    split; [discriminate|]. intros [_ [_ H]]. contradiction.
  - assert (Hopen : ~ Exists (fun o => phase_name_in em_andamento o = true)
                      service_orders).
    { intros H. apply length_filter_some in H. congruence. }
    split; [right; right; now left|]. split; [split; discriminate|].
    split; [split; [discriminate|intros H; now apply Hnot in H]|].
    split; [split; [discriminate|intros [_ H]; contradiction]|].
    split; [split; [discriminate|intros [_ H]; contradiction]|].
    split; [intros _|reflexivity]. now repeat split.
Qed.

Lemma event_status_past (e : Event) (service_orders : list ServiceOrder)
    (today : date) :
  let st := calculate_event_status e service_orders today in
  st = "FINALIZADO" \/ st = "POSSUI PENDÊNCIAS" ->
  (exists d, event_date e = Some d /\ d < today)
  /\ (st = "FINALIZADO" ->
      Forall (fun o => phase_name_is "FINALIZADO" o = true) service_orders)
  /\ (st = "POSSUI PENDÊNCIAS" ->
      Exists (fun o => phase_name_in em_andamento o = true) service_orders).
Proof.
  cbv zeta. unfold calculate_event_status.
  destruct (event_date e) as [d|]; [|intros [H|H]; discriminate].
  destruct (today <=? d) eqn:Ed; [intros [H|H]; discriminate|].
  apply Z.leb_gt in Ed.
  destruct (Nat.eqb (List.length service_orders) 0);
    [intros [H|H]; discriminate|].
  destruct (Nat.eqb _ (List.length service_orders)) eqn:Ef.
  - intros _. split; [now exists d|]. split; [|discriminate].
    intros _. apply length_filter_all. now apply Nat.eqb_eq.
  - destruct (Nat.ltb 0 _) eqn:Ea; [|intros [H|H]; discriminate].
    intros _. split; [now exists d|]. split; [discriminate|].
    intros _. now apply length_filter_some.
Qed.

Lemma list_by_phase_rows (phase_name : string) (today : date) (s : Store)
    (rp : ServiceOrderPhase) (o' : ServiceOrder) :
  first (phases_named "RECUSADA" (phases s)) = Some rp ->
  In o' (orders (snd (list_by_phase phase_name today s))) ->
  overdue today o' = false
  /\ exists o, In o (orders s) /\ event o' = event o.
Proof.
  intros F. unfold list_by_phase.
  set (s1 := move_to_refused_if_event_passed today s).
  assert (H1 : forall o1, In o1 (orders s1) ->
                 overdue today o1 = false
                 /\ exists o, In o (orders s) /\ event o1 = event o).
  { intros o1 Hin.
    split; [now apply (sweep_leaves_none_overdue today s rp)|].
    unfold s1, move_to_refused_if_event_passed in Hin. rewrite F in Hin.
    cbn [orders with_orders] in Hin. apply in_map_iff in Hin.
    destruct Hin as [o [E Ho]]. exists o. split; [exact Ho|].
    subst o1. destruct (overdue today o); [|reflexivity].
    now destruct (refuse_overdue_columns rp o) as [_ [_ ->]]. }
  destruct (first (filter (fun p => icontains (name p) phase_name)
                     (phases s1))) as [phase|]; [|apply H1].
  destruct (String.eqb (name phase) "ATRASADO"); [apply H1|].
  destruct (String.eqb (name phase) "AGUARDANDO_RETIRADA"); [|apply H1].
  cbn [snd orders with_orders]. intros Hin. apply in_map_iff in Hin.
  destruct Hin as [o1 [E Ho1]]. destruct (H1 o1 Ho1) as [Ov [o [Ho Ev]]].
  subst o'. destruct (in_phase_q phase o1); [|split; [exact Ov|now exists o]].
  rewrite update_flag_overdue. split; [exact Ov|]. exists o. split; [exact Ho|].
  now destruct (update_flag_columns today o1) as [_ [_ [-> _]]].
Qed.

Lemma not_overdue_retrieved (today : date) (o : ServiceOrder) :
  overdue today o = false ->
  event_date_lt today o = true ->
  phase_name_in sweep_phases o = true ->
  data_retirado o <> None.
Proof.
  unfold overdue. intros Ov Hlt Hph. rewrite Hlt, Hph in Ov.
  assert (He : is_some (event o) = true).
  { unfold event_date_lt in Hlt. now destruct (event o). }
  assert (Hr : phase_name_is "RECUSADA" o = false).
  { unfold phase_name_in in Hph. unfold phase_name_is.
    destruct (service_order_phase o) as [ph|]; [|reflexivity].
    now apply sweep_phases_not_recusada. }
  rewrite He, Hr in Ov. cbn in Ov. rewrite !andb_true_r in Ov.
  destruct (data_retirado o); [discriminate|discriminate].
Qed.

(** X14.
    In a registry with a [RECUSADA] row, and with every order's joined
    event carrying the date of the event row, the status of a past event
    computed after any phase listing of the day tells of retrievals: it is
    ["POSSUI PENDÊNCIAS"] only if one of the event's orders is in progress
    and was retrieved, and ["FINALIZADO"] only if every one of its orders
    was retrieved; the orders never retrieved have been moved to
    [RECUSADA] by the listing's sweep. *)
Theorem past_event_status_after_listing (e : Event) (phase_name : string)
    (today : date) (s : Store) (rp : ServiceOrderPhase) :
  first (phases_named "RECUSADA" (phases s)) = Some rp ->
  (forall o e', In o (orders s) -> event o = Some e' ->
                event_id e' = event_id e -> event_date e' = event_date e) ->
  let s' := snd (list_by_phase phase_name today s) in
  let st := calculate_event_status e (event_service_orders e s') today in
  (st = "POSSUI PENDÊNCIAS" ->
   Exists (fun o => phase_name_in em_andamento o = true
                    /\ data_retirado o <> None)
     (event_service_orders e s'))
  /\ (st = "FINALIZADO" ->
      Forall (fun o => phase_name_is "FINALIZADO" o = true
                       /\ data_retirado o <> None)
        (event_service_orders e s')).
Proof.
  intros F Hjoin s' st.
  assert (Hrow : forall o' d,
             event_date e = Some d -> d < today ->
             In o' (event_service_orders e s') ->
             phase_name_in sweep_phases o' = true ->
             data_retirado o' <> None).
  { intros o' d Hd Hlt Hin Hph. unfold event_service_orders in Hin.
    apply filter_In in Hin. destruct Hin as [Hin He].
    destruct (list_by_phase_rows phase_name today s rp o' F Hin)
      as [Ov [o [Ho Ev]]].
    apply (not_overdue_retrieved today); [exact Ov| |exact Hph].
    unfold event_date_lt. destruct (event o') as [e'|] eqn:E'; [|discriminate].
    apply Z.eqb_eq in He.
    rewrite (Hjoin o e' Ho (eq_sym Ev) He), Hd. now apply Z.ltb_lt. }
  split; intros Hst.
  - destruct (event_status_past e (event_service_orders e s') today
                (or_intror Hst)) as [[d [Hd Hlt]] [_ H]].
    specialize (H Hst). apply Exists_exists in H. destruct H as [o' [Hin Hph]].
    apply Exists_exists. exists o'. split; [exact Hin|]. split; [exact Hph|].
    apply (Hrow o' d Hd Hlt Hin).
    unfold phase_name_in in *. destruct (service_order_phase o'); [|discriminate].
    apply mem_str_in in Hph. apply mem_str_in. simpl in *. tauto.
  - destruct (event_status_past e (event_service_orders e s') today
                (or_introl Hst)) as [[d [Hd Hlt]] [H _]].
    specialize (H Hst). rewrite Forall_forall in *. intros o' Hin.
    split; [now apply H|].
    apply (Hrow o' d Hd Hlt Hin). specialize (H o' Hin).
    unfold phase_name_in, phase_name_is in *.
    destruct (service_order_phase o'); [|discriminate].
    apply String.eqb_eq in H. rewrite H. reflexivity.
Qed.

(** X14 at a sample.
    Two days after the samples' today the event of day 101 has passed; its
    one order was retrieved and is still to be returned, so the event has
    pending matters. *)
Lemma past_event_status_after_listing_witness :
  (first (phases_named "RECUSADA" (phases store_late_return)) = Some RECUSADA
   /\ forall o e', In o (orders store_late_return) -> event o = Some e' ->
                   event_id e' = 2 ->
                   event_date e' = Some 101)
  /\ (let s' := snd (list_by_phase "FINALIZADO" 102 store_late_return) in
      let e := {| event_id := 2; event_date := Some 101 |} in
      calculate_event_status e (event_service_orders e s') 102
      = "POSSUI PENDÊNCIAS"
      /\ Exists (fun o => phase_name_in em_andamento o = true
                          /\ data_retirado o <> None)
           (event_service_orders e s')).
Proof.
  assert (Hjoin : forall o e', In o (orders store_late_return) ->
                               event o = Some e' ->
                               event_id e' = 2 -> event_date e' = Some 101).
  { intros o e' [<-|[]] He _. inversion He. reflexivity. }
  split; [split; [reflexivity|exact Hjoin]|].
  cbv zeta.
  assert (Hst : calculate_event_status
                  {| event_id := 2; event_date := Some 101 |}
                  (event_service_orders
                     {| event_id := 2; event_date := Some 101 |}
                     (snd (list_by_phase "FINALIZADO" 102 store_late_return)))
                  102
                = "POSSUI PENDÊNCIAS") by (vm_compute; reflexivity).
  split; [exact Hst|].
  exact (proj1 (past_event_status_after_listing
                  {| event_id := 2; event_date := Some 101 |} "FINALIZADO"
                  102 store_late_return RECUSADA eq_refl Hjoin) Hst).
Defined.

(** ** Pagination *)

Lemma chunks {A} (n : nat) (l : list A) (m : nat) :
  (List.length l <= m * n)%nat ->
  List.concat (map (fun k => firstn n (skipn (k * n) l)) (seq 0 m)) = l.
Proof.
  revert l. induction m as [|m IH]; intros l Hlen.
  - destruct l; [reflexivity|simpl in Hlen; lia].
  - change (seq 0 (S m)) with (0%nat :: seq 1 m). cbn [map List.concat].
    rewrite <- seq_shift, map_map. change (0 * n)%nat with 0%nat.
    cbn [skipn].
    rewrite (map_ext _ (fun k => firstn n (skipn (k * n) (skipn n l)))).
    + rewrite IH; [apply firstn_skipn|]. rewrite length_skipn. lia.
    + intros k. rewrite skipn_skipn. do 2 f_equal. lia.
Qed.

Lemma page_size_of_pos (raw : option Z) : 1 <= page_size_of raw.
Proof.
  unfold page_size_of. destruct raw as [n|]; cbv zeta.
  - destruct (n <=? 0) eqn:E; [lia|]. apply Z.leb_gt in E. lia.
  - cbn. lia.
Qed.

Lemma page_of_pos (raw : option Z) : 1 <= page_of raw.
Proof.
  unfold page_of. destruct raw as [n|]; cbv zeta.
  - destruct (n <=? 0) eqn:E; [lia|]. apply Z.leb_gt in E. lia.
  - cbn. lia.
Qed.

Lemma slice_page {A} (l : list A) (q n : Z) :
  1 <= q -> 1 <= n ->
  slice l ((q - 1) * n) ((q - 1) * n + n)
  = firstn (Z.to_nat n) (skipn (Z.to_nat (q - 1) * Z.to_nat n) l).
Proof.
  intros Hq Hn. unfold slice. f_equal; [f_equal; lia|].
  f_equal. rewrite <- Z2Nat.inj_mul by lia. reflexivity.
Qed.

Lemma page_of_nat (j : nat) : page_of (Some (Z.of_nat (S j))) = Z.of_nat (S j).
Proof.
  unfold page_of. cbv zeta.
  destruct (Z.of_nat (S j) <=? 0) eqn:E; [|reflexivity].
  apply Z.leb_le in E. lia.
Qed.

(** X15.
    The pages of a list.  Page number and page size are at least 1
    whatever the parameters read as (a missing, unreadable, zero or
    negative value gives 1, and 50 for the size).  [total_pages] is the
    least number of pages of that size that hold the list.  A page never
    has more entries than the page size; it is empty exactly when its
    number is beyond [total_pages]; and the pages 1 to [total_pages], one
    after the other, are the list: no entry is lost and none is given
    twice. *)
Theorem paginate_partitions {A} (raw_page raw_page_size : option Z)
    (result_data : list A) :
  let pg := paginate raw_page raw_page_size result_data in
  1 <= page pg /\ 1 <= page_size pg
  /\ count pg = Z.of_nat (List.length result_data)
  /\ (total_pages pg - 1) * page_size pg < count pg
     <= total_pages pg * page_size pg
  /\ (List.length (page_items pg) <= Z.to_nat (page_size pg))%nat
  /\ (page_items pg = [] <-> total_pages pg < page pg)
  /\ List.concat
       (map (fun k =>
               page_items
                 (paginate (Some (Z.of_nat k)) raw_page_size result_data))
          (seq 1 (Z.to_nat (total_pages pg))))
     = result_data.
Proof.
  cbv zeta. unfold paginate. cbv zeta.
  cbn [count page page_size total_pages page_items].
  pose proof (page_size_of_pos raw_page_size) as Hn.
  pose proof (page_of_pos raw_page) as Hp.
  set (n := page_size_of raw_page_size) in *.
  set (p := page_of raw_page) in *.
  set (len := Z.of_nat (List.length result_data)).
  assert (Hlen : 0 <= len) by (unfold len; lia).
  assert (E : (0 <? n) = true) by (apply Z.ltb_lt; lia). rewrite E.
  set (tp := (len + n - 1) / n).
  pose proof (Z.div_mod (len + n - 1) n ltac:(lia)) as Hdm.
  pose proof (Z.mod_pos_bound (len + n - 1) n ltac:(lia)) as Hmod.
  fold tp in Hdm.
  assert (T1 : len <= tp * n) by nia.
  assert (T2 : (tp - 1) * n < len) by nia.
  assert (T0 : 0 <= tp) by nia.
  split; [exact Hp|]. split; [exact Hn|]. split; [reflexivity|].
  split; [now split|]. split.
  { rewrite (slice_page _ p n Hp Hn), length_firstn. lia. }
  split.
  { rewrite (slice_page _ p n Hp Hn).
    assert (Hl : List.length
                   (firstn (Z.to_nat n)
                      (skipn (Z.to_nat (p - 1) * Z.to_nat n) result_data))
                 = Nat.min (Z.to_nat n)
                     (List.length result_data
                      - Z.to_nat (p - 1) * Z.to_nat n))
      by (now rewrite length_firstn, length_skipn).
    split.
    - intros H. rewrite H in Hl. cbn [List.length] in Hl.
      assert (Hge : (List.length result_data
                     <= Z.to_nat (p - 1) * Z.to_nat n)%nat) by lia.
      assert (Hz : len <= (p - 1) * n).
      { unfold len. rewrite <- (Z2Nat.id ((p - 1) * n)) by nia.
        rewrite Z2Nat.inj_mul by lia. lia. }
      nia.
    - intros H.
      assert (Hz : len <= (p - 1) * n) by nia.
      assert (Hge : (List.length result_data
                     <= Z.to_nat (p - 1) * Z.to_nat n)%nat).
      { rewrite <- Z2Nat.inj_mul by lia. unfold len in Hz. lia. }
      destruct (firstn _ _); [reflexivity|]. cbn [List.length] in Hl. lia. }
  rewrite <- seq_shift, map_map.
  etransitivity; [|apply (chunks (Z.to_nat n) result_data (Z.to_nat tp))].
  - f_equal. apply map_ext. intros j. rewrite page_of_nat.
    rewrite (slice_page _ (Z.of_nat (S j)) n ltac:(lia) Hn).
    do 3 f_equal. lia.
  - rewrite <- Z2Nat.inj_mul by lia. unfold len in T1. lia.
Qed.

(** ** Virtual orders *)

Lemma write_order_fresh (o : ServiceOrder) (tbl : list ServiceOrder) :
  ~ In (order_id o) (map order_id tbl) -> write_order o tbl = tbl ++ [o].
Proof.
  intros H. unfold write_order.
  destruct (existsb (fun r => order_id r =? order_id o) tbl) eqn:E;
    [|reflexivity].
  exfalso. apply H. apply existsb_exists in E. destruct E as [r [Hr E]].
  apply Z.eqb_eq in E. rewrite <- E. now apply in_map.
Qed.

Lemma virtual_payments_sum (d : VirtualServiceOrderCreateData)
    (now : datetime) :
  let '(payment_details, advance_payment, payment_methods) :=
    virtual_payments d now in
  advance_payment = amount_of (vc_sinal d) + amount_of (vc_restante d)
  /\ fold_right Z.add 0 (map amount payment_details) = advance_payment
  /\ List.length payment_details
     = ((if is_some (vc_sinal d) then 1 else 0)
        + (if is_some (vc_restante d) then 1 else 0))%nat.
Proof.
  unfold virtual_payments, amount_of.
  destruct (vc_sinal d) as [p|], (vc_restante d) as [q|]; cbn;
    repeat split; lia.
Qed.


Lemma virtual_create_row (u : User) (d : VirtualServiceOrderCreateData)
    (now : datetime) (today : date) (s : Store) (pk : Z) :
  fst (virtual_create u d now today s) = HTTP_201_CREATED pk ->
  exists o,
    get_order (snd (virtual_create u d now today s)) pk = Some o
    /\ phases (snd (virtual_create u d now today s)) = phases s
    /\ service_order_phase o = None
    /\ employee o = None.
Proof.
  unfold virtual_create.
  destruct (match renter_id d with
            | Some rid => _
            | None => _
            end) as [renter_pk|]; [|discriminate].
  set (o1 := virtual_order (fresh_id (map order_id (orders s))) renter_pk d
               now today).
  assert (Ho1 : order_id o1 = fresh_id (map order_id (orders s))
                /\ service_order_phase o1 = None /\ employee o1 = None).
  { unfold o1, virtual_order.
    destruct (virtual_payments d now) as [[pd ap] pm]. now repeat split. }
  destruct Ho1 as [A [B C]].
  change (save o1 s)
    with (recompute_remaining o1,
          with_orders (write_order (recompute_remaining o1) (orders s)) s).
  cbn [fst snd]. rewrite recompute_remaining_id, A.
  intros H. inversion H; subst pk. exists (recompute_remaining o1).
  split.
  - rewrite <- A. change (with_orders _ s) with (snd (save o1 s)).
    apply get_order_save.
  - split; [reflexivity|].
    split; [rewrite <- B|rewrite <- C]; now recompute_cases o1.
Qed.

Lemma excluded_has_recusada (s : Store) (rp : ServiceOrderPhase) :
  In rp (phases s) -> name rp = "RECUSADA" ->
  mem_str "RECUSADA" (EXCLUDED_PHASES s) = true.
Proof.
  intros Hin Hn. unfold EXCLUDED_PHASES.
  assert (H : In "RECUSADA"
                (map name
                   (filter (fun p => mem_str (name p) CANDIDATE_EXCLUDED)
                      (phases s)))).
  { rewrite <- Hn. apply in_map. apply filter_In. split; [exact Hin|].
    rewrite Hn. reflexivity. }
  destruct (map name _) as [|x l]; [contradiction|].
  now apply mem_str_in.
Qed.



(** ** The finance summary *)

Lemma fold_left_add {A} (f : A -> Z) (l : list A) (acc : Z) :
  fold_left (fun total t => total + f t) l acc
  = acc + fold_right Z.add 0 (map f l).
Proof.
  revert acc. induction l as [|x l IH]; intros acc; cbn; [lia|].
  rewrite IH. lia.
Qed.

Lemma add_total_sum (key : string) (amt : Decimal)
    (totals : list (string * Decimal)) :
  fold_right Z.add 0 (map snd (add_total key amt totals))
  = fold_right Z.add 0 (map snd totals) + amt.
Proof.
  induction totals as [|[k v] t IH]; cbn; [lia|].
  destruct (String.eqb k key); cbn; lia.
Qed.

Lemma add_total_keys (key : string) (amt : Decimal)
    (totals : list (string * Decimal)) :
  NoDup (map fst totals) ->
  NoDup (map fst (add_total key amt totals))
  /\ forall k, In k (map fst (add_total key amt totals))
               <-> k = key \/ In k (map fst totals).
Proof.
  induction totals as [|[k v] t IH]; intros Hnd.
  - cbn. split; [constructor; [intros []|constructor]|].
    intros k. split; [intros [H|[]]; now left|intros [H|[]]; now left].
  - cbn [add_total]. destruct (String.eqb k key) eqn:E.
    + apply String.eqb_eq in E. subst key. cbn [map fst] in *.
      split; [exact Hnd|]. intros k'. cbn [In]. split; [auto|].
      intros [H|H]; [left; now subst|exact H].
    + cbn [map fst] in *. inversion Hnd as [|? ? Hk Ht]; subst.
      destruct (IH Ht) as [IH1 IH2]. split.
      * constructor; [|exact IH1]. intros H. apply IH2 in H.
        destruct H as [H|H]; [|contradiction].
        apply String.eqb_neq in E. congruence.
      * intros k'. cbn [In]. rewrite IH2. tauto.
Qed.

Lemma add_total_positive (key : string) (amt : Decimal)
    (totals : list (string * Decimal)) :
  0 < amt -> key <> EmptyString ->
  Forall (fun kv => fst kv <> EmptyString /\ 0 < snd kv) totals ->
  Forall (fun kv => fst kv <> EmptyString /\ 0 < snd kv)
    (add_total key amt totals).
Proof.
  intros Ha Hk. induction totals as [|[k v] t IH]; intros H.
  - constructor; [cbn; split; [exact Hk|lia]|constructor].
  - inversion H as [|? ? [H1 H2] Ht]; subst. cbn [add_total fst snd] in *.
    destruct (String.eqb k key).
    + constructor; [cbn; split; [exact H1|lia]|exact Ht].
    + constructor; [now split|now apply IH].
Qed.

Lemma totals_key_nonempty (t : Transaction) : totals_key t <> EmptyString.
Proof. unfold totals_key. destruct (tx_payment_method t); discriminate. Qed.

Lemma totals_by_method_spec (transactions : list Transaction) :
  Forall (fun t => 0 < tx_amount t) transactions ->
  fold_right Z.add 0 (map snd (totals_by_method transactions))
  = sum_of_transactions transactions
  /\ NoDup (map fst (totals_by_method transactions))
  /\ Forall (fun kv => fst kv <> EmptyString /\ 0 < snd kv)
       (totals_by_method transactions)
  /\ forall k, In k (map fst (totals_by_method transactions))
               <-> In k (map totals_key transactions).
Proof.
  unfold totals_by_method, sum_of_transactions.
  assert (G : forall (l : list Transaction) (acc : list (string * Decimal)),
             Forall (fun t => 0 < tx_amount t) l ->
             NoDup (map fst acc) ->
             Forall (fun kv => fst kv <> EmptyString /\ 0 < snd kv) acc ->
             let r := fold_left
                        (fun totals t =>
                           add_total (totals_key t) (tx_amount t) totals)
                        l acc in
             fold_right Z.add 0 (map snd r)
             = fold_right Z.add 0 (map snd acc)
               + fold_right Z.add 0 (map tx_amount l)
             /\ NoDup (map fst r)
             /\ Forall (fun kv => fst kv <> EmptyString /\ 0 < snd kv) r
             /\ forall k, In k (map fst r)
                          <-> In k (map fst acc) \/ In k (map totals_key l)).
  { induction l as [|t l IH]; intros acc Hpos Hnd Hacc; cbn [fold_left].
    - cbv zeta. cbn [map fold_right In].
      split; [lia|]. split; [exact Hnd|]. split; [exact Hacc|].
      intros k. tauto.
    - inversion Hpos as [|? ? Ht Hl]; subst.
      destruct (add_total_keys (totals_key t) (tx_amount t) acc Hnd)
        as [K1 K2].
      pose proof (add_total_positive (totals_key t) (tx_amount t) acc Ht
                    (totals_key_nonempty t) Hacc) as K3.
      destruct (IH _ Hl K1 K3) as [A [B [C D]]]. cbv zeta in *.
      split; [rewrite A, add_total_sum; cbn [map fold_right]; lia|].
      split; [exact B|]. split; [exact C|].
      intros k. rewrite D, K2. cbn [map In]. split.
      + intros [[H|H]|H]; auto.
      + intros [H|[H|H]]; auto. }
  intros Hpos. destruct (G transactions [] Hpos) as [A [B [C D]]];
    [constructor|constructor|].
  cbv zeta in *. split; [rewrite A; cbn [map fold_right]; lia|].
  split; [exact B|].
  split; [exact C|]. intros k. rewrite D. cbn [map In]. tauto.
Qed.

Ltac case_if E :=
  match goal with
  | |- context [if ?c then _ else _] => destruct c eqn:E
  end.

Lemma order_transactions_spec (excluded : list string) (o : ServiceOrder)
    (t : Transaction) :
  In t (order_transactions excluded o) ->
  phase_name_in excluded o = false
  /\ tx_order_id t = order_id o
  /\ tx_is_virtual t = is_virtual o
  /\ 0 < tx_amount t.
Proof.
  unfold order_transactions.
  destruct (phase_name_in excluded o); [intros H; cbn in H; contradiction|].
  cbv zeta. intros H. split; [reflexivity|]. apply in_app_or in H.
  destruct H as [H|H]; revert H.
  - case_if Ea; [|intros H; cbn in H; contradiction].
    apply Z.ltb_lt in Ea.
    destruct (payment_details o) as [[|pag rest]|]; intros H.
    + destruct H as [<-|[]]. now repeat split.
    + apply in_flat_map in H. destruct H as [p [_ Hp]]. revert Hp.
      case_if Ep; [|intros H; cbn in H; contradiction].
      apply Z.ltb_lt in Ep. intros [<-|[]]. now repeat split.
    + destruct H as [<-|[]]. now repeat split.
  - destruct (phase_name_is "FINALIZADO" o);
      [|intros H; cbn in H; contradiction].
    case_if Er; [|intros H; cbn in H; contradiction].
    apply Z.ltb_lt in Er. intros [<-|[]]. now repeat split.
Qed.

Lemma finance_transactions_spec (start_date end_date : option date)
    (s : Store) (t : Transaction) :
  In t (finance_transactions start_date end_date s) ->
  exists o,
    In o (orders s)
    /\ phase_name_in (EXCLUDED_PHASES s) o = false
    /\ tx_order_id t = order_id o
    /\ tx_is_virtual t = is_virtual o
    /\ 0 < tx_amount t
    /\ (forall d, start_date = Some d -> d <= order_date o)
    /\ (forall d, end_date = Some d -> order_date o <= d).
Proof.
  unfold finance_transactions. cbv zeta. intros H.
  apply in_flat_map in H. destruct H as [o [Ho Ht]].
  apply order_transactions_spec in Ht. destruct Ht as [A [B [C D]]].
  exists o.
  assert (E : In o (orders s)
              /\ (forall d, start_date = Some d -> d <= order_date o)
              /\ (forall d, end_date = Some d -> order_date o <= d)).
  { destruct end_date as [e|], start_date as [b|];
      repeat match goal with
             | H : In _ (filter _ _) |- _ =>
                 apply filter_In in H; destruct H as [H ?]
             end;
      repeat split; auto; intros d' Hd'; inversion Hd'; subst;
      try (now apply Z.leb_le); discriminate. }
  destruct E as [E1 [E2 E3]]. now repeat split.
Qed.

(** X18.
    The books of the finance summary close.  [total_amount] is the sum of
    all the transactions, and so is the sum of the totals by method; every
    method has one total, under a name that is not empty (a missing method
    is booked under the fixed name), and every total and every transaction
    is positive.  Each transaction belongs to an order of the store that
    lies in the asked span of order dates and is not in an excluded phase:
    a refused order shows no payment; a virtual order shows its payments,
    marked as virtual.  The number of transactions is the count of the
    page. *)
Theorem finance_summary_totals (start_date end_date : option date)
    (raw_page raw_page_size : option Z) (s : Store) :
  let f := finance_summary start_date end_date raw_page raw_page_size s in
  let transactions := finance_transactions start_date end_date s in
  total_amount f = sum_of_transactions transactions
  /\ fold_right Z.add 0 (map snd (summary_totals_by_method f))
     = total_amount f
  /\ NoDup (map fst (summary_totals_by_method f))
  /\ Forall (fun kv => fst kv <> EmptyString /\ 0 < snd kv)
       (summary_totals_by_method f)
  /\ total_transactions f = count (summary_page f)
  /\ Forall
       (fun t =>
          0 < tx_amount t
          /\ exists o,
               In o (orders s)
               /\ tx_order_id t = order_id o
               /\ tx_is_virtual t = is_virtual o
               /\ phase_name_in (EXCLUDED_PHASES s) o = false
               /\ (forall d, start_date = Some d -> d <= order_date o)
               /\ (forall d, end_date = Some d -> order_date o <= d))
       transactions.
Proof.
  cbv zeta. unfold finance_summary. cbv zeta.
  cbn [total_amount summary_totals_by_method total_transactions summary_page].
  set (txs := finance_transactions start_date end_date s).
  assert (Hall : Forall
                   (fun t =>
                      0 < tx_amount t
                      /\ exists o,
                           In o (orders s)
                           /\ tx_order_id t = order_id o
                           /\ tx_is_virtual t = is_virtual o
                           /\ phase_name_in (EXCLUDED_PHASES s) o = false
                           /\ (forall d, start_date = Some d ->
                                         d <= order_date o)
                           /\ (forall d, end_date = Some d ->
                                         order_date o <= d))
                   txs).
  { apply Forall_forall. intros t Ht.
    destruct (finance_transactions_spec _ _ _ _ Ht)
      as [o [A [B [C [D [E [F G]]]]]]].
    split; [exact E|]. exists o. now repeat split. }
  assert (Hpos : Forall (fun t => 0 < tx_amount t) txs).
  { rewrite Forall_forall in *. intros t Ht. exact (proj1 (Hall t Ht)). }
  destruct (totals_by_method_spec txs Hpos) as [A [B [C _]]].
  assert (T : fold_left (fun total t => total + tx_amount t) txs 0
              = sum_of_transactions txs)
    by (rewrite fold_left_add; unfold sum_of_transactions; apply Z.add_0_l).
  split; [exact T|]. split; [now rewrite T|]. split; [exact B|].
  split; [exact C|]. split; [reflexivity|exact Hall].
Qed.

Lemma excluded_names (s : Store) (n : string) :
  In n (EXCLUDED_PHASES s) -> In n CANDIDATE_EXCLUDED.
Proof.
  unfold EXCLUDED_PHASES.
  destruct (map name (filter (fun p => mem_str (name p) CANDIDATE_EXCLUDED)
                        (phases s))) as [|x l] eqn:E.
  - intros [<-|[]]. now left.
  - rewrite <- E. intros H. apply in_map_iff in H.
    destruct H as [p [<- Hp]]. apply filter_In in Hp.
    destruct Hp as [_ Hp]. now apply mem_str_in.
Qed.

Lemma finalizado_not_excluded (s : Store) (o : ServiceOrder) :
  phase_name_is "FINALIZADO" o = true ->
  phase_name_in (EXCLUDED_PHASES s) o = false.
Proof.
  unfold phase_name_is, phase_name_in.
  destruct (service_order_phase o) as [ph|]; [|discriminate].
  intros H. apply String.eqb_eq in H. rewrite H.
  destruct (mem_str "FINALIZADO" (EXCLUDED_PHASES s)) eqn:E; [|reflexivity].
  apply mem_str_in in E. apply excluded_names in E. simpl in E.
  destruct E as [E|[E|[E|[E|[]]]]]; discriminate.
Qed.

Lemma saved_remaining (o : ServiceOrder) (t a : Decimal) :
  saved o -> total_value o = Some t -> advance_payment o = Some a ->
  remaining_payment o = Some (t - a).
Proof.
  unfold saved. intros Hs Ht Ha.
  destruct (recompute_remaining_fields o) as [_ [_ R]].
  rewrite Hs, Ht, Ha in R. exact R.
Qed.

Lemma positive_entries (o : ServiceOrder) (l : list PaymentDetail) :
  Forall (fun p => 0 < amount p) l ->
  sum_of_transactions
    (flat_map
       (fun pag =>
          if 0 <? amount pag then
            [{| tx_order_id := order_id o;
                transaction_type := tipo pag;
                tx_amount := amount pag;
                tx_payment_method := forma_pagamento pag;
                tx_date := EntryDate (data pag);
                tx_is_virtual := is_virtual o |}]
          else [])
       l)
  = fold_right Z.add 0 (map amount l).
Proof.
  unfold sum_of_transactions.
  induction l as [|p l IH]; intros H; [reflexivity|].
  inversion H as [|? ? Hp Hl]; subst. cbn [flat_map].
  apply Z.ltb_lt in Hp. rewrite Hp. cbn [app map fold_right tx_amount].
  now rewrite IH.
Qed.

(** X19.
    What the finance summary shows of one order whose row is as [save]
    leaves it, with a total, with a paid amount between zero and the total,
    and with a ledger that is empty or is balanced and made of positive
    entries.  If the order is finalised, its transactions add up to its
    total value, paid or not: the remainder is booked as received on
    finalisation.  If it is not finalised and not in an excluded phase,
    they add up to what it has paid. *)
Theorem order_transactions_add_up (s : Store) (o : ServiceOrder)
    (t a : Decimal) :
  saved o ->
  total_value o = Some t ->
  advance_payment o = Some a ->
  0 <= a <= t ->
  ledger o = []
  \/ (balanced o /\ Forall (fun p => 0 < amount p) (ledger o)) ->
  let shown :=
    sum_of_transactions (order_transactions (EXCLUDED_PHASES s) o) in
  (phase_name_is "FINALIZADO" o = true -> shown = t)
  /\ (phase_name_is "FINALIZADO" o = false ->
      phase_name_in (EXCLUDED_PHASES s) o = false -> shown = a).
Proof.
  intros Hs Ht Ha Hrange Hledger shown.
  pose proof (saved_remaining o t a Hs Ht Ha) as Hr.
  assert (Hadv : sum_of_transactions
                   (if 0 <? a then
                      match payment_details o with
                      | Some (pag :: rest) =>
                          flat_map
                            (fun pag =>
                               if 0 <? amount pag then
                                 [{| tx_order_id := order_id o;
                                     transaction_type := tipo pag;
                                     tx_amount := amount pag;
                                     tx_payment_method := forma_pagamento pag;
                                     tx_date := EntryDate (data pag);
                                     tx_is_virtual := is_virtual o |}]
                               else [])
                            (pag :: rest)
                      | _ =>
                          [{| tx_order_id := order_id o;
                              transaction_type := "sinal";
                              tx_amount := a;
                              tx_payment_method :=
                                method_or_default (payment_method o);
                              tx_date := OrderDate (order_date o);
                              tx_is_virtual := is_virtual o |}]
                      end
                    else [])
                 = a).
  { destruct (0 <? a) eqn:Ea.
    - unfold balanced, ledger_total, paid, ledger in Hledger.
      rewrite Ha in Hledger.
      destruct (payment_details o) as [[|pag rest]|];
        try (cbn; lia).
      destruct Hledger as [H|[Hb Hp]]; [discriminate|].
      rewrite positive_entries by exact Hp. exact Hb.
    - apply Z.ltb_ge in Ea. cbn. lia. }
  assert (Hsum : forall l1 l2,
             sum_of_transactions (l1 ++ l2)
             = sum_of_transactions l1 + sum_of_transactions l2).
  { intros l1 l2. unfold sum_of_transactions.
    induction l1 as [|x l1 IH]; cbn [app map fold_right]; [lia|].
    rewrite IH. lia. }
  unfold shown, order_transactions. split.
  - intros Hf. rewrite (finalizado_not_excluded s o Hf), Hf, Ha, Hr.
    cbv zeta. rewrite Hsum, Hadv.
    destruct (0 <? t - a) eqn:E.
    + cbn. lia.
    + apply Z.ltb_ge in E. cbn. lia.
  - intros Hf Hx. rewrite Hx, Hf, Ha. cbv zeta.
    rewrite Hsum, Hadv. cbn. lia.
Qed.

(** X19 at a sample.
    The finalised order of 1000.00 with 300.00 in its ledger shows
    1000.00 in the summary. *)
Lemma order_transactions_add_up_witness :
  (saved order_finalised
   /\ total_value order_finalised = Some 100000
   /\ advance_payment order_finalised = Some 30000
   /\ 0 <= 30000 <= 100000
   /\ (ledger order_finalised = []
       \/ (balanced order_finalised
           /\ Forall (fun p => 0 < amount p) (ledger order_finalised))))
  /\ phase_name_is "FINALIZADO" order_finalised = true
  /\ sum_of_transactions
       (order_transactions
          (EXCLUDED_PHASES (store_of seeded_phases [order_finalised]))
          order_finalised)
     = 100000.
Proof.
  assert (Hs : saved order_finalised) by (vm_compute; reflexivity).
  assert (Hl : ledger order_finalised = []
               \/ (balanced order_finalised
                   /\ Forall (fun p => 0 < amount p) (ledger order_finalised))).
  { right. split; [vm_compute; reflexivity|].
    constructor; [cbn; lia|constructor]. }
  split.
  { split; [exact Hs|]. split; [reflexivity|]. split; [reflexivity|].
    split; [lia|exact Hl]. }
  split; [reflexivity|].
  exact (proj1 (order_transactions_add_up
                  (store_of seeded_phases [order_finalised]) order_finalised
                  100000 30000 Hs eq_refl eq_refl ltac:(lia) Hl) eq_refl).
Defined.

(** ** The dashboard's sums *)

Lemma add_if_plus (total : Decimal) (x : option Decimal) :
  add_if total x = total + match x with Some v => v | None => 0 end.
Proof.
  unfold add_if. destruct x as [v|]; [|lia].
  destruct (v =? 0) eqn:E; [apply Z.eqb_eq in E; lia|reflexivity].
Qed.

(** X20.
    Over a query set whose confirmed orders are as [save] leaves them,
    with a total and a paid amount: what the dashboard reports as sold is
    what it reports as received plus what the confirmed orders that are
    not finalised still owe.  On a finalised order the whole total counts
    as received, the remainder included. *)
Theorem sold_is_received_plus_outstanding (queryset : list ServiceOrder) :
  Forall (fun o => saved o /\ total_value o <> None
                   /\ advance_payment o <> None)
    (qs_fechados queryset) ->
  total_vendido queryset = total_recebido queryset + outstanding queryset.
Proof.
  unfold total_vendido, total_recebido, outstanding.
  generalize (qs_fechados queryset) as l.
  assert (G : forall l v r,
             Forall (fun o => saved o /\ total_value o <> None
                              /\ advance_payment o <> None) l ->
             fold_left (fun total order => add_if total (total_value order))
               l v
             = v - r
               + fold_left
                   (fun total order =>
                      let total1 := add_if total (advance_payment order) in
                      if phase_name_is "FINALIZADO" order
                      then add_if total1 (remaining_payment order)
                      else total1)
                   l r
               + fold_right Z.add 0
                   (map (fun o => if phase_name_is "FINALIZADO" o then 0
                                  else match remaining_payment o with
                                       | Some r => r
                                       | None => 0
                                       end) l)).
  { induction l as [|o l IH]; intros v r H; cbn [fold_left map fold_right];
      [unfold Decimal in *; lia|].
    inversion H as [|? ? [Hs [Ht Ha]] Hl]; subst.
    destruct (total_value o) as [t|] eqn:Et; [|contradiction].
    destruct (advance_payment o) as [a|] eqn:Ea; [|contradiction].
    pose proof (saved_remaining o t a Hs Et Ea) as Hr.
    cbv zeta. rewrite Hr.
    destruct (phase_name_is "FINALIZADO" o).
    - rewrite (IH _ (add_if (add_if r (Some a)) (Some (t - a))) Hl).
      rewrite !add_if_plus. unfold Decimal in *. lia.
    - rewrite (IH _ (add_if r (Some a)) Hl).
      rewrite !add_if_plus. unfold Decimal in *. lia. }
  intros l H. rewrite (G l 0 0 H). unfold Decimal in *. lia.
Qed.

(** X20 at a sample.
    Two confirmed orders of 1000.00 and one pending order: the finalised
    one counts as received in full, the one in production has paid nothing
    and owes 1000.00. *)
Lemma sold_is_received_plus_outstanding_witness :
  Forall (fun o => saved o /\ total_value o <> None
                   /\ advance_payment o <> None)
    (qs_fechados [order_finalised; recompute_remaining order_in_production;
                  order_event_yesterday])
  /\ total_vendido [order_finalised; recompute_remaining order_in_production;
                    order_event_yesterday] = 200000
  /\ total_recebido [order_finalised; recompute_remaining order_in_production;
                     order_event_yesterday] = 100000
  /\ outstanding [order_finalised; recompute_remaining order_in_production;
                  order_event_yesterday] = 100000.
Proof.
  assert (H : Forall (fun o => saved o /\ total_value o <> None
                               /\ advance_payment o <> None)
                (qs_fechados [order_finalised;
                              recompute_remaining order_in_production;
                              order_event_yesterday])).
  { change (qs_fechados _)
      with [order_finalised; recompute_remaining order_in_production].
    constructor; [|constructor; [|constructor]];
      (split; [vm_compute; reflexivity|split; discriminate]). }
  split; [exact H|].
  pose proof (sold_is_received_plus_outstanding _ H) as E.
  assert (R : total_recebido [order_finalised;
                              recompute_remaining order_in_production;
                              order_event_yesterday] = 100000)
    by (vm_compute; reflexivity).
  assert (O : outstanding [order_finalised;
                           recompute_remaining order_in_production;
                           order_event_yesterday] = 100000)
    by (vm_compute; reflexivity).
  split; [rewrite E, R, O; reflexivity|]. split; [exact R|exact O].
Defined.

(** ** The CPF of a new employee *)

Lemma digits_all_digits (value : string) : all_digits (digits value) = true.
Proof.
  induction value as [|c r IH]; [reflexivity|]. cbn [digits].
  destruct (isdigit c) eqn:E; [|exact IH]. cbn [all_digits]. now rewrite E.
Qed.

Lemma digits_fixed (value : string) :
  all_digits value = true -> digits value = value.
Proof.
  induction value as [|c r IH]; [reflexivity|]. cbn [all_digits digits].
  intros H. apply andb_true_iff in H. destruct H as [Hc Hr].
  rewrite Hc. f_equal. now apply IH.
Qed.

Lemma mem_str_false (x : string) (l : list string) :
  mem_str x l = false <-> ~ In x l.
Proof.
  split.
  - intros H Hin. apply mem_str_in in Hin. congruence.
  - intros H. destruct (mem_str x l) eqn:E; [|reflexivity].
    apply mem_str_in in E. contradiction.
Qed.



(** ** The ledger at retrieval *)

(** X22.
    A successful mark retrieved keeps the ledger balanced.  Without
    payment it leaves ledger and paid amount as they were.  With payment
    it appends one entry of kind "restante" per payment form, each stamped
    with the current time, and adds exactly the target amount to what the
    order has paid.  In both cases the retrieval stamp is the current
    time. *)
Theorem mark_retrieved_books_payment (u : User) (oid : Z)
    (d : MarkRetrievedData) (now : datetime) (s : Store) (o : ServiceOrder) :
  get_order s oid = Some o ->
  balanced o ->
  fst (mark_retrieved u oid d now s) = HTTP_200_OK ->
  exists o',
    get_order (snd (mark_retrieved u oid d now s)) oid = Some o'
    /\ balanced o'
    /\ data_retirado o' = Some now
    /\ total_value o' = total_value o
    /\ if receive_remaining_payment d
       then paid o' = paid o + target_amount d o
            /\ ledger o'
               = ledger o ++ map (restante_entry now) (supplied_forms d)
       else paid o' = paid o /\ ledger o' = ledger o.
Proof.
  intros Hget Hbal Hok.
  destruct (mark_retrieved_cases u oid d now s o Hget)
    as [[Hf _]|[ad [s1 [o1 [_ [_ [G [Hp Hs]]]]]]]].
  { rewrite Hok in Hf. discriminate. }
  apply get_or_create_orders in G. destruct G as [Go _].
  set (o2 := set_data_retirado (Some now)
               (set_service_order_phase (Some ad) o1)) in *.
  assert (Hid1 : order_id o1 = order_id o).
  { destruct (receive_remaining_payment d);
      [now apply receive_payment_id in Hp|now subst]. }
  assert (Hid : order_id o2 = oid).
  { cbn [o2 order_id set_data_retirado set_service_order_phase].
    rewrite Hid1. now apply get_order_id in Hget. }
  exists (recompute_remaining o2). rewrite Hs.
  split; [exact (proj1 (save_one s s1 oid o2 Go Hid))|].
  assert (F : payment_details (recompute_remaining o2) = payment_details o2
              /\ advance_payment (recompute_remaining o2) = advance_payment o2
              /\ data_retirado (recompute_remaining o2) = data_retirado o2
              /\ total_value (recompute_remaining o2) = total_value o2).
  { destruct (recompute_remaining_fields o2) as [R1 [R2 _]].
    split; [now recompute_cases o2|]. split; [exact R2|].
    split; [now recompute_cases o2|exact R1]. }
  destruct F as [F1 [F2 [F3 F4]]].
  change (payment_details o2) with (payment_details o1) in F1.
  change (advance_payment o2) with (advance_payment o1) in F2.
  change (data_retirado o2) with (Some now) in F3.
  change (total_value o2) with (total_value o1) in F4.
  unfold balanced, ledger_total, ledger, paid in *. rewrite F1, F2, F3, F4.
  assert (Hor : or_dec (advance_payment o) 0
                = match advance_payment o with Some a => a | None => 0 end).
  { unfold or_dec. destruct (advance_payment o) as [v|]; [|reflexivity].
    destruct (v =? 0) eqn:E; [apply Z.eqb_eq in E; lia|reflexivity]. }
  destruct (receive_remaining_payment d).
  - unfold receive_payment, supplied_forms in *.
    destruct (match payment_forms d with Some l => l | None => [] end)
      as [|f forms] eqn:Ef; [discriminate|].
    destruct (total_paid (f :: forms) =? target_amount d o) eqn:E;
      simpl negb in Hp; cbv iota in Hp; [|discriminate].
    apply Z.eqb_eq in E. inversion Hp; subst o1.
    cbn [payment_details advance_payment total_value set_payment_method
         set_payment_details set_advance_payment].
    rewrite Hor, E. unfold Decimal in *.
    assert (Hsum : fold_right Z.add 0
                     (map amount (map (restante_entry now) (f :: forms)))
                   = target_amount d o).
    { rewrite <- E, total_paid_sum. unfold sum_of_amounts.
      rewrite map_map. reflexivity. }
    split; [|split; [reflexivity|split; [reflexivity|now split]]].
    rewrite map_app.
    assert (Happ : forall l1 l2 : list Z,
               fold_right Z.add 0 (l1 ++ l2)
               = fold_right Z.add 0 l1 + fold_right Z.add 0 l2).
    { intros l1 l2. induction l1 as [|x l1 IH]; cbn [app fold_right]; lia. }
    rewrite Happ.
    change (restante_entry now f :: map (restante_entry now) forms)
      with (map (restante_entry now) (f :: forms)).
    unfold Decimal in *. rewrite Hsum, Hbal. reflexivity.
  - subst o1. now repeat split.
Qed.

(** X22 at a sample.
    The order of 1000.00 is retrieved and settled by pix and debit card:
    two entries in the ledger, 1000.00 paid. *)
Lemma mark_retrieved_books_payment_witness :
  (get_order store_in_production 1
   = Some (recompute_remaining order_in_production)
   /\ balanced (recompute_remaining order_in_production)
   /\ fst (mark_retrieved atendente 1 pay_in_full 500 store_in_production)
      = HTTP_200_OK)
  /\ exists o',
       get_order
         (snd (mark_retrieved atendente 1 pay_in_full 500 store_in_production))
         1 = Some o'
       /\ balanced o'
       /\ paid o' = 100000
       /\ List.length (ledger o') = 2%nat.
Proof.
  assert (Hb : balanced (recompute_remaining order_in_production))
    by (vm_compute; reflexivity).
  assert (Hok : fst (mark_retrieved atendente 1 pay_in_full 500
                       store_in_production) = HTTP_200_OK)
    by (vm_compute; reflexivity).
  split; [split; [reflexivity|split; [exact Hb|exact Hok]]|].
  destruct (mark_retrieved_books_payment atendente 1 pay_in_full 500
              store_in_production (recompute_remaining order_in_production)
              eq_refl Hb Hok) as [o' [Hg [B [_ [_ H]]]]].
  cbn [receive_remaining_payment pay_in_full] in H. destruct H as [Hp Hl].
  exists o'. split; [exact Hg|]. split; [exact B|].
  split; [rewrite Hp; vm_compute; reflexivity|].
  rewrite Hl. vm_compute. reflexivity.
Defined.

(** ** The second version of the phase listing *)

Lemma flag_v2_update_flag (today : date) (o : ServiceOrder) :
  flag_v2 today o = update_flag today o.
Proof.
  unfold flag_v2, update_flag, retirada_atrasada, event_date_lt. cbv zeta.
  destruct (retirada_date o) as [d|]; [destruct (d <? today)|];
    (destruct (event o) as [e|];
     [destruct (event_date e) as [d'|]; [destruct (d' <? today)|]|]);
    destruct (is_some (data_retirado o)); destruct (esta_atrasada o);
    reflexivity.
Qed.

(** X23.
    The second version of the phase listing does to the store what the
    first does, sweep and lateness flags alike, and the query set it goes
    on to filter, sort and page is the list of orders the first version
    answers with; it answers 404 for the same phase names. *)
Theorem list_by_phase_v2_agrees (phase_name : string) (today : date)
    (s : Store) :
  snd (orders_qs_v2 phase_name today s)
  = snd (list_by_phase phase_name today s)
  /\ fst (list_by_phase phase_name today s)
     = match fst (orders_qs_v2 phase_name today s) with
       | None => LIST_404_NOT_FOUND "Fase não encontrada"
       | Some orders_qs => respond orders_qs
       end.
Proof.
  unfold orders_qs_v2, list_by_phase. cbv zeta.
  change (move_to_refused_if_event_passed_v2 today s)
    with (move_to_refused_if_event_passed today s).
  set (s1 := move_to_refused_if_event_passed today s).
  destruct (first (filter (fun p => icontains (name p) phase_name)
                     (phases s1))) as [phase|]; [|now split].
  assert (Hq : forall l,
             filter (phase_is (Some phase))
               (filter (fun o => negb (is_virtual o)) l)
             = filter (in_phase_q phase) l).
  { intros l. apply filter_filter. }
  assert (Hmap : map (fun o =>
                        if (negb (is_virtual o) && phase_is (Some phase) o)%bool
                        then flag_v2 today o else o) (orders s1)
                 = map (fun o => if in_phase_q phase o then update_flag today o
                                 else o) (orders s1)).
  { apply map_ext. intros o. unfold in_phase_q.
    now rewrite flag_v2_update_flag. }
  destruct (String.eqb (name phase) "ATRASADO") eqn:Ea.
  - cbn [fst snd]. split; [reflexivity|].
    now rewrite filter_filter.
  - destruct (String.eqb (name phase) "AGUARDANDO_RETIRADA") eqn:Er.
    + assert (Hm : mem_str (name phase)
                     ["AGUARDANDO_DEVOLUCAO"; "EM_PRODUCAO";
                      "AGUARDANDO_RETIRADA"] = true).
      { apply mem_str_in. apply String.eqb_eq in Er. rewrite Er.
        right. right. now left. }
      rewrite Hm, Hmap, Hq. now split.
    + destruct (mem_str (name phase)
                  ["AGUARDANDO_DEVOLUCAO"; "EM_PRODUCAO";
                   "AGUARDANDO_RETIRADA"]);
        cbn [fst snd]; rewrite Hq; now split.
Qed.

(** ** The agenda of the dashboard *)

Lemma sum_over_le {A} (f g : A -> Z) (l : list A) :
  (forall x, In x l -> f x <= g x) -> sum_over f l <= sum_over g l.
Proof.
  unfold sum_over. induction l as [|x l IH]; intros H; cbn [map fold_right];
    [lia|].
  pose proof (H x (or_introl eq_refl)).
  assert (sum_le : fold_right Z.add 0 (map f l) <= fold_right Z.add 0 (map g l))
    by (apply IH; intros y Hy; apply H; now right).
  lia.
Qed.

Lemma sum_over_add {A} (f g : A -> Z) (l : list A) :
  sum_over (fun x => f x + g x) l = sum_over f l + sum_over g l.
Proof.
  unfold sum_over. induction l as [|x l IH]; cbn [map fold_right]; lia.
Qed.

Lemma sum_over_ext {A} (f g : A -> Z) (l : list A) :
  (forall x, In x l -> f x = g x) -> sum_over f l = sum_over g l.
Proof.
  intros H. apply Z.le_antisymm; apply sum_over_le; intros x Hx;
    rewrite (H x Hx); lia.
Qed.

Lemma sum_over_zero {A} (l : list A) : sum_over (fun _ => 0) l = 0.
Proof.
  unfold sum_over. induction l as [|x l IH]; cbn [map fold_right]; lia.
Qed.

Lemma length_filter_sum {A} (q : A -> bool) (l : list A) :
  Z.of_nat (List.length (filter q l))
  = sum_over (fun x => if q x then 1 else 0) l.
Proof.
  unfold sum_over. induction l as [|x l IH]; cbn [filter map fold_right];
    [reflexivity|].
  destruct (q x); cbn [List.length]; lia.
Qed.

Lemma count_where_sum (q : ServiceOrder -> bool) (s : Store) :
  count_where q s = sum_over (fun o => if q o then 1 else 0) (orders s).
Proof. apply length_filter_sum. Qed.

Lemma phase_keyed_name (s : Store) (o : ServiceOrder) (n : string)
    (p : ServiceOrderPhase) :
  phase_keyed s = true ->
  In o (orders s) ->
  first (phases_named n (phases s)) = Some p ->
  phase_is (Some p) o = true ->
  phase_name_is n o = true.
Proof.
  unfold phase_keyed, phase_is, phase_name_is. intros K Hin F Hp.
  apply first_named in F. destruct F as [Hn Hp'].
  rewrite forallb_forall in K. specialize (K o Hin).
  destruct (service_order_phase o) as [q|]; [|discriminate].
  rewrite forallb_forall in K. specialize (K p Hp').
  rewrite Hp in K. cbn [implb] in K. apply String.eqb_eq in K.
  rewrite K, Hn. apply String.eqb_refl.
Qed.

(** The rows the loop over [atraso_phases] leaves. *)
Lemma of_phases_columns (refused_phase atrasado_phase : option ServiceOrderPhase)
    (c1 c2 c3 : ServiceOrderPhase -> Z) :
  let one (c : ServiceOrderPhase -> Z) (x : option ServiceOrderPhase) :=
    match x with Some p => c p | None => 0 end in
  fold_left
    (fun a phase =>
       {| provas := provas a + c1 phase;
          retiradas := retiradas a + c2 phase;
          devolucoes := devolucoes a + c3 phase |})
    ((match refused_phase with Some p => [p] | None => [] end)
     ++ (match atrasado_phase with Some p => [p] | None => [] end))
    {| provas := 0; retiradas := 0; devolucoes := 0 |}
  = {| provas := one c1 refused_phase + one c1 atrasado_phase;
       retiradas := one c2 refused_phase + one c2 atrasado_phase;
       devolucoes := one c3 refused_phase + one c3 atrasado_phase |}.
Proof.
  destruct refused_phase, atrasado_phase; cbn; f_equal; lia.
Qed.

(** One order, one column of dates: the order counts in at most one of
    the buckets, and only if the date is set. *)
Lemma column_once (today in_10_days : date) (o : ServiceOrder)
    (x : option date) (flag : bool)
    (refused_phase atrasado_phase : option ServiceOrderPhase) :
  (forall p, refused_phase = Some p -> phase_is (Some p) o = true ->
             phase_name_is "RECUSADA" o = true) ->
  (forall p, atrasado_phase = Some p -> phase_is (Some p) o = true ->
             phase_name_is "ATRASADO" o = true) ->
  let of_phase (ph : option ServiceOrderPhase) :=
    match ph with
    | Some p => if (phase_is (Some p) o && is_some x)%bool then 1 else 0
    | None => 0
    end in
  of_phase refused_phase + of_phase atrasado_phase
  + (if (flag && date_lt today x && phase_name_in active_phases o)%bool
     then 1 else 0)
  + (if (date_is today x && phase_name_in active_phases o)%bool then 1 else 0)
  + (if (date_within today in_10_days x && phase_name_in active_phases o)%bool
     then 1 else 0)
  <= if is_some x then 1 else 0.
Proof.
  intros Hr Ha. cbv zeta.
  assert (Er : forall p, refused_phase = Some p ->
                 phase_is (Some p) o = true ->
                 phase_name_in active_phases o = false
                 /\ phase_name_is "ATRASADO" o = false).
  { intros p E H. specialize (Hr p E H).
    unfold phase_name_is, phase_name_in in *.
    destruct (service_order_phase o) as [q|]; [|discriminate].
    apply String.eqb_eq in Hr. rewrite Hr. now split. }
  assert (Ea : forall p, atrasado_phase = Some p ->
                 phase_is (Some p) o = true ->
                 phase_name_in active_phases o = false).
  { intros p E H. specialize (Ha p E H).
    unfold phase_name_is, phase_name_in in *.
    destruct (service_order_phase o) as [q|]; [|discriminate].
    apply String.eqb_eq in Ha. now rewrite Ha. }
  assert (Era : forall p p', refused_phase = Some p ->
                  atrasado_phase = Some p' ->
                  phase_is (Some p) o = true ->
                  phase_is (Some p') o = true -> False).
  { intros p p' E E' H H'. destruct (Er p E H) as [_ N].
    rewrite (Ha p' E' H') in N. discriminate. }
  destruct x as [d|]; cbn [is_some date_lt date_is date_within].
  2:{ destruct refused_phase, atrasado_phase; rewrite ?andb_false_r;
        cbn [andb]; lia. }
  destruct (phase_name_in active_phases o) eqn:Act;
    rewrite ?andb_true_r, ?andb_false_r.
  - destruct refused_phase as [p|], atrasado_phase as [p'|];
      rewrite ?andb_true_r;
      try (destruct (phase_is (Some p) o) eqn:H;
           [destruct (Er p eq_refl H); congruence|]);
      try (destruct (phase_is (Some p') o) eqn:H';
           [specialize (Ea p' eq_refl H'); congruence|]);
      destruct flag; cbn [andb];
      destruct (Z.ltb_spec d today); destruct (Z.eqb_spec d today);
      destruct (Z.ltb_spec today d); destruct (Z.leb_spec d in_10_days);
      cbn [andb]; lia.
  - destruct refused_phase as [p|], atrasado_phase as [p'|];
      rewrite ?andb_true_r;
      try (destruct (phase_is (Some p) o) eqn:H);
      try (destruct (phase_is (Some p') o) eqn:H');
      try lia.
    exfalso. exact (Era p p' eq_refl eq_refl H H').
Qed.

(** X24.
    On a store whose orders carry the registry row of their phase, the
    agenda of the dashboard counts every order at most once in each of its
    three columns, and only if the order has the date of the column: the
    late orders (those of the [RECUSADA] and [ATRASADO] rows, and the
    flagged ones with the date behind), those of today and those of the
    ten days ahead never overlap. *)
Theorem status_metrics_count_once (today in_10_days : date) (s : Store) :
  phase_keyed s = true ->
  let m := calculate_status_metrics today in_10_days s in
  provas (em_atraso m) + provas (hoje m) + provas (proximos_10_dias m)
  <= count_where (fun o => is_some (prova_date o)) s
  /\ retiradas (em_atraso m) + retiradas (hoje m)
     + retiradas (proximos_10_dias m)
     <= count_where (fun o => is_some (retirada_date o)) s
  /\ devolucoes (em_atraso m) + devolucoes (hoje m)
     + devolucoes (proximos_10_dias m)
     <= count_where (fun o => is_some (devolucao_date o)) s.
Proof.
  intros K m. subst m. unfold calculate_status_metrics. cbv zeta.
  rewrite of_phases_columns. cbv zeta.
  cbn [em_atraso hoje proximos_10_dias provas retiradas devolucoes].
  set (refused_phase := first (phases_named "RECUSADA" (phases s))).
  set (atrasado_phase := first (phases_named "ATRASADO" (phases s))).
  assert (Hr : forall o, In o (orders s) ->
                 forall p, refused_phase = Some p ->
                   phase_is (Some p) o = true ->
                   phase_name_is "RECUSADA" o = true).
  { intros o Hin p E H. exact (phase_keyed_name s o _ p K Hin E H). }
  assert (Ha : forall o, In o (orders s) ->
                 forall p, atrasado_phase = Some p ->
                   phase_is (Some p) o = true ->
                   phase_name_is "ATRASADO" o = true).
  { intros o Hin p E H. exact (phase_keyed_name s o _ p K Hin E H). }
  assert (Hone : forall (col : ServiceOrder -> option date) x,
             match x with
             | Some p => count_where (fun o => phase_is (Some p) o
                                               && is_some (col o))%bool s
             | None => 0
             end
             = sum_over
                 (fun o => match x with
                           | Some p => if (phase_is (Some p) o
                                           && is_some (col o))%bool
                                       then 1 else 0
                           | None => 0
                           end) (orders s)).
  { intros col [p|]; [apply count_where_sum|].
    symmetry. apply sum_over_zero. }
  rewrite !Hone, !count_where_sum.
  repeat split.
  - rewrite <- !sum_over_add. apply sum_over_le. intros o Hin.
    pose proof (column_once today in_10_days o (prova_date o) false
                  refused_phase atrasado_phase (Hr o Hin) (Ha o Hin)) as H.
    cbv beta zeta in H. cbn [andb] in H. lia.
  - rewrite <- !sum_over_add. apply sum_over_le. intros o Hin.
    pose proof (column_once today in_10_days o (retirada_date o)
                  (esta_atrasada o)
                  refused_phase atrasado_phase (Hr o Hin) (Ha o Hin)) as H.
    cbv beta zeta in H. lia.
  - rewrite <- !sum_over_add. apply sum_over_le. intros o Hin.
    pose proof (column_once today in_10_days o (devolucao_date o)
                  (esta_atrasada o)
                  refused_phase atrasado_phase (Hr o Hin) (Ha o Hin)) as H.
    cbv beta zeta in H. lia.
Qed.

(** X24 at a sample.
    The store of the order in production and the pending order, on the
    samples' today. *)
Lemma status_metrics_count_once_witness :
  phase_keyed store_two_orders = true
  /\ let m := calculate_status_metrics day (day + 10) store_two_orders in
     retiradas (em_atraso m) + retiradas (hoje m)
     + retiradas (proximos_10_dias m)
     <= count_where (fun o => is_some (retirada_date o)) store_two_orders.
Proof.
  assert (K : phase_keyed store_two_orders = true) by (vm_compute; reflexivity).
  split; [exact K|].
  exact (proj1 (proj2 (status_metrics_count_once day (day + 10)
                         store_two_orders K))).
Defined.

Lemma active_still_open (o : ServiceOrder) :
  phase_name_in active_phases o = true -> still_open o = true.
Proof.
  unfold phase_name_in, still_open.
  destruct (service_order_phase o) as [p|]; [|discriminate].
  intros H. apply mem_str_in in H. simpl in H.
  destruct H as [H|[H|[H|[H|[]]]]]; rewrite <- H; reflexivity.
Qed.

(** X25.
    The agenda of the dashboard against the calendar predicates of the
    model, with the ten days counted from today.  Every order the agenda
    counts for today is an order of today for the model, and every return
    it counts for the ten days ahead is due within ten days for the model.
    The agenda counts the four active phases only, the model every phase
    but [FINALIZADO] and [RECUSADA]: when no order is in another phase
    (such as [ATRASADO]), the returns of the ten days ahead are exactly
    the orders due within ten days, and no order of today is missed. *)
Theorem status_metrics_calendar (today : date) (s : Store) :
  let m := calculate_status_metrics today (today + 10) s in
  let n_hoje := count_where (is_hoje today) s in
  let n_proximos := count_where (is_proximos_10_dias today) s in
  provas (hoje m) <= n_hoje
  /\ retiradas (hoje m) <= n_hoje
  /\ devolucoes (hoje m) <= n_hoje
  /\ devolucoes (proximos_10_dias m) <= n_proximos
  /\ (Forall (fun o => still_open o = true ->
                       phase_name_in active_phases o = true) (orders s) ->
      n_hoje <= provas (hoje m) + retiradas (hoje m) + devolucoes (hoje m)
      /\ devolucoes (proximos_10_dias m) = n_proximos).
Proof.
  intros m n_hoje n_proximos. subst m n_hoje n_proximos.
  unfold calculate_status_metrics. cbv zeta.
  cbn [hoje proximos_10_dias provas retiradas devolucoes].
  rewrite !count_where_sum.
  assert (Hw : forall o,
             is_proximos_10_dias today o
             = (date_within today (today + 10) (devolucao_date o)
                && still_open o)%bool).
  { intros o. unfold is_proximos_10_dias, date_within. cbv zeta.
    now destruct (devolucao_date o). }
  repeat split.
  - apply sum_over_le. intros o _. unfold is_hoje.
    destruct (phase_name_in active_phases o) eqn:Act;
      [rewrite (active_still_open o Act)|rewrite andb_false_r].
    + destruct (date_is today (prova_date o)); cbn [andb orb]; [lia|].
      destruct (_ && _)%bool; lia.
    + destruct (_ && _)%bool; lia.
  - apply sum_over_le. intros o _. unfold is_hoje.
    destruct (phase_name_in active_phases o) eqn:Act;
      [rewrite (active_still_open o Act)|rewrite andb_false_r].
    + destruct (date_is today (retirada_date o)); cbn [andb orb];
        [rewrite orb_true_r; cbn [andb orb]; lia|].
      destruct (_ && _)%bool; lia.
    + destruct (_ && _)%bool; lia.
  - apply sum_over_le. intros o _. unfold is_hoje.
    destruct (phase_name_in active_phases o) eqn:Act;
      [rewrite (active_still_open o Act)|rewrite andb_false_r].
    + destruct (date_is today (devolucao_date o)); cbn [andb orb];
        [rewrite orb_true_r; cbn [andb orb]; lia|].
      destruct (_ && _)%bool; lia.
    + destruct (_ && _)%bool; lia.
  - apply sum_over_le. intros o _. rewrite Hw.
    destruct (phase_name_in active_phases o) eqn:Act;
      [rewrite (active_still_open o Act)|rewrite andb_false_r].
    + lia.
    + destruct (_ && _)%bool; lia.
  - rewrite <- !sum_over_add. apply sum_over_le. intros o Hin.
    rewrite Forall_forall in H. specialize (H o Hin). unfold is_hoje.
    destruct (still_open o) eqn:Op.
    + rewrite (H eq_refl).
      destruct (date_is today (prova_date o)),
               (date_is today (retirada_date o)),
               (date_is today (devolucao_date o)); cbn [andb orb]; lia.
    + rewrite andb_false_r.
      repeat match goal with
             | |- context [if ?c then _ else _] => destruct c
             end; lia.
  - apply sum_over_ext. intros o Hin.
    rewrite Forall_forall in H. specialize (H o Hin). rewrite Hw.
    destruct (still_open o) eqn:Op.
    + now rewrite (H eq_refl).
    + destruct (phase_name_in active_phases o) eqn:Act;
        [rewrite (active_still_open o Act) in Op; discriminate|].
      reflexivity.
Qed.

(** ** The charts of the dashboard *)

Section Grouping.

Context {A V : Type}.
Variable key : A -> string.
Variable init : V.
Variable step : A -> V -> V.

Lemma bump_keys (k : string) (f : V -> V) (d : list (string * V)) :
  map fst (bump k init f d)
  = if mem_str k (map fst d) then map fst d else map fst d ++ [k].
Proof.
  unfold mem_str. induction d as [|[k' v] d IH]; cbn [bump map existsb fst app];
    [reflexivity|].
  rewrite (String.eqb_sym k k').
  destruct (String.eqb k' k); cbn [orb map fst]; [reflexivity|].
  rewrite IH. now destruct (existsb (String.eqb k) (map fst d)).
Qed.

Lemma bump_NoDup (k : string) (f : V -> V) (d : list (string * V)) :
  NoDup (map fst d) -> NoDup (map fst (bump k init f d)).
Proof.
  intros H. rewrite bump_keys.
  destruct (mem_str k (map fst d)) eqn:E; [exact H|].
  apply mem_str_false in E.
  apply NoDup_app; [exact H|repeat constructor; intros []|].
  intros x Hx [Hk|[]]. subst. contradiction.
Qed.

Lemma bump_has (k : string) (f : V -> V) (d : list (string * V)) (k' : string) :
  In k' (map fst (bump k init f d)) <-> k' = k \/ In k' (map fst d).
Proof.
  rewrite bump_keys. destruct (mem_str k (map fst d)) eqn:E.
  - apply mem_str_in in E. split; [now right|]. intros [->|H]; assumption.
  - rewrite in_app_iff. cbn [In]. split.
    + intros [H|[H|[]]]; [now right|now left].
    + intros [H|H]; [right; now left|now left].
Qed.

Lemma bump_sum (m : V -> Z) (delta : Z) (k : string) (f : V -> V)
    (d : list (string * V)) :
  m init = 0 ->
  (forall v, m (f v) = m v + delta) ->
  sum_over (fun kv => m (snd kv)) (bump k init f d)
  = sum_over (fun kv => m (snd kv)) d + delta.
Proof.
  intros H0 Hf. unfold sum_over.
  induction d as [|[k' v] d IH]; cbn [bump map fold_right snd].
  - rewrite Hf, H0. lia.
  - destruct (String.eqb k' k); cbn [map fold_right snd];
      [rewrite Hf|rewrite IH]; lia.
Qed.

Lemma bump_Forall (P : V -> Prop) (k : string) (f : V -> V)
    (d : list (string * V)) :
  P (f init) ->
  (forall v, P v -> P (f v)) ->
  Forall (fun kv => P (snd kv)) d ->
  Forall (fun kv => P (snd kv)) (bump k init f d).
Proof.
  intros H0 Hf. induction d as [|[k' v] d IH]; cbn [bump]; intros H.
  - constructor; [exact H0|constructor].
  - inversion H; subst. destruct (String.eqb k' k); constructor; cbn in *; auto.
Qed.

(** The loop over the query set. *)
Lemma grouped (m : V -> Z) (delta : A -> Z) (P : V -> Prop)
    (queryset : list A) (d : list (string * V)) :
  m init = 0 ->
  (forall x v, m (step x v) = m v + delta x) ->
  (forall x, P (step x init)) ->
  (forall x v, P v -> P (step x v)) ->
  NoDup (map fst d) ->
  Forall (fun kv => P (snd kv)) d ->
  let d' := fold_left (fun d x => bump (key x) init (step x) d) queryset d in
  NoDup (map fst d')
  /\ sum_over (fun kv => m (snd kv)) d'
     = sum_over (fun kv => m (snd kv)) d + sum_over delta queryset
  /\ Forall (fun kv => P (snd kv)) d'
  /\ forall k, In k (map fst d')
               <-> In k (map fst d) \/ In k (map key queryset).
Proof.
  intros H0 Hm P0 HP. revert d.
  induction queryset as [|x l IH]; intros d Hn Hd; cbn [fold_left].
  - cbv zeta. split; [exact Hn|]. split; [unfold sum_over; cbn; lia|].
    split; [exact Hd|]. intros k. cbn. tauto.
  - specialize (IH (bump (key x) init (step x) d)
                  (bump_NoDup _ _ _ Hn)
                  (bump_Forall P _ _ _ (P0 x) (HP x) Hd)).
    cbv zeta in *. destruct IH as [I1 [I2 [I3 I4]]].
    split; [exact I1|]. split; [|split; [exact I3|]].
    + rewrite I2, (bump_sum m (delta x)); [|exact H0|apply Hm].
      unfold sum_over. cbn [map fold_right]. lia.
    + intros k. rewrite I4, bump_has. cbn [map In].
      split; [intros [[->|H]|H]|intros [H|[<-|H]]]; auto.
Qed.

End Grouping.

Section Sorting.

Context {A : Type}.
Variable key : A -> Z.

Lemma insert_desc_sum (g : A -> Z) (x : A) (l : list A) :
  sum_over g (insert_desc key x l) = g x + sum_over g l.
Proof.
  unfold sum_over. induction l as [|y t IH]; cbn [insert_desc map fold_right];
    [reflexivity|].
  destruct (key x <? key y); cbn [map fold_right]; [rewrite IH|]; lia.
Qed.

Lemma insert_desc_In (x y : A) (l : list A) :
  In y (insert_desc key x l) <-> y = x \/ In y l.
Proof.
  induction l as [|z t IH]; cbn [insert_desc In].
  - split; [intros [H|[]]; now left|intros [H|[]]; now left].
  - destruct (key x <? key z); cbn [In]; [rewrite IH|];
      split; intros H; intuition auto.
Qed.

Lemma insert_desc_NoDup {B} (h : A -> B) (x : A) (l : list A) :
  ~ In (h x) (map h l) -> NoDup (map h l) ->
  NoDup (map h (insert_desc key x l)).
Proof.
  induction l as [|z t IH]; cbn [insert_desc map]; intros Hx Hn.
  - repeat constructor. intros [].
  - destruct (key x <? key z); cbn [map].
    + inversion Hn; subst. constructor.
      * rewrite in_map_iff. intros [y [E Hy]].
        apply insert_desc_In in Hy. destruct Hy as [->|Hy].
        -- apply Hx. left. now symmetry.
        -- match goal with H : ~ In (h z) _ |- _ => apply H end.
           rewrite <- E. now apply in_map.
      * apply IH; [|assumption]. intros H. apply Hx. now right.
    + constructor; assumption.
Qed.

Lemma insert_desc_descending (x : A) (l : list A) :
  descending (map key l) -> descending (map key (insert_desc key x l)).
Proof.
  induction l as [|z t IH]; cbn [insert_desc map descending]; intros H.
  - split; [constructor|exact I].
  - destruct H as [Hz Ht].
    destruct (Z.ltb_spec (key x) (key z)); cbn [map descending].
    + split; [|now apply IH].
      rewrite Forall_forall. intros k Hk.
      rewrite in_map_iff in Hk. destruct Hk as [y [<- Hy]].
      apply insert_desc_In in Hy. destruct Hy as [->|Hy]; [lia|].
      rewrite Forall_forall in Hz. apply Hz. now apply in_map.
    + split; [|now split]. constructor; [lia|].
      rewrite Forall_forall in *. intros k Hk. specialize (Hz k Hk). lia.
Qed.

Lemma sort_desc_spec {B} (g : A -> Z) (h : A -> B) (l : list A) :
  sum_over g (sort_desc key l) = sum_over g l
  /\ (forall y, In y (sort_desc key l) <-> In y l)
  /\ (NoDup (map h l) -> NoDup (map h (sort_desc key l)))
  /\ descending (map key (sort_desc key l)).
Proof.
  unfold sort_desc. induction l as [|x l [I1 [I2 [I3 I4]]]]; cbn [fold_right].
  - repeat split; auto.
  - split; [|split; [|split]].
    + rewrite insert_desc_sum, I1. unfold sum_over. cbn [map fold_right]. lia.
    + intros y. rewrite insert_desc_In, I2. cbn [In].
      split; intros [H|H]; auto.
    + cbn [map]. intros Hn. inversion Hn; subst.
      apply insert_desc_NoDup; [|now apply I3].
      rewrite in_map_iff. intros [y [E Hy]]. apply I2 in Hy.
      match goal with H : ~ In (h x) _ |- _ => apply H end.
      rewrite <- E. now apply in_map.
    + now apply insert_desc_descending.
Qed.

End Sorting.

Lemma sum_over_map {A B} (f : A -> B) (g : B -> Z) (l : list A) :
  sum_over g (map f l) = sum_over (fun x => g (f x)) l.
Proof. unfold sum_over. now rewrite map_map. Qed.

Lemma upper_or_default_nonempty (x : option string) :
  upper_or_default x <> EmptyString.
Proof. destruct x as [[|c r]|]; discriminate. Qed.

Lemma total_vendido_sum (queryset : list ServiceOrder) :
  total_vendido queryset
  = sum_over (fun o => if phase_name_in fases_fechadas o
                       then match total_value o with Some v => v | None => 0 end
                       else 0) queryset.
Proof.
  unfold total_vendido, qs_fechados, sum_over.
  assert (H : forall acc : Decimal,
             fold_left (fun total order => add_if total (total_value order))
               (filter (phase_name_in fases_fechadas) queryset) acc
             = acc + fold_right Z.add 0
                       (map (fun o => if phase_name_in fases_fechadas o
                                      then match total_value o with
                                           | Some v => v
                                           | None => 0
                                           end
                                      else 0) queryset)).
  { induction queryset as [|o l IH]; intros acc; cbn [filter map fold_right].
    - cbn. unfold Decimal in *. lia.
    - destruct (phase_name_in fases_fechadas o); cbn [fold_left].
      + rewrite IH, add_if_plus. unfold Decimal in *. lia.
      + rewrite IH. unfold Decimal in *. lia. }
  rewrite H. unfold Decimal in *. lia.
Qed.


